(** * Interview analysis pipeline: transcript utilities and the caching,
      retrying two-stage controller

    A shallow embedding of [pipeline/utils.py], [pipeline/models.py],
    [pipeline/pipeline.py] and the request handler of [main.py].

    Conventions of the embedding.
    - A Python [str] is a Rocq [string], one [ascii] per code point, so the
      model covers the code points U+0000 to U+00FF; [lower], [isspace] and
      [isprintable] follow CPython on that range.
    - A Python [dict] is an insertion-ordered association list without
      repeated keys ([PyDict]).
    - A call that may raise returns a [result]; code that mutates the
      pipeline object, calls the generation backend or logs runs in the
      state-and-error monad [M] over [pstate].
    - The generation backend, [hashlib.md5] and pydantic's
      [model_dump_json] are external: they are parameters. So is the error
      of [str.encode], which Python raises on a text with a lone surrogate:
      such a code point is outside the range above, and the parameter
      keeps that path of the code in the model. *)

From Stdlib Require Import List String Ascii NArith ZArith Bool Lia.
From Stdlib Require Import Sorted Permutation.
Import ListNotations.
Open Scope string_scope.

(* ================================================================== *)
(** * Part I: definitions                                              *)
(* ================================================================== *)

(** ** Python strings *)

Module PyStr.

(** The two-character separator of [format_transcript]. *)
Definition LF : ascii := ascii_of_N 10.
Definition blank_line : string := String LF (String LF EmptyString).

Definition in_range (lo hi n : N) : bool := ((lo <=? n) && (n <=? hi))%N.

(** [str.lower] on one code point: A-Z and the upper-case letters of the
    Latin-1 supplement (U+00C0 to U+00DE, the multiplication sign apart). *)
Definition lower_char (c : ascii) : ascii :=
  let n := N_of_ascii c in
  if in_range 65 90 n || (in_range 192 222 n && negb (n =? 215)%N)
  then ascii_of_N (n + 32) else c.

Fixpoint lower (s : string) : string :=
  match s with
  | EmptyString => EmptyString
  | String c t => String (lower_char c) (lower t)
  end.

(** [str.isspace] on one code point. *)
Definition isspace (c : ascii) : bool :=
  let n := N_of_ascii c in
  in_range 9 13 n || in_range 28 32 n || (n =? 133)%N || (n =? 160)%N.

Fixpoint lstrip (s : string) : string :=
  match s with
  | EmptyString => EmptyString
  | String c t => if isspace c then lstrip t else s
  end.

Fixpoint rstrip (s : string) : string :=
  match s with
  | EmptyString => EmptyString
  | String c t =>
      match rstrip t with
      | EmptyString => if isspace c then EmptyString else String c EmptyString
      | t' => String c t'
      end
  end.

(** [s.strip()] *)
Definition strip (s : string) : string := rstrip (lstrip s).

(** Text that is empty or all whitespace. *)
Fixpoint blank (s : string) : bool :=
  match s with
  | EmptyString => true
  | String c t => isspace c && blank t
  end.

(** [sub in s] *)
Fixpoint contains (sub s : string) : bool :=
  prefix sub s ||
  match s with
  | EmptyString => false
  | String _ t => contains sub t
  end.

(** [s.startswith(p)] *)
Definition startswith (s p : string) : bool := prefix p s.

(** [sep.join(parts)] *)
Definition join (sep : string) (parts : list string) : string :=
  String.concat sep parts.

(** [bool(s)] *)
Definition truthy (s : string) : bool :=
  match s with EmptyString => false | _ => true end.

(** [s.index(sub)], [None] standing for the [ValueError] of a miss. *)
Definition index (s sub : string) : option nat := String.index 0 sub s.

(** [a < b] on strings: lexicographic on code points. *)
Definition lt (a b : string) : bool := String.ltb a b.

(** [str.isprintable] on one code point. *)
Definition isprintable (c : ascii) : bool :=
  let n := N_of_ascii c in
  negb (in_range 0 31 n || in_range 127 160 n || (n =? 173)%N).

Definition hex_digit (n : N) : ascii :=
  if (n <? 10)%N then ascii_of_N (48 + n) else ascii_of_N (87 + n).

Definition quote1 : ascii := ascii_of_N 39.
Definition quote2 : ascii := ascii_of_N 34.
Definition backslash : ascii := ascii_of_N 92.

Definition repr_char (q c : ascii) : string :=
  let n := N_of_ascii c in
  if (Ascii.eqb c q || Ascii.eqb c backslash)%bool
  then String backslash (String c EmptyString)
  else if (n =? 9)%N then String backslash "t"
  else if (n =? 10)%N then String backslash "n"
  else if (n =? 13)%N then String backslash "r"
  else if isprintable c then String c EmptyString
  else String backslash
         (String "x" (String (hex_digit (n / 16))
                        (String (hex_digit (n mod 16)) EmptyString))).

Fixpoint repr_body (q : ascii) (s : string) : string :=
  match s with
  | EmptyString => EmptyString
  | String c t => repr_char q c ++ repr_body q t
  end.

Fixpoint has_char (c : ascii) (s : string) : bool :=
  match s with
  | EmptyString => false
  | String d t => Ascii.eqb c d || has_char c t
  end.

(** [repr(s)]: single quotes, unless the text has a single quote and no
    double quote. *)
Definition repr (s : string) : string :=
  let q := if has_char quote1 s && negb (has_char quote2 s)
           then quote2 else quote1 in
  String q (repr_body q s ++ String q EmptyString).

End PyStr.

(** ** Python dictionaries with string keys *)

Module PyDict.

Definition t (V : Type) : Type := list (string * V).

Section Ops.
Context {V : Type}.

(** [d.get(k)] *)
Fixpoint get (k : string) (d : t V) : option V :=
  match d with
  | [] => None
  | (k', v) :: rest => if String.eqb k k' then Some v else get k rest
  end.

(** [k in d] *)
Definition contains (k : string) (d : t V) : bool :=
  match get k d with Some _ => true | None => false end.

(** [d.keys()], [d.items()], [len(d)], [bool(d)] *)
Definition keys (d : t V) : list string := map fst d.
Definition items (d : t V) : list (string * V) := d.
Definition len (d : t V) : nat := List.length d.
Definition truthy (d : t V) : bool :=
  match d with [] => false | _ => true end.

(** [d[k] = v]: an existing key keeps its position, a new key goes
    last. *)
Fixpoint set (k : string) (v : V) (d : t V) : t V :=
  match d with
  | [] => [(k, v)]
  | (k', v') :: rest =>
      if String.eqb k k' then (k, v) :: rest else (k', v') :: set k v rest
  end.

(** What makes an association list a dictionary. *)
Definition wf (d : t V) : Prop := NoDup (keys d).

End Ops.

End PyDict.

(** ** Exceptions and results *)

Inductive exc_class : Type :=
| Exception
| ValueError
| AttributeError
| TypeError
| KeyError
| Subclass (name : string) (base : exc_class).

(** [issubclass(c, ValueError)] *)
Fixpoint is_ValueError (c : exc_class) : bool :=
  match c with
  | ValueError => true
  | Subclass _ base => is_ValueError base
  | _ => false
  end.

(** An exception object: its class and [str(e)]. *)
Record exn : Type := mk_exn { exn_class : exc_class; exn_msg : string }.

Inductive result (A : Type) : Type :=
| Ok (a : A)
| Raise (e : exn).
Arguments Ok {A} a.
Arguments Raise {A} e.

Definition rbind {A B : Type} (r : result A) (k : A -> result B) : result B :=
  match r with
  | Ok a => k a
  | Raise e => Raise e
  end.

Fixpoint rmap {A B : Type} (f : A -> result B) (l : list A) : result (list B) :=
  match l with
  | [] => Ok []
  | a :: rest =>
      rbind (f a) (fun b => rbind (rmap f rest) (fun bs => Ok (b :: bs)))
  end.

(** ** Python values that reach the transcript functions *)

#[local] Set Warnings "-register-all".

Inductive pyval : Type :=
| VStr (s : string)
| VDict (items : list (string * pyval)).

Definition pydict : Type := PyDict.t pyval.

Definition type_name (v : pyval) : string :=
  match v with VStr _ => "str" | VDict _ => "dict" end.

Definition no_attribute (v : pyval) (attr : string) : exn :=
  mk_exn AttributeError
    ("'" ++ type_name v ++ "' object has no attribute '" ++ attr ++ "'").

(** [str(v)], as an f-string renders a value. *)
Fixpoint py_str (v : pyval) : string :=
  match v with
  | VStr s => s
  | VDict d =>
      "{" ++ PyStr.join ", "
               ((fix entries (l : list (string * pyval)) : list string :=
                   match l with
                   | [] => []
                   | (k, x) :: rest =>
                       (PyStr.repr k ++ ": " ++
                          match x with
                          | VStr s => PyStr.repr s
                          | VDict _ => py_str x
                          end) :: entries rest
                   end) d)
          ++ "}"
  end.

(** [bool(v)] *)
Definition py_truthy (v : pyval) : bool :=
  match v with
  | VStr s => PyStr.truthy s
  | VDict d => PyDict.truthy d
  end.

(** [d[k]] *)
Definition getitem {V : Type} (d : PyDict.t V) (k : string) : result V :=
  match PyDict.get k d with
  | Some v => Ok v
  | None => Raise (mk_exn KeyError (PyStr.repr k))
  end.

(** A flat transcript, [Dict[str, str]], as a dictionary of values. *)
Definition of_texts (m : PyDict.t string) : pydict :=
  map (fun kv => (fst kv, VStr (snd kv))) m.

(** The nested shape: the transcript under the key ["transcript"]. *)
Definition wrapped (m : PyDict.t string) : pydict :=
  [("transcript", VDict (of_texts m))].

(** ** [pipeline/models.py] *)

Inductive Sentiment : Type := positive | negative | neutral.
Inductive Priority : Type := High | Medium | Low.

Record PerformanceSnippet : Type := {
  topic : string;
  quote : string;
  assessment : string;
  type : Sentiment
}.

Record AnalysisReport : Type := { snippets : list PerformanceSnippet }.

Record CandidateSummary : Type := {
  headline : string;
  overall_impression : string
}.

Record StrengthInsight : Type := {
  strength_skill : string;
  strength_evidence : string
}.

Record WeaknessInsight : Type := {
  weakness_skill : string;
  weakness_evidence : string;
  priority : Priority
}.

Record Insights : Type := {
  strengths : list StrengthInsight;
  weaknesses : list WeaknessInsight
}.

Record RoadmapStep : Type := {
  timespan : string;
  focus : string;
  activities : list string
}.

Record RecommendedResource : Type := {
  resource_topic : string;
  link : string;
  reason : string
}.

Record DevelopmentPlan : Type := {
  priority_topics : list string;
  roadmap_2_weeks : list RoadmapStep;
  recommended_resources : list RecommendedResource
}.

Record FinalReport : Type := {
  candidate_summary : CandidateSummary;
  insights : Insights;
  development_plan : DevelopmentPlan
}.

(** ** [pipeline/utils.py] *)

Module Utils.

(** The nested-structure step shared by both transcript functions:
    [if "transcript" in transcript_obj: transcript_obj = transcript_obj["transcript"]]. *)
Definition unwrap (transcript_obj : pydict) : pyval :=
  match PyDict.get "transcript" transcript_obj with
  | Some inner => inner
  | None => VDict transcript_obj
  end.

Definition has_interviewer (k : string) : bool :=
  PyStr.contains "interviewer" (PyStr.lower k).
Definition has_candidate (k : string) : bool :=
  PyStr.contains "candidate" (PyStr.lower k).

(** The local function [sort_key]. *)
Definition sort_key (k : string) : nat * string :=
  if has_interviewer k then (0, k)
  else if has_candidate k then (1, k)
  else (2, k).

(** [a < b] on the pairs [sort_key] returns. *)
Definition key_lt (a b : nat * string) : bool :=
  (fst a <? fst b)%nat || ((fst a =? fst b)%nat && PyStr.lt (snd a) (snd b)).

(** [sorted(xs, key=sort_key)]: Python's sort is stable and compares with
    [<] only, which determines its result; it is written here as a
    stable insertion sort. *)
Fixpoint insert (x : string) (l : list string) : list string :=
  match l with
  | [] => [x]
  | y :: rest =>
      if key_lt (sort_key y) (sort_key x) then y :: insert x rest
      else x :: y :: rest
  end.

Definition sorted (xs : list string) : list string :=
  fold_right insert [] xs.

Definition role (key : string) : string :=
  if has_interviewer key then "Interviewer" else "Candidate".

Definition format_transcript (transcript_obj : pydict) : result string :=
  match unwrap transcript_obj with
  | VStr s => Raise (no_attribute (VStr s) "keys")
  | VDict d =>
      let sorted_keys := sorted (PyDict.keys d) in
      rbind
        (rmap (fun key =>
                 rbind (getitem d key) (fun value =>
                 Ok (role key ++ ": " ++ py_str value)))
              sorted_keys)
        (fun lines => Ok (PyStr.join PyStr.blank_line lines))
  end.

(** The loop over [transcript_obj.items()] of [validate_transcript]. *)
Fixpoint check_entries (entries : list (string * pyval))
  : result (bool * option string) :=
  match entries with
  | [] => Ok (true, None)
  | (key, value) :: rest =>
      if negb (py_truthy value)
      then Ok (false, Some ("Entry '" ++ key ++ "' is empty"))
      else
        match value with
        | VStr s =>
            if negb (PyStr.truthy (PyStr.strip s))
            then Ok (false, Some ("Entry '" ++ key ++ "' is empty"))
            else check_entries rest
        | VDict _ => Raise (no_attribute value "strip")
        end
  end.

Definition validate_transcript (transcript_obj : pydict)
  : result (bool * option string) :=
  match unwrap transcript_obj with
  | VStr s =>
      if negb (PyStr.truthy s)
      then Ok (false, Some "Transcript cannot be empty")
      else if (String.length s <? 2)%nat
      then Ok (false, Some "Transcript must have at least 2 exchanges")
      else Raise (no_attribute (VStr s) "keys")
  | VDict d =>
      if negb (PyDict.truthy d)
      then Ok (false, Some "Transcript cannot be empty")
      else if (PyDict.len d <? 2)%nat
      then Ok (false, Some "Transcript must have at least 2 exchanges")
      else
        let has_interviewer := existsb has_interviewer (PyDict.keys d) in
        let has_candidate := existsb has_candidate (PyDict.keys d) in
        if negb has_interviewer
        then Ok (false, Some "Transcript must include interviewer questions")
        else if negb has_candidate
        then Ok (false, Some "Transcript must include candidate responses")
        else check_entries (PyDict.items d)
  end.

(** The per-resource loop of [validate_report_quality]. *)
Definition resource_issue (resource : RecommendedResource) : list string :=
  if negb (PyStr.truthy (link resource))
     || negb (PyStr.truthy (PyStr.strip (link resource)))
  then ["Resource '" ++ resource_topic resource ++ "' has empty link"]
  else if negb (PyStr.startswith (link resource) "http://"
                || PyStr.startswith (link resource) "https://")
  then ["Resource '" ++ resource_topic resource
          ++ "' has invalid link format"]
  else [].

Definition append_if (c : bool) (issue : string) (issues : list string)
  : list string :=
  if c then (issues ++ [issue])%list else issues.

Definition validate_report_quality (report : FinalReport)
  : bool * list string :=
  let issues := [] in
  let issues := append_if
    (String.length (headline (candidate_summary report)) <? 20)%nat
    "Headline is too short/generic" issues in
  let issues := append_if
    (String.length (overall_impression (candidate_summary report)) <? 50)%nat
    "Overall impression lacks detail" issues in
  let issues := append_if
    (List.length (strengths (insights report)) =? 0)%nat
    "No strengths identified" issues in
  let issues := append_if
    (List.length (weaknesses (insights report)) =? 0)%nat
    "No weaknesses identified" issues in
  let issues := append_if
    (List.length (priority_topics (development_plan report)) =? 0)%nat
    "No priority topics defined" issues in
  let issues := append_if
    (List.length (roadmap_2_weeks (development_plan report)) <? 2)%nat
    "2-week roadmap insufficiently detailed" issues in
  let issues := append_if
    (List.length (recommended_resources (development_plan report)) =? 0)%nat
    "No learning resources provided" issues in
  let issues :=
    fold_left (fun acc resource => (acc ++ resource_issue resource)%list)
      (recommended_resources (development_plan report)) issues in
  ((List.length issues =? 0)%nat, issues).

End Utils.

(** ** [pipeline/pipeline.py] *)

(** The logger calls of the pipeline, one constructor per message. *)
Inductive message : Type :=
| MsgRule                                   (* "=" * 60 *)
| MsgStarting
| MsgValidating
| MsgValidationFailed (error_msg : option string)
| MsgTranscriptValid
| MsgFormatted (chars : nat)
| MsgCacheHit
| MsgCacheMiss
| MsgStage1
| MsgAnalysisComplete (n_snippets : nat)
| MsgStage2
| MsgSynthesisComplete
| MsgValidatingQuality
| MsgQualityIssues
| MsgIssue (issue : string)
| MsgQualityValidated
| MsgCached
| MsgCompleted
| MsgCacheCleared
| MsgAttempt (stage_name : string) (attempt max_retries : Z)
| MsgSuccess (stage_name : string)
| MsgAttemptFailed (stage_name : string) (attempt : Z) (e : exn)
| MsgAllFailed (stage_name : string)
| MsgRetrying (stage_name : string).

Inductive level : Type := INFO | WARNING | ERROR.

(** What a run does besides computing: it logs and it calls the backend. *)
Inductive event : Type :=
| Log (lvl : level) (msg : message)
| Invoke (stage_name : string) (input : string).

(** The attributes of an [InterviewAnalysisPipeline] the controller reads
    and writes; [cache = None] is Python's [None]. *)
Record pipeline : Type := {
  enable_cache : bool;
  max_retries : Z;
  cache : option (PyDict.t FinalReport)
}.

(** [InterviewAnalysisPipeline.__init__], the model and chain set-up apart. *)
Definition __init__ (enable_cache : bool) (max_retries : Z) : pipeline :=
  {| enable_cache := enable_cache;
     max_retries := max_retries;
     cache := if enable_cache then Some [] else None |}.

Definition none_error (text : string) : exn := mk_exn TypeError text.

Definition none_has_no_attribute (attr : string) : exn :=
  mk_exn AttributeError
    ("'NoneType' object has no attribute '" ++ attr ++ "'").

(** The value of [get_cache_stats]: a dictionary of these. *)
Inductive stat : Type :=
| SBool (b : bool)
| SInt (n : nat)
| SKeys (ks : list string).

(** [str(error_msg)] inside an f-string. *)
Definition str_of_optional (o : option string) : string :=
  match o with Some s => s | None => "None" end.

Section Pipeline.

(** The state of the generation backend, and the two chains: a call
    consumes the prompt input and the backend state, and either returns
    the parsed object or raises. *)
Context {W : Type}.
Variable analyst_chain : string -> W -> result AnalysisReport * W.
Variable synthesis_chain : string -> W -> result FinalReport * W.

(** [report.model_dump_json(indent=2)] *)
Variable model_dump_json : AnalysisReport -> string.

(** [text.encode()] raises a [UnicodeEncodeError] on a text that cannot
    be encoded, one with a lone surrogate: [encode_error text] is that
    error, and [None] when the text can be encoded. *)
Variable encode_error : string -> option exn.

(** [hashlib.md5(text.encode()).hexdigest()], for a text that can be
    encoded. *)
Variable md5_hexdigest : string -> string.

Record pstate : Type := {
  self : pipeline;
  world : W;
  trace : list event
}.

Definition M (A : Type) : Type := pstate -> result A * pstate.

Definition ret {A : Type} (a : A) : M A := fun st => (Ok a, st).

Definition raise {A : Type} (e : exn) : M A := fun st => (Raise e, st).

Definition bind {A B : Type} (m : M A) (k : A -> M B) : M B :=
  fun st =>
    match m st with
    | (Ok a, st') => k a st'
    | (Raise e, st') => (Raise e, st')
    end.

Definition lift {A : Type} (r : result A) : M A := fun st => (r, st).

(** The state after more events. *)
Definition extend (st : pstate) (evs : list event) : pstate :=
  {| self := self st; world := world st; trace := trace st ++ evs |}.

Definition emit (ev : event) : M unit := fun st => (Ok tt, extend st [ev]).

Definition log (lvl : level) (msg : message) : M unit := emit (Log lvl msg).

Definition get_self : M pipeline := fun st => (Ok (self st), st).

Definition set_cache (c : option (PyDict.t FinalReport)) : M unit :=
  fun st =>
    (Ok tt, {| self := {| enable_cache := enable_cache (self st);
                          max_retries := max_retries (self st);
                          cache := c |};
               world := world st; trace := trace st |}).

(** [chain.invoke(input_data)] inside [try]: the outcome is handed to the
    handler as a value. *)
Definition try_invoke {T : Type} (chain : string -> W -> result T * W)
           (stage_name input : string) : M (result T) :=
  fun st =>
    let '(r, w') := chain input (world st) in
    (Ok r, {| self := self st; world := w';
              trace := trace st ++ [Invoke stage_name input] |}).

Local Notation "x <- c1 ;; c2" := (bind c1 (fun x => c2))
  (at level 61, c1 at next level, right associativity).
Local Notation "c1 ;; c2" := (bind c1 (fun _ => c2))
  (at level 61, right associativity).

Definition _get_cache_key (transcript : string) : result string :=
  match encode_error transcript with
  | Some e => Raise e
  | None => Ok (md5_hexdigest transcript)
  end.

(** The [for attempt in range(1, self.max_retries + 1)] loop: [remaining]
    counts the iterations left, [attempt] is the loop variable. Leaving
    the loop without [return] makes the method return [None]. *)
Fixpoint attempts {T : Type} (chain : string -> W -> result T * W)
         (input stage_name : string) (remaining : nat) (attempt : Z)
  : M (option T) :=
  match remaining with
  | O => ret None
  | S remaining' =>
      this <- get_self ;;
      log INFO (MsgAttempt stage_name attempt (max_retries this)) ;;
      r <- try_invoke chain stage_name input ;;
      match r with
      | Ok result =>
          log INFO (MsgSuccess stage_name) ;;
          ret (Some result)
      | Raise e =>
          log WARNING (MsgAttemptFailed stage_name attempt e) ;;
          if (attempt =? max_retries this)%Z
          then log ERROR (MsgAllFailed stage_name) ;; raise e
          else log INFO (MsgRetrying stage_name) ;;
               attempts chain input stage_name remaining' (attempt + 1)%Z
      end
  end.

Definition _invoke_with_retry {T : Type}
           (chain : string -> W -> result T * W)
           (input stage_name : string) : M (option T) :=
  this <- get_self ;;
  attempts chain input stage_name (Z.to_nat (max_retries this)) 1%Z.

(** [cache_key in self.cache] *)
Definition cache_contains (cache_key : string) : M bool :=
  this <- get_self ;;
  match cache this with
  | Some c => ret (PyDict.contains cache_key c)
  | None => raise (none_error "argument of type 'NoneType' is not iterable")
  end.

(** [self.cache[cache_key]] *)
Definition cache_getitem (cache_key : string) : M FinalReport :=
  this <- get_self ;;
  match cache this with
  | Some c => lift (getitem c cache_key)
  | None => raise (none_error "'NoneType' object is not subscriptable")
  end.

(** [self.cache[cache_key] = final_report] *)
Definition cache_setitem (cache_key : string) (final_report : FinalReport)
  : M unit :=
  this <- get_self ;;
  match cache this with
  | Some c => set_cache (Some (PyDict.set cache_key final_report c))
  | None =>
      raise (none_error "'NoneType' object does not support item assignment")
  end.

Fixpoint log_issues (issues : list string) : M unit :=
  match issues with
  | [] => ret tt
  | issue :: rest => log WARNING (MsgIssue issue) ;; log_issues rest
  end.

(** The [if validate_input:] block of [analyze]. *)
Definition check_input (transcript : pydict) (validate_input : bool) : M unit :=
  if validate_input then
    log INFO MsgValidating ;;
    checked <- lift (Utils.validate_transcript transcript) ;;
    let '(is_valid, error_msg) := checked in
    if negb is_valid
    then log ERROR (MsgValidationFailed error_msg) ;;
         raise (mk_exn ValueError
                  ("Invalid transcript: " ++ str_of_optional error_msg))
    else log INFO MsgTranscriptValid
  else ret tt.

(** The [if validate_output:] block of [analyze]. *)
Definition check_output (validate_output : bool) (final_report : FinalReport)
  : M unit :=
  if validate_output then
    log INFO MsgValidatingQuality ;;
    let '(is_valid, issues) := Utils.validate_report_quality final_report in
    if negb is_valid
    then log WARNING MsgQualityIssues ;; log_issues issues
    else log INFO MsgQualityValidated
  else ret tt.

(** The part of [analyze] after the cache lookup: the two stages, the
    quality check and the store. *)
Definition run_stages (formatted_transcript : string)
           (validate_output use_cache : bool) : M FinalReport :=
  log INFO MsgStage1 ;;
  analysis_report <- _invoke_with_retry analyst_chain formatted_transcript "Analyst" ;;
  match analysis_report with
  | None => raise (none_has_no_attribute "snippets")
  | Some analysis_report =>
      log INFO (MsgAnalysisComplete (List.length (snippets analysis_report))) ;;
      log INFO MsgStage2 ;;
      final_report <- _invoke_with_retry synthesis_chain
                        (model_dump_json analysis_report) "Synthesis" ;;
      match final_report with
      | None =>
          (* Not reached ([later_stage_has_result]): with
             [max_retries < 1] the first stage has returned [None] and
             [.snippets] has raised before this. *)
          raise (none_has_no_attribute "candidate_summary")
      | Some final_report =>
          log INFO MsgSynthesisComplete ;;
          check_output validate_output final_report ;;
          this <- get_self ;;
          (if use_cache && enable_cache this then
             cache_key <- lift (_get_cache_key formatted_transcript) ;;
             cache_setitem cache_key final_report ;;
             log INFO MsgCached
           else ret tt) ;;
          log INFO MsgRule ;; log INFO MsgCompleted ;; log INFO MsgRule ;;
          ret final_report
      end
  end.

Definition analyze (transcript : pydict)
           (validate_input validate_output use_cache : bool) : M FinalReport :=
  log INFO MsgRule ;; log INFO MsgStarting ;; log INFO MsgRule ;;
  check_input transcript validate_input ;;
  formatted_transcript <- lift (Utils.format_transcript transcript) ;;
  log INFO (MsgFormatted (String.length formatted_transcript)) ;;
  this <- get_self ;;
  if use_cache && enable_cache this then
    cache_key <- lift (_get_cache_key formatted_transcript) ;;
    hit <- cache_contains cache_key ;;
    if hit then
      log INFO MsgCacheHit ;;
      cache_getitem cache_key
    else
      log INFO MsgCacheMiss ;;
      run_stages formatted_transcript validate_output use_cache
  else run_stages formatted_transcript validate_output use_cache.

Definition clear_cache : M unit :=
  this <- get_self ;;
  match cache this with
  | Some (_ :: _) => set_cache (Some []) ;; log INFO MsgCacheCleared
  | _ => ret tt
  end.

Definition get_cache_stats (this : pipeline) : result (PyDict.t stat) :=
  if negb (enable_cache this) then Ok [("enabled", SBool false)]
  else
    match cache this with
    | Some c =>
        Ok [("enabled", SBool true);
            ("size", SInt (PyDict.len c));
            ("keys", SKeys (PyDict.keys c))]
    | None => Raise (none_error "object of type 'NoneType' has no len()")
    end.

(** ** [main.py]: the request handler *)

Record AnalysisRequest : Type := {
  metadata : pydict;
  transcript : PyDict.t string
}.

(** [request.dict()] *)
Definition request_dict (request : AnalysisRequest) : pydict :=
  [("metadata", VDict (metadata request));
   ("transcript", VDict (of_texts (transcript request)))].

Inductive response : Type :=
| Report (report : FinalReport)
| HTTPException (status_code : Z) (detail : string).

Definition analyze_interview (request : AnalysisRequest)
  : pstate -> response * pstate :=
  fun st =>
    match analyze (request_dict request) true true true st with
    | (Ok report, st') => (Report report, st')
    | (Raise e, st') =>
        if is_ValueError (exn_class e)
        then (HTTPException 400 (exn_msg e), st')
        else (HTTPException 500
                ("An unexpected error occurred: " ++ exn_msg e), st')
    end.

(** Counting the backend calls of a trace. *)
Definition is_invoke (ev : event) : bool :=
  match ev with Invoke _ _ => true | Log _ _ => false end.

Definition invocations (tr : list event) : nat :=
  List.length (filter is_invoke tr).

(** The backend calls of a trace in their order, each with the name of
    its stage and its input. *)
Definition invoked (tr : list event) : list (string * string) :=
  flat_map (fun ev =>
              match ev with
              | Invoke stage_name input => [(stage_name, input)]
              | Log _ _ => []
              end) tr.

End Pipeline.


(** ** The specification's own notions

    Definitions written from the wording of the specification, to which
    the embedded code is compared in Part II. *)

Module Spec.

(** *** Transcript validation: the ordered checks *)

Definition mentions (word : string) (k : string) : bool :=
  PyStr.contains word (PyStr.lower k).

(** The key of the first entry, in the order of the mapping, whose text
    is empty or all whitespace. *)
Fixpoint first_blank (m : PyDict.t string) : option string :=
  match m with
  | [] => None
  | (k, text) :: rest => if PyStr.blank text then Some k else first_blank rest
  end.

Definition validate_checks (m : PyDict.t string) : bool * option string :=
  if (List.length m =? 0)%nat
  then (false, Some "Transcript cannot be empty")
  else if (List.length m <? 2)%nat
  then (false, Some "Transcript must have at least 2 exchanges")
  else if negb (existsb (mentions "interviewer") (map fst m))
  then (false, Some "Transcript must include interviewer questions")
  else if negb (existsb (mentions "candidate") (map fst m))
  then (false, Some "Transcript must include candidate responses")
  else
    match first_blank m with
    | Some k => (false, Some ("Entry '" ++ k ++ "' is empty"))
    | None => (true, None)
    end.

(** *** Transcript normalisation: the reference rendering *)

Inductive speaker_role : Type := Interviewer | Candidate | Other.

Definition classify (k : string) : speaker_role :=
  if mentions "interviewer" k then Interviewer
  else if mentions "candidate" k then Candidate
  else Other.

Definition role_rank (r : speaker_role) : nat :=
  match r with Interviewer => 0 | Candidate => 1 | Other => 2 end.

Definition rank (k : string) : nat := role_rank (classify k).

(** The order by (role-rank, key-literal). *)
Definition before (a b : string) : Prop :=
  rank a < rank b \/ (rank a = rank b /\ PyStr.lt a b = true).

(** The order a sort establishes: equal or before. *)
Definition ordered (a b : string) : Prop := a = b \/ before a b.

(** The text of field [k]. *)
Definition text_of (m : PyDict.t string) (k : string) : string :=
  match PyDict.get k m with Some text => text | None => EmptyString end.

(** The label of a line: no third label exists, an entry that is not the
    interviewer's is rendered as the candidate's. *)
Definition label (r : speaker_role) : string :=
  match r with Interviewer => "Interviewer" | _ => "Candidate" end.

Definition line (entry : string * string) : string :=
  label (classify (fst entry)) ++ ": " ++ snd entry.

(** [out] is the reference rendering of [m]: the lines of the entries of
    [m], put in the order by (role-rank, key-literal), joined by blank
    lines. *)
Definition is_rendering (m : PyDict.t string) (out : string) : Prop :=
  exists entries,
    Permutation entries m /\
    StronglySorted (fun a b => before (fst a) (fst b)) entries /\
    out = PyStr.join PyStr.blank_line (map line entries).

(** *** Report quality: the checks *)

Inductive check : Type :=
| HeadlineShort
| ImpressionShort
| NoStrengths
| NoWeaknesses
| NoPriorityTopics
| RoadmapShort
| NoResources
| EmptyLink (topic : string)
| InvalidLink (topic : string).

Definition issue_text (c : check) : string :=
  match c with
  | HeadlineShort => "Headline is too short/generic"
  | ImpressionShort => "Overall impression lacks detail"
  | NoStrengths => "No strengths identified"
  | NoWeaknesses => "No weaknesses identified"
  | NoPriorityTopics => "No priority topics defined"
  | RoadmapShort => "2-week roadmap insufficiently detailed"
  | NoResources => "No learning resources provided"
  | EmptyLink topic => "Resource '" ++ topic ++ "' has empty link"
  | InvalidLink topic => "Resource '" ++ topic ++ "' has invalid link format"
  end.

Definition when (violation : bool) (c : check) : list check :=
  if violation then [c] else [].

Definition absolute (url : string) : bool :=
  prefix "http://" url || prefix "https://" url.

Definition link_check (r : RecommendedResource) : list check :=
  if PyStr.blank (link r) then [EmptyLink (resource_topic r)]
  else if negb (absolute (link r)) then [InvalidLink (resource_topic r)]
  else [].

Definition violated (report : FinalReport) : list check :=
  let summary := candidate_summary report in
  let plan := development_plan report in
  (when (String.length (headline summary) <? 20)%nat HeadlineShort
   ++ when (String.length (overall_impression summary) <? 50)%nat ImpressionShort
   ++ when (List.length (strengths (insights report)) =? 0)%nat NoStrengths
   ++ when (List.length (weaknesses (insights report)) =? 0)%nat NoWeaknesses
   ++ when (List.length (priority_topics plan) =? 0)%nat NoPriorityTopics
   ++ when (List.length (roadmap_2_weeks plan) <? 2)%nat RoadmapShort
   ++ when (List.length (recommended_resources plan) =? 0)%nat NoResources
   ++ flat_map link_check (recommended_resources plan))%list.

(** A report every check accepts. *)
Definition well_formed (report : FinalReport) : Prop :=
  let summary := candidate_summary report in
  let plan := development_plan report in
  20 <= String.length (headline summary) /\
  50 <= String.length (overall_impression summary) /\
  1 <= List.length (strengths (insights report)) /\
  1 <= List.length (weaknesses (insights report)) /\
  1 <= List.length (priority_topics plan) /\
  2 <= List.length (roadmap_2_weeks plan) /\
  1 <= List.length (recommended_resources plan) /\
  Forall (fun r => PyStr.blank (link r) = false /\ absolute (link r) = true)
         (recommended_resources plan).

(** *** The generation backend seen from outside *)

Section Backend.
Context {W T : Type}.
Variable chain : string -> W -> result T * W.
Variable input : string.

(** The backend state after [n] calls with [input]. *)
Fixpoint world_after (w : W) (n : nat) : W :=
  match n with
  | O => w
  | S n' => world_after (snd (chain input w)) n'
  end.

(** The outcome of call number [i + 1]. *)
Definition outcome (w : W) (i : nat) : result T :=
  fst (chain input (world_after w i)).

Definition fails (w : W) (i : nat) : Prop :=
  exists e, outcome w i = Raise e.

(** Attempts 1 to [k] fail and attempt [k + 1] succeeds with [r]. *)
Definition succeeds_at (w : W) (k : nat) (r : T) : Prop :=
  (forall i, i < k -> fails w i) /\ outcome w k = Ok r.

(** All of [n >= 1] attempts fail, the last one with [e]. *)
Definition all_fail (w : W) (n : nat) (e : exn) : Prop :=
  (forall i, i < n -> fails w i) /\
  exists n', n = S n' /\ outcome w n' = Raise e.

End Backend.

(** *** The facade, path by path *)

Section Facade.
Context {W : Type}.
Variable analyst_chain : string -> W -> result AnalysisReport * W.
Variable synthesis_chain : string -> W -> result FinalReport * W.
Variable model_dump_json : AnalysisReport -> string.
Variable encode_error : string -> option exn.
Variable md5_hexdigest : string -> string.

(** Validation does not stop the call. *)
Definition accepted (validate_input : bool) (t : pydict) : Prop :=
  validate_input = false \/
  exists msg, Utils.validate_transcript t = Ok (true, msg).

(** The cache is not consulted, or the fingerprint of the text is
    computed and the cache has no entry for it. *)
Definition miss (this : pipeline) (use_cache : bool) (text : string) : Prop :=
  use_cache && enable_cache this = false \/
  (encode_error text = None /\
   exists c, cache this = Some c /\
             PyDict.get (md5_hexdigest text) c = None).

(** The number of attempts a stage is given. *)
Definition budget (this : pipeline) : nat := Z.to_nat (max_retries this).

(** The pipeline object after [report] is stored for [text]. *)
Definition stored (this : pipeline) (use_cache : bool) (text : string)
           (report : FinalReport) : pipeline :=
  if use_cache && enable_cache this
  then {| enable_cache := enable_cache this;
          max_retries := max_retries this;
          cache := option_map
                     (PyDict.set (md5_hexdigest text) report) (cache this) |}
  else this.

(** Within [n] attempts each, starting in backend state [w]: the
    extraction stage succeeds with [a] after [k] failures, the synthesis
    stage then succeeds with [report] after [k2] failures. *)
Definition stages_succeed (text : string) (w : W) (n k : nat)
           (a : AnalysisReport) (k2 : nat) (report : FinalReport) : Prop :=
  k < n /\ succeeds_at analyst_chain text w k a /\
  k2 < n /\
  succeeds_at synthesis_chain (model_dump_json a)
    (world_after analyst_chain text w (S k)) k2 report.

(** The extraction stage succeeds with [a] after [k] failures and the
    synthesis stage fails [n] times, last with [e]. *)
Definition synthesis_exhausted (text : string) (w : W) (n k : nat)
           (a : AnalysisReport) (e : exn) : Prop :=
  k < n /\ succeeds_at analyst_chain text w k a /\
  all_fail synthesis_chain (model_dump_json a)
    (world_after analyst_chain text w (S k)) n e.

(** A stage uses up its [n] attempts, the last error being [e]. *)
Definition stage_exhausted (text : string) (w : W) (n : nat) (e : exn) : Prop :=
  all_fail analyst_chain text w n e \/
  exists k a, synthesis_exhausted text w n k a e.

(** The calls of a stage that is invoked [n] times. *)
Definition extraction_calls (text : string) (n : nat)
  : list (string * string) :=
  repeat ("Analyst", text) n.

Definition synthesis_calls (a : AnalysisReport) (n : nat)
  : list (string * string) :=
  repeat ("Synthesis", model_dump_json a) n.

(** [analyze_run this w t vi vo uc r this' w' calls]: called on the
    pipeline object [this] with the backend in state [w], [analyze]
    ends with [r], leaves the object as [this'] and the backend in
    state [w'], and its calls of the backend are [calls], in this
    order. *)
Inductive analyze_run (this : pipeline) (w : W) (t : pydict)
          (validate_input validate_output use_cache : bool)
  : result FinalReport -> pipeline -> W -> list (string * string) -> Prop :=
| run_rejected msg :
    validate_input = true ->
    Utils.validate_transcript t = Ok (false, msg) ->
    analyze_run this w t validate_input validate_output use_cache
      (Raise (mk_exn ValueError ("Invalid transcript: " ++ str_of_optional msg)))
      this w []
| run_validator_raises e :
    validate_input = true ->
    Utils.validate_transcript t = Raise e ->
    analyze_run this w t validate_input validate_output use_cache
      (Raise e) this w []
| run_format_raises e :
    accepted validate_input t ->
    Utils.format_transcript t = Raise e ->
    analyze_run this w t validate_input validate_output use_cache
      (Raise e) this w []
| run_fingerprint_raises text e :
    accepted validate_input t ->
    Utils.format_transcript t = Ok text ->
    use_cache && enable_cache this = true ->
    encode_error text = Some e ->
    analyze_run this w t validate_input validate_output use_cache
      (Raise e) this w []
| run_cache_missing text :
    accepted validate_input t ->
    Utils.format_transcript t = Ok text ->
    use_cache && enable_cache this = true ->
    encode_error text = None ->
    cache this = None ->
    analyze_run this w t validate_input validate_output use_cache
      (Raise (none_error "argument of type 'NoneType' is not iterable"))
      this w []
| run_hit text c report :
    accepted validate_input t ->
    Utils.format_transcript t = Ok text ->
    use_cache && enable_cache this = true ->
    encode_error text = None ->
    cache this = Some c ->
    PyDict.get (md5_hexdigest text) c = Some report ->
    analyze_run this w t validate_input validate_output use_cache
      (Ok report) this w []
| run_no_attempt text :
    accepted validate_input t ->
    Utils.format_transcript t = Ok text ->
    miss this use_cache text ->
    (max_retries this < 1)%Z ->
    analyze_run this w t validate_input validate_output use_cache
      (Raise (none_has_no_attribute "snippets")) this w []
| run_extraction_fails text e :
    accepted validate_input t ->
    Utils.format_transcript t = Ok text ->
    miss this use_cache text ->
    all_fail analyst_chain text w (budget this) e ->
    analyze_run this w t validate_input validate_output use_cache
      (Raise e) this
      (world_after analyst_chain text w (budget this))
      (extraction_calls text (budget this))
| run_synthesis_fails text k a e :
    accepted validate_input t ->
    Utils.format_transcript t = Ok text ->
    miss this use_cache text ->
    synthesis_exhausted text w (budget this) k a e ->
    analyze_run this w t validate_input validate_output use_cache
      (Raise e) this
      (world_after synthesis_chain (model_dump_json a)
         (world_after analyst_chain text w (S k)) (budget this))
      (extraction_calls text (S k) ++ synthesis_calls a (budget this))%list
| run_done text k a k2 report :
    accepted validate_input t ->
    Utils.format_transcript t = Ok text ->
    miss this use_cache text ->
    stages_succeed text w (budget this) k a k2 report ->
    analyze_run this w t validate_input validate_output use_cache
      (Ok report) (stored this use_cache text report)
      (world_after synthesis_chain (model_dump_json a)
         (world_after analyst_chain text w (S k)) (S k2))
      (extraction_calls text (S k) ++ synthesis_calls a (S k2))%list.

End Facade.

End Spec.


(** ** Sample data *)

Module Samples.

(** The transcript of [test_formatting_order]. *)
Definition order_example : PyDict.t string :=
  [("candidate", "answer");
   ("interviewer", "question");
   ("candidate_1", "answer 2");
   ("interviewer_1", "question 2")].

(** The transcript of [test_valid_transcript]. *)
Definition valid_example : PyDict.t string :=
  [("interviewer", "Q1"); ("candidate", "A1")].

(** A transcript with a field that matches neither role. *)
Definition notes_example : PyDict.t string :=
  [("notes", "n"); ("candidate", "a"); ("interviewer", "q")].

(** A flat transcript one of whose fields is named [transcript]. *)
Definition field_named_transcript : PyDict.t string :=
  [("transcript", "notes"); ("interviewer", "Q?"); ("candidate", "A.")].

End Samples.

Module SampleReports.

Definition good_resource : RecommendedResource :=
  {| resource_topic := "SQL";
     link := "https://www.postgresql.org/docs/";
     reason := "Reference manual" |}.

Definition bad_resource : RecommendedResource :=
  {| resource_topic := "ACID";
     link := "not-a-url";
     reason := "Background" |}.

Definition step (span : string) : RoadmapStep :=
  {| timespan := span; focus := "Databases"; activities := ["Read"; "Practise"] |}.

(** A fully populated, well-formed report. *)
Definition good_report : FinalReport :=
  {| candidate_summary :=
       {| headline := "Promising intern with solid fundamentals";
          overall_impression :=
            "Communicates clearly, recovers from mistakes and shows real curiosity." |};
     insights :=
       {| strengths :=
            [{| strength_skill := "Communication";
                strength_evidence := "Explained the trade-off" |}];
          weaknesses :=
            [{| weakness_skill := "ACID";
                weakness_evidence := "Confused consistency";
                priority := High |}] |};
     development_plan :=
       {| priority_topics := ["Transactions"];
          roadmap_2_weeks := [step "Day 1-5"; step "Day 6-10"];
          recommended_resources := [good_resource] |} |}.

(** The same report without strengths and with a link that is no URL. *)
Definition poor_report : FinalReport :=
  {| candidate_summary := candidate_summary good_report;
     insights :=
       {| strengths := []; weaknesses := weaknesses (insights good_report) |};
     development_plan :=
       {| priority_topics := ["Transactions"];
          roadmap_2_weeks := [step "Day 1-5"; step "Day 6-10"];
          recommended_resources := [good_resource; bad_resource] |} |}.

(** The report of [test_api.py]. *)
Definition mock_final_report : FinalReport :=
  {| candidate_summary :=
       {| headline := "Test Headline"; overall_impression := "Test Impression" |};
     insights := {| strengths := []; weaknesses := [] |};
     development_plan :=
       {| priority_topics := []; roadmap_2_weeks := [];
          recommended_resources := [] |} |}.

Definition mock_analysis_report : AnalysisReport :=
  {| snippets :=
       [{| topic := "Databases"; quote := "SQL is for structured data";
           assessment := "Partly right"; type := neutral |}] |}.

End SampleReports.

(** A generation backend that plays a script. *)
Module SampleBackend.

(** The outcomes of the calls to come, for each chain. *)
Record script : Type := {
  analyst_script : list (result AnalysisReport);
  synthesis_script : list (result FinalReport)
}.

Definition off_script : exn := mk_exn Exception "no scripted outcome left".

Definition analyst_chain (_ : string) (w : script)
  : result AnalysisReport * script :=
  match analyst_script w with
  | [] => (Raise off_script, w)
  | r :: rest =>
      (r, {| analyst_script := rest; synthesis_script := synthesis_script w |})
  end.

Definition synthesis_chain (_ : string) (w : script)
  : result FinalReport * script :=
  match synthesis_script w with
  | [] => (Raise off_script, w)
  | r :: rest =>
      (r, {| analyst_script := analyst_script w; synthesis_script := rest |})
  end.

(** Stand-ins for the two library functions. *)
Definition model_dump_json (a : AnalysisReport) : string :=
  PyStr.join "," (map topic (snippets a)).
Definition md5_hexdigest (text : string) : string := text.

(** Every text of the model can be encoded. *)
Definition encode_error (_ : string) : option exn := None.

Definition unavailable : exn := mk_exn Exception "backend unavailable".

(** langchain's [OutputParserException], a subclass of [ValueError]. *)
Definition malformed : exn :=
  mk_exn (Subclass "OutputParserException" ValueError) "Failed to parse output".

Definition start (this : pipeline) (w : script) : pstate :=
  {| self := this; world := w; trace := [] |}.

Definition analyze :=
  analyze analyst_chain synthesis_chain model_dump_json encode_error
    md5_hexdigest.

Definition analyze_interview :=
  analyze_interview analyst_chain synthesis_chain model_dump_json
    encode_error md5_hexdigest.

(** Two failures, then a success, for the first stage; one success for
    the second. *)
Definition flaky : script :=
  {| analyst_script :=
       [Raise unavailable; Raise unavailable;
        Ok SampleReports.mock_analysis_report];
     synthesis_script := [Ok SampleReports.good_report] |}.

(** A backend that is down. *)
Definition down : script :=
  {| analyst_script := [Raise unavailable; Raise unavailable; Raise unavailable];
     synthesis_script := [] |}.

(** A backend whose output never parses. *)
Definition garbled : script :=
  {| analyst_script := [Raise malformed; Raise malformed; Raise malformed];
     synthesis_script := [] |}.

Definition request : AnalysisRequest :=
  {| metadata := [("candidate_id", VStr "C-1")];
     transcript := [("interviewer", "Q?"); ("candidate", "A.")] |}.

Definition short_request : AnalysisRequest :=
  {| metadata := [("candidate_id", VStr "C-1")];
     transcript := [("interviewer", "Q?")] |}.

End SampleBackend.


(* ================================================================== *)
(** * Part II: properties                                              *)
(* ================================================================== *)

(** ** Facts about Python strings *)

Module PyStrFacts.
Import PyStr.

Lemma lstrip_blank s : lstrip s = EmptyString <-> blank s = true.
Proof.
  induction s as [|c t IH]; simpl.
  - tauto.
  - destruct (isspace c); simpl.
    + exact IH.
    + split; discriminate.
Qed.

Lemma rstrip_blank s : rstrip s = EmptyString <-> blank s = true.
Proof.
  induction s as [|c t IH]; simpl.
  - tauto.
  - destruct (rstrip t) eqn:E.
    + destruct (isspace c); simpl.
      * split; intros _; [apply IH|]; reflexivity.
      * split; discriminate.
    + split; [discriminate|].
      intros H. apply andb_true_iff in H. destruct H as [_ H].
      apply IH in H. discriminate.
Qed.

Lemma blank_lstrip s : blank (lstrip s) = blank s.
Proof.
  induction s as [|c t IH]; simpl; [reflexivity|].
  destruct (isspace c) eqn:E; simpl; [exact IH|].
  rewrite E. reflexivity.
Qed.

Lemma truthy_false s : truthy s = false <-> s = EmptyString.
Proof. destruct s; simpl; split; congruence. Qed.

(** [not value or not value.strip()] tests exactly for blank text. *)
Lemma not_or_not_strip s :
  negb (truthy s) || negb (truthy (strip s)) = blank s.
Proof.
  destruct (blank s) eqn:B.
  - assert (H : strip s = EmptyString).
    { unfold strip. apply rstrip_blank. rewrite blank_lstrip. exact B. }
    rewrite H. simpl. apply orb_true_r.
  - assert (H : strip s <> EmptyString).
    { unfold strip. intros H. apply rstrip_blank in H.
      rewrite blank_lstrip in H. congruence. }
    destruct s as [|c t]; [discriminate B|].
    destruct (strip (String c t)); [congruence|reflexivity].
Qed.

Lemma prefix_refl_app s t : prefix s (s ++ t) = true.
Proof.
  induction s as [|c s IH]; simpl.
  - destruct t; reflexivity.
  - destruct (ascii_dec c c); [exact IH|congruence].
Qed.

Lemma contains_prefix s u : prefix s u = true -> contains s u = true.
Proof. intros H. destruct u; cbn [contains]; rewrite H; reflexivity. Qed.

Lemma contains_here s t : contains s (s ++ t) = true.
Proof. apply contains_prefix, prefix_refl_app. Qed.

Lemma contains_app_r sub pre s :
  contains sub s = true -> contains sub (pre ++ s) = true.
Proof.
  intros H. induction pre as [|c pre IH]; [exact H|].
  cbn [append contains]. rewrite IH. apply orb_true_r.
Qed.


(** *** The order on strings *)

Lemma ascii_compare_refl c : Ascii.compare c c = Eq.
Proof. unfold Ascii.compare. apply N.compare_refl. Qed.

Lemma compare_refl s : String.compare s s = Eq.
Proof.
  induction s as [|c s IH]; simpl; [reflexivity|].
  rewrite ascii_compare_refl. exact IH.
Qed.

Lemma compare_Lt_trans a : forall b c,
  String.compare a b = Lt -> String.compare b c = Lt ->
  String.compare a c = Lt.
Proof.
  induction a as [|x a IH]; intros [|y b] [|z c]; simpl;
    try congruence.
  unfold Ascii.compare.
  destruct (N.compare_spec (N_of_ascii x) (N_of_ascii y)) as [E1|L1|G1];
    destruct (N.compare_spec (N_of_ascii y) (N_of_ascii z)) as [E2|L2|G2];
    try congruence; intros H1 H2.
  - rewrite E1, E2, N.compare_refl. eapply IH; eassumption.
  - rewrite E1. apply N.compare_lt_iff in L2. rewrite L2. reflexivity.
  - rewrite <- E2. apply N.compare_lt_iff in L1. rewrite L1. reflexivity.
  - assert (L : (N_of_ascii x < N_of_ascii z)%N) by lia.
    apply N.compare_lt_iff in L. rewrite L. reflexivity.
Qed.

Lemma lt_irrefl s : lt s s = false.
Proof. unfold lt, String.ltb. rewrite compare_refl. reflexivity. Qed.

Lemma lt_trans a b c : lt a b = true -> lt b c = true -> lt a c = true.
Proof.
  unfold lt, String.ltb. intros H1 H2.
  destruct (String.compare a b) eqn:E1; try discriminate.
  destruct (String.compare b c) eqn:E2; try discriminate.
  rewrite (compare_Lt_trans _ _ _ E1 E2). reflexivity.
Qed.

Lemma lt_trichotomy a b : lt a b = true \/ a = b \/ lt b a = true.
Proof.
  unfold lt, String.ltb. rewrite (String.compare_antisym b a).
  destruct (String.compare a b) eqn:E; simpl; auto.
  right; left. apply String.compare_eq_iff. exact E.
Qed.


End PyStrFacts.


(** ** Facts about dictionaries and results *)

Module PyDictFacts.

Lemma get_in_keys {V : Type} (k : string) (d : PyDict.t V) :
  In k (PyDict.keys d) -> exists v, PyDict.get k d = Some v.
Proof.
  induction d as [|[k' v'] d IH]; simpl; [tauto|].
  intros [E|H].
  - subst. rewrite String.eqb_refl. eauto.
  - destruct (String.eqb k k'); eauto.
Qed.

Lemma get_not_in_keys {V : Type} (k : string) (d : PyDict.t V) :
  ~ In k (PyDict.keys d) -> PyDict.get k d = None.
Proof.
  induction d as [|[k' v'] d IH]; simpl; [reflexivity|].
  intros H. destruct (String.eqb_spec k k') as [E|N].
  - subst. tauto.
  - apply IH. tauto.
Qed.

Lemma get_in {V : Type} (k : string) (v : V) (d : PyDict.t V) :
  PyDict.wf d -> In (k, v) d -> PyDict.get k d = Some v.
Proof.
  unfold PyDict.wf.
  induction d as [|[k' v'] d IH]; simpl; [tauto|].
  intros ND [E|H].
  - inversion E; subst. rewrite String.eqb_refl. reflexivity.
  - inversion ND as [|? ? Hnot ND']; subst.
    destruct (String.eqb_spec k k') as [E|N].
    + subst. exfalso. apply Hnot.
      change k' with (fst (k', v)). apply in_map. exact H.
    + apply IH; assumption.
Qed.

Lemma get_some_in {V : Type} (k : string) (v : V) (d : PyDict.t V) :
  PyDict.get k d = Some v -> In (k, v) d.
Proof.
  induction d as [|[k' v'] d IH]; simpl; [discriminate|].
  destruct (String.eqb_spec k k') as [E|N].
  - intros H. inversion H; subst. left; reflexivity.
  - intros H. right. apply IH. exact H.
Qed.

Lemma get_set_same {V : Type} (k : string) (v : V) (d : PyDict.t V) :
  PyDict.get k (PyDict.set k v d) = Some v.
Proof.
  induction d as [|[k' v'] d IH]; simpl.
  - rewrite String.eqb_refl. reflexivity.
  - destruct (String.eqb k k') eqn:E; simpl; rewrite ?String.eqb_refl, ?E;
      [reflexivity|exact IH].
Qed.

Lemma keys_of_texts (m : PyDict.t string) :
  PyDict.keys (of_texts m) = PyDict.keys m.
Proof.
  unfold PyDict.keys, of_texts. rewrite map_map. reflexivity.
Qed.

Lemma get_of_texts (k : string) (m : PyDict.t string) :
  PyDict.get k (of_texts m) = option_map VStr (PyDict.get k m).
Proof.
  induction m as [|[k' v'] m IH]; simpl; [reflexivity|].
  destruct (String.eqb k k'); [reflexivity|exact IH].
Qed.

Lemma wf_perm {V : Type} (d d' : PyDict.t V) :
  Permutation d d' -> PyDict.wf d -> PyDict.wf d'.
Proof.
  unfold PyDict.wf, PyDict.keys. intros P ND.
  eapply Permutation_NoDup; [|exact ND].
  apply Permutation_map. exact P.
Qed.

Lemma get_perm {V : Type} (k : string) (d d' : PyDict.t V) :
  Permutation d d' -> PyDict.wf d -> PyDict.get k d' = PyDict.get k d.
Proof.
  intros P ND.
  destruct (PyDict.get k d) as [v|] eqn:E.
  - apply get_in; [eapply wf_perm; eassumption|].
    eapply Permutation_in; [exact P|]. apply get_some_in. exact E.
  - destruct (PyDict.get k d') as [v|] eqn:E'; [|reflexivity].
    apply get_some_in in E'.
    apply Permutation_sym in P.
    apply (Permutation_in _ P) in E'.
    apply (get_in _ _ _ ND) in E'. congruence.
Qed.

Lemma rmap_ok {A B : Type} (f : A -> result B) (g : A -> B) (l : list A) :
  (forall a, In a l -> f a = Ok (g a)) -> rmap f l = Ok (map g l).
Proof.
  induction l as [|a l IH]; simpl; intros H; [reflexivity|].
  rewrite (H a (or_introl eq_refl)). simpl.
  rewrite IH by (intros; apply H; right; assumption).
  reflexivity.
Qed.

End PyDictFacts.

(** ** The sort of [format_transcript] *)

Module SortFacts.
Import Utils.

Lemma has_interviewer_mentions k :
  has_interviewer k = Spec.mentions "interviewer" k.
Proof. reflexivity. Qed.

Lemma has_candidate_mentions k :
  has_candidate k = Spec.mentions "candidate" k.
Proof. reflexivity. Qed.

Lemma sort_key_rank k : sort_key k = (Spec.rank k, k).
Proof.
  unfold sort_key, Spec.rank, Spec.classify.
  rewrite has_interviewer_mentions, has_candidate_mentions.
  destruct (Spec.mentions "interviewer" k); [reflexivity|].
  destruct (Spec.mentions "candidate" k); reflexivity.
Qed.

(** [sort_key a < sort_key b] is the order by (role-rank, key-literal). *)
Lemma rank_le_2 k : Spec.rank k <= 2.
Proof.
  unfold Spec.rank. destruct (Spec.classify k); simpl; lia.
Qed.

Lemma key_lt_before a b :
  key_lt (sort_key a) (sort_key b) = true <-> Spec.before a b.
Proof.
  rewrite !sort_key_rank. unfold key_lt, Spec.before. simpl.
  rewrite orb_true_iff, andb_true_iff, Nat.ltb_lt, Nat.eqb_eq. tauto.
Qed.

Lemma before_irrefl a : ~ Spec.before a a.
Proof.
  unfold Spec.before. intros [H|[_ H]]; [lia|].
  rewrite PyStrFacts.lt_irrefl in H. discriminate.
Qed.

Lemma before_trans a b c :
  Spec.before a b -> Spec.before b c -> Spec.before a c.
Proof.
  unfold Spec.before. intros [H1|[E1 L1]] [H2|[E2 L2]].
  - left; lia.
  - left; lia.
  - left; lia.
  - right. split; [lia|]. eapply PyStrFacts.lt_trans; eassumption.
Qed.

Lemma before_total a b : Spec.before a b \/ a = b \/ Spec.before b a.
Proof.
  unfold Spec.before.
  destruct (Nat.lt_trichotomy (Spec.rank a) (Spec.rank b)) as [H|[H|H]];
    [tauto| |tauto].
  destruct (PyStrFacts.lt_trichotomy a b) as [L|[E|L]]; [tauto|tauto|].
  right; right; right. split; [lia|exact L].
Qed.

Lemma ordered_trans a b c : Spec.ordered a b -> Spec.ordered b c -> Spec.ordered a c.
Proof.
  unfold Spec.ordered. intros [E1|H1] [E2|H2]; subst; auto.
  right. eapply before_trans; eassumption.
Qed.

Lemma ordered_antisym a b : Spec.ordered a b -> Spec.ordered b a -> a = b.
Proof.
  unfold Spec.ordered. intros [E1|H1] [E2|H2]; subst; auto.
  exfalso. apply (before_irrefl a). eapply before_trans; eassumption.
Qed.

Lemma not_key_lt_ordered x y :
  key_lt (sort_key y) (sort_key x) = false -> Spec.ordered x y.
Proof.
  intros H. unfold Spec.ordered.
  destruct (before_total x y) as [B|[E|B]]; auto.
  apply key_lt_before in B. congruence.
Qed.

Lemma insert_perm x l : Permutation (insert x l) (x :: l).
Proof.
  induction l as [|y l IH]; simpl; [reflexivity|].
  destruct (key_lt (sort_key y) (sort_key x)).
  - rewrite IH. apply perm_swap.
  - reflexivity.
Qed.

Lemma sorted_perm l : Permutation (sorted l) l.
Proof.
  induction l as [|x l IH]; simpl; [reflexivity|].
  unfold sorted in *. simpl. rewrite insert_perm. apply perm_skip, IH.
Qed.

Lemma insert_sorted x l :
  StronglySorted Spec.ordered l -> StronglySorted Spec.ordered (insert x l).
Proof.
  induction 1 as [|y l S IH F]; simpl.
  - constructor; constructor.
  - destruct (key_lt (sort_key y) (sort_key x)) eqn:E.
    + constructor; [exact IH|].
      apply (Permutation_Forall (Permutation_sym (insert_perm x l))).
      constructor; [|exact F].
      right. apply key_lt_before. exact E.
    + apply not_key_lt_ordered in E.
      constructor; [constructor; assumption|].
      constructor; [exact E|].
      eapply Forall_impl; [|exact F].
      intros z Hz. eapply ordered_trans; eassumption.
Qed.

Lemma sorted_sorted l : StronglySorted Spec.ordered (sorted l).
Proof.
  induction l as [|x l IH]; simpl; [constructor|].
  apply insert_sorted. exact IH.
Qed.

(** A list has one arrangement in this order. *)
Lemma sorted_unique l1 : forall l2,
  StronglySorted Spec.ordered l1 -> StronglySorted Spec.ordered l2 ->
  Permutation l1 l2 -> l1 = l2.
Proof.
  induction l1 as [|a l1 IH]; intros l2 S1 S2 P.
  - apply Permutation_nil in P. congruence.
  - destruct l2 as [|b l2].
    { apply Permutation_sym, Permutation_nil in P. discriminate. }
    apply StronglySorted_inv in S1. destruct S1 as [S1 F1].
    apply StronglySorted_inv in S2. destruct S2 as [S2 F2].
    assert (E : a = b).
    { assert (Ha : In a (b :: l2))
        by (eapply Permutation_in; [exact P|left; reflexivity]).
      assert (Hb : In b (a :: l1))
        by (eapply Permutation_in;
            [apply Permutation_sym; exact P|left; reflexivity]).
      destruct Ha as [Ha|Ha]; [congruence|].
      destruct Hb as [Hb|Hb]; [congruence|].
      rewrite Forall_forall in F1, F2.
      apply ordered_antisym; auto. }
    subst b. f_equal. apply IH; auto.
    eapply Permutation_cons_inv. exact P.
Qed.

Lemma sorted_of_perm l l' : Permutation l l' -> sorted l = sorted l'.
Proof.
  intros P. apply sorted_unique; try apply sorted_sorted.
  rewrite !sorted_perm. exact P.
Qed.

(** Without repeated keys the order is strict. *)
Lemma sorted_strict l :
  NoDup l -> StronglySorted Spec.ordered l -> StronglySorted Spec.before l.
Proof.
  intros ND S. induction S as [|a l S IH F]; [constructor|].
  inversion ND as [|? ? Hnot ND']; subst.
  constructor; [apply IH; exact ND'|].
  rewrite Forall_forall in *. intros b Hb.
  destruct (F b Hb) as [E|B]; [|exact B].
  subst. contradiction.
Qed.

Lemma strict_ordered l :
  StronglySorted Spec.before l -> StronglySorted Spec.ordered l.
Proof.
  induction 1 as [|a l S IH F]; constructor; [exact IH|].
  eapply Forall_impl; [|exact F]. intros b Hb. right. exact Hb.
Qed.

End SortFacts.


(** ** [format_transcript] *)

Module FormatFacts.
Import Utils.

Lemma role_label k : role k = Spec.label (Spec.classify k).
Proof.
  unfold role, Spec.classify. rewrite SortFacts.has_interviewer_mentions.
  destruct (Spec.mentions "interviewer" k); [reflexivity|].
  destruct (Spec.mentions "candidate" k); reflexivity.
Qed.

(** The entries of [m] in the order of the sort. *)
Lemma format_flat obj m :
  unwrap obj = VDict (of_texts m) ->
  format_transcript obj =
    Ok (PyStr.join PyStr.blank_line
          (map Spec.line
             (map (fun k => (k, Spec.text_of m k)) (sorted (PyDict.keys m))))).
Proof.
  intros U. unfold format_transcript. rewrite U.
  rewrite PyDictFacts.keys_of_texts.
  rewrite (PyDictFacts.rmap_ok _
             (fun k => Spec.line (k, Spec.text_of m k))).
  - simpl. rewrite map_map. reflexivity.
  - intros k Hk.
    apply (Permutation_in _ (SortFacts.sorted_perm _)) in Hk.
    apply PyDictFacts.get_in_keys in Hk. destruct Hk as [v Hv].
    unfold getitem. rewrite PyDictFacts.get_of_texts, Hv. simpl.
    unfold Spec.line, Spec.text_of. rewrite Hv. simpl.
    rewrite role_label. reflexivity.
Qed.

Lemma StronglySorted_map {A B : Type} (R : B -> B -> Prop) (f : A -> B) l :
  StronglySorted (fun a b => R (f a) (f b)) l <-> StronglySorted R (map f l).
Proof.
  induction l as [|a l IH]; simpl.
  - split; constructor.
  - split; intros H; apply StronglySorted_inv in H; destruct H as [S F];
      constructor; try (apply IH; exact S).
    + rewrite Forall_map. exact F.
    + rewrite Forall_map in F. exact F.
Qed.

Lemma StronglySorted_suffix {A : Type} (R : A -> A -> Prop) (l1 l2 : list A) :
  StronglySorted R (l1 ++ l2) -> StronglySorted R l2.
Proof.
  induction l1 as [|a l1 IH]; intros S; [exact S|].
  apply IH. apply StronglySorted_inv in S. apply S.
Qed.

Lemma entries_of_keys m :
  PyDict.wf m -> map (fun k => (k, Spec.text_of m k)) (PyDict.keys m) = m.
Proof.
  intros WF. unfold PyDict.keys. rewrite map_map.
  etransitivity; [|apply map_id]. apply map_ext_in.
  intros [k v] H. simpl. unfold Spec.text_of.
  rewrite (PyDictFacts.get_in _ _ _ WF H). reflexivity.
Qed.

(** The sorted entries are a reference rendering's entries. *)
Lemma sorted_entries_spec m :
  PyDict.wf m ->
  let entries := map (fun k => (k, Spec.text_of m k)) (sorted (PyDict.keys m)) in
  Permutation entries m /\
  StronglySorted (fun a b => Spec.before (fst a) (fst b)) entries.
Proof.
  intros WF entries. split.
  - apply Permutation_trans
      with (map (fun k => (k, Spec.text_of m k)) (PyDict.keys m)).
    + apply Permutation_map, SortFacts.sorted_perm.
    + rewrite (entries_of_keys m WF). reflexivity.
  - apply (proj2 (StronglySorted_map Spec.before fst entries)).
    unfold entries. rewrite map_map. simpl.
    rewrite map_id. apply SortFacts.sorted_strict.
    + eapply Permutation_NoDup; [|exact WF].
      apply Permutation_sym, SortFacts.sorted_perm.
    + apply SortFacts.sorted_sorted.
Qed.

(** They are the only ones. *)
Lemma sorted_entries_unique m entries :
  PyDict.wf m ->
  Permutation entries m ->
  StronglySorted (fun a b => Spec.before (fst a) (fst b)) entries ->
  entries = map (fun k => (k, Spec.text_of m k)) (sorted (PyDict.keys m)).
Proof.
  intros WF P S.
  assert (K : map fst entries = sorted (PyDict.keys m)).
  { apply SortFacts.sorted_unique.
    - apply SortFacts.strict_ordered.
      apply (proj1 (StronglySorted_map Spec.before fst entries)). exact S.
    - apply SortFacts.sorted_sorted.
    - rewrite SortFacts.sorted_perm. apply Permutation_map. exact P. }
  rewrite <- K, map_map. symmetry.
  etransitivity; [|apply map_id]. apply map_ext_in. intros [k v] H. simpl. unfold Spec.text_of.
  rewrite (PyDictFacts.get_in k v m WF); [reflexivity|].
  eapply Permutation_in; eassumption.
Qed.

Lemma format_is_rendering obj m out :
  unwrap obj = VDict (of_texts m) -> PyDict.wf m ->
  (format_transcript obj = Ok out <-> Spec.is_rendering m out).
Proof.
  intros U WF. rewrite (format_flat obj m U). split.
  - intros H. inversion H; subst.
    destruct (sorted_entries_spec m WF) as [P S].
    eexists. split; [exact P|]. split; [exact S|reflexivity].
  - intros (entries & P & S & E).
    rewrite (sorted_entries_unique m entries WF P S) in E.
    rewrite E. reflexivity.
Qed.

Lemma format_perm obj obj' m m' :
  unwrap obj = VDict (of_texts m) -> unwrap obj' = VDict (of_texts m') ->
  PyDict.wf m -> Permutation m m' ->
  format_transcript obj' = format_transcript obj.
Proof.
  intros U U' WF P.
  rewrite (format_flat obj m U), (format_flat obj' m' U').
  rewrite (SortFacts.sorted_of_perm (PyDict.keys m') (PyDict.keys m))
    by (apply Permutation_map, Permutation_sym; exact P).
  do 3 f_equal. apply map_ext. intros k. unfold Spec.text_of.
  rewrite (PyDictFacts.get_perm k m m' P WF). reflexivity.
Qed.

Lemma unwrap_flat m :
  PyDict.get "transcript" m = None -> unwrap (of_texts m) = VDict (of_texts m).
Proof.
  intros H. unfold unwrap. rewrite PyDictFacts.get_of_texts, H. reflexivity.
Qed.

Lemma unwrap_wrapped m : unwrap (wrapped m) = VDict (of_texts m).
Proof. reflexivity. Qed.

End FormatFacts.


(** ** [validate_transcript] and [validate_report_quality] *)

Module ValidateFacts.
Import Utils.

Lemma check_entries_texts m :
  check_entries (of_texts m) =
    Ok (match Spec.first_blank m with
        | Some k => (false, Some ("Entry '" ++ k ++ "' is empty"))
        | None => (true, None)
        end).
Proof.
  induction m as [|[k text] m IH]; simpl; [reflexivity|].
  rewrite <- (PyStrFacts.not_or_not_strip text).
  destruct (PyStr.truthy text); simpl; [|reflexivity].
  destruct (PyStr.truthy (PyStr.strip text)); simpl; [exact IH|reflexivity].
Qed.

Lemma validate_flat obj m :
  unwrap obj = VDict (of_texts m) ->
  validate_transcript obj = Ok (Spec.validate_checks m).
Proof.
  intros U. unfold validate_transcript, Spec.validate_checks. rewrite U.
  unfold PyDict.len, PyDict.items.
  rewrite PyDictFacts.keys_of_texts. unfold PyDict.keys.
  replace (List.length (of_texts m)) with (List.length m)
    by (unfold of_texts; rewrite length_map; reflexivity).
  destruct m as [|e1 m]; [reflexivity|]. simpl PyDict.truthy.
  cbn [negb List.length Nat.eqb].
  destruct (S (List.length m) <? 2)%nat; [reflexivity|].
  change (existsb has_interviewer) with (existsb (Spec.mentions "interviewer")).
  change (existsb has_candidate) with (existsb (Spec.mentions "candidate")).
  destruct (existsb (Spec.mentions "interviewer") (map fst (e1 :: m)));
    [|reflexivity].
  destruct (existsb (Spec.mentions "candidate") (map fst (e1 :: m)));
    [|reflexivity].
  cbn [negb]. apply check_entries_texts.
Qed.

(** A rejection comes with its reason. *)
Lemma validate_checks_message m o :
  Spec.validate_checks m = (false, o) -> exists msg, o = Some msg.
Proof.
  unfold Spec.validate_checks.
  repeat match goal with
    | |- context [if ?c then _ else _] => destruct c
    | |- context [match ?x with Some _ => _ | None => _ end] => destruct x
    end;
    intros E; inversion E; eauto.
Qed.


Lemma first_blank_none m :
  Forall (fun e => PyStr.blank (snd e) = false) m ->
  Spec.first_blank m = None.
Proof.
  induction 1 as [|[k' t'] m H F IH]; simpl; [reflexivity|].
  simpl in H. rewrite H. exact IH.
Qed.



(** *** The quality checks *)

Lemma append_if_when c x l :
  append_if c (Spec.issue_text x) (map Spec.issue_text l) =
    map Spec.issue_text (l ++ Spec.when c x)%list.
Proof.
  unfold append_if, Spec.when. destruct c.
  - rewrite map_app. reflexivity.
  - rewrite app_nil_r. reflexivity.
Qed.

Lemma resource_issue_check r :
  resource_issue r = map Spec.issue_text (Spec.link_check r).
Proof.
  unfold resource_issue, Spec.link_check.
  rewrite PyStrFacts.not_or_not_strip.
  destruct (PyStr.blank (link r)); [reflexivity|].
  unfold PyStr.startswith, Spec.absolute.
  destruct (prefix "http://" (link r) || prefix "https://" (link r));
    reflexivity.
Qed.

Lemma fold_resource_issues rs : forall l,
  fold_left (fun acc resource => (acc ++ resource_issue resource)%list) rs
    (map Spec.issue_text l) =
    map Spec.issue_text (l ++ flat_map Spec.link_check rs)%list.
Proof.
  induction rs as [|r rs IH]; intros l; simpl.
  - rewrite app_nil_r. reflexivity.
  - rewrite resource_issue_check, <- map_app, IH, <- app_assoc.
    reflexivity.
Qed.

Lemma quality_issues report :
  validate_report_quality report =
    ((List.length (Spec.violated report) =? 0)%nat,
     map Spec.issue_text (Spec.violated report)).
Proof.
  unfold validate_report_quality, Spec.violated. cbv zeta.
  change (@nil string) with (map Spec.issue_text []).
  rewrite (append_if_when _ Spec.HeadlineShort).
  rewrite (append_if_when _ Spec.ImpressionShort).
  rewrite (append_if_when _ Spec.NoStrengths).
  rewrite (append_if_when _ Spec.NoWeaknesses).
  rewrite (append_if_when _ Spec.NoPriorityTopics).
  rewrite (append_if_when _ Spec.RoadmapShort).
  rewrite (append_if_when _ Spec.NoResources).
  rewrite fold_resource_issues.
  rewrite length_map. simpl app. rewrite <- !app_assoc. reflexivity.
Qed.

Lemma when_nil c x : Spec.when c x = [] <-> c = false.
Proof. destruct c; simpl; split; congruence. Qed.

Lemma link_check_nil r :
  Spec.link_check r = [] <->
  PyStr.blank (link r) = false /\ Spec.absolute (link r) = true.
Proof.
  unfold Spec.link_check.
  destruct (PyStr.blank (link r)); [split; [discriminate|intros [? _]; discriminate]|].
  destruct (Spec.absolute (link r)); simpl; split; try tauto;
    try discriminate. intros [_ H]; discriminate.
Qed.

Lemma flat_map_nil {A B : Type} (f : A -> list B) l :
  flat_map f l = [] <-> Forall (fun a => f a = []) l.
Proof.
  induction l as [|a l IH]; simpl.
  - split; constructor.
  - split.
    + intros H. apply app_eq_nil in H. destruct H as [H1 H2].
      constructor; [exact H1|apply IH; exact H2].
    + intros H. inversion H; subst.
      rewrite H2. simpl. apply IH. assumption.
Qed.

Lemma app_nil_iff {A : Type} (l l' : list A) :
  (l ++ l')%list = [] <-> l = [] /\ l' = [].
Proof.
  split; [apply app_eq_nil|]. intros [H1 H2]; subst; reflexivity.
Qed.

Lemma violated_nil report :
  Spec.violated report = [] <-> Spec.well_formed report.
Proof.
  unfold Spec.violated, Spec.well_formed. cbv zeta.
  rewrite !app_nil_iff, !when_nil.
  rewrite flat_map_nil.
  rewrite !Nat.ltb_ge, !Nat.eqb_neq.
  assert (L : Forall (fun a => Spec.link_check a = [])
                (recommended_resources (development_plan report)) <->
              Forall (fun r => PyStr.blank (link r) = false /\
                               Spec.absolute (link r) = true)
                (recommended_resources (development_plan report))).
  { split; intros H; eapply Forall_impl; try exact H;
      intros r Hr; apply link_check_nil; exact Hr. }
  rewrite L. intuition lia.
Qed.

End ValidateFacts.


(** ** The cases of [tests/test_validation.py] *)

Module TestValidation.

Example test_empty_transcript :
  Utils.validate_transcript [] = Ok (false, Some "Transcript cannot be empty").
Proof. reflexivity. Qed.

Example test_too_short_transcript :
  Utils.validate_transcript (of_texts [("interviewer", "Hi")]) =
    Ok (false, Some "Transcript must have at least 2 exchanges").
Proof. reflexivity. Qed.

Example test_missing_candidate :
  Utils.validate_transcript
    (of_texts [("interviewer", "Q1"); ("interviewer_1", "Q2")]) =
    Ok (false, Some "Transcript must include candidate responses").
Proof. reflexivity. Qed.

Example test_valid_transcript :
  Utils.validate_transcript (of_texts Samples.valid_example) = Ok (true, None).
Proof. reflexivity. Qed.

Example test_formatting_order :
  Utils.format_transcript (of_texts Samples.order_example) =
    Ok (PyStr.join PyStr.blank_line
          ["Interviewer: question"; "Interviewer: question 2";
           "Candidate: answer"; "Candidate: answer 2"]).
Proof. reflexivity. Qed.

(** Upper case in a key, white space of several kinds in a text. *)
Example test_case_and_blank :
  Utils.validate_transcript
    (of_texts [("INTERVIEWER_1", "Q"); ("Candidate_1", String (ascii_of_N 9) " ")]) =
    Ok (false, Some "Entry 'Candidate_1' is empty").
Proof. reflexivity. Qed.

End TestValidation.


(** ** Results on [format_transcript] *)

(** C5, as stated, fails: a flat transcript with a field named
    [transcript] has a reference rendering, yet [format_transcript] takes
    the text of that field for the transcript and raises. *)
Lemma format_transcript_raises_on_transcript_field :
  (exists out, Spec.is_rendering Samples.field_named_transcript out) /\
  Utils.format_transcript (of_texts Samples.field_named_transcript) =
    Raise (mk_exn AttributeError "'str' object has no attribute 'keys'").
Proof.
  split; [|reflexivity].
  assert (WF : PyDict.wf Samples.field_named_transcript).
  { unfold PyDict.wf. simpl.
    repeat constructor; simpl; intuition discriminate. }
  destruct (FormatFacts.sorted_entries_spec _ WF) as [P S].
  eexists. eexists. split; [exact P|]. split; [exact S|reflexivity].
Qed.

(** C5 (amended): for every transcript mapping [m] with no field named
    exactly [transcript], [format_transcript] returns the reference
    rendering of [m], the only one: the lines ["Role: text"] of the entries
    in the order by (role-rank, key-literal), joined by blank lines. So on
    these mappings the output does not depend on the order of the fields,
    the function always returns, the empty mapping gives the empty text,
    and in the rendering of the sample of [test_formatting_order] each
    interviewer line starts before the matching candidate line. *)
Theorem format_transcript_reference (m : PyDict.t string) :
  PyDict.wf m ->
  PyDict.get "transcript" m = None ->
  (exists out,
      Utils.format_transcript (of_texts m) = Ok out /\
      Spec.is_rendering m out /\
      forall out', Spec.is_rendering m out' -> out' = out) /\
  (forall m', Permutation m m' ->
      Utils.format_transcript (of_texts m') = Utils.format_transcript (of_texts m)) /\
  Utils.format_transcript (of_texts []) = Ok EmptyString /\
  (let out := PyStr.join PyStr.blank_line
                ["Interviewer: question"; "Interviewer: question 2";
                 "Candidate: answer"; "Candidate: answer 2"] in
   Utils.format_transcript (of_texts Samples.order_example) = Ok out /\
   PyStr.index out "Interviewer: question" = Some 0 /\
   PyStr.index out "Candidate: answer" = Some 48 /\
   PyStr.index out "Interviewer: question 2" = Some 23 /\
   PyStr.index out "Candidate: answer 2" = Some 67).
Proof.
  intros WF NT.
  pose proof (FormatFacts.unwrap_flat m NT) as U.
  repeat split.
  - destruct (Utils.format_transcript (of_texts m)) as [out|e] eqn:E.
    + exists out. split; [reflexivity|].
      pose proof (proj1 (FormatFacts.format_is_rendering _ m out U WF) E) as R.
      split; [exact R|].
      intros out' R'.
      apply (FormatFacts.format_is_rendering _ m out' U WF) in R'.
      congruence.
    + rewrite (FormatFacts.format_flat _ m U) in E. discriminate.
  - intros m' P.
    apply (FormatFacts.format_perm (of_texts m) (of_texts m') m m'); auto.
    apply FormatFacts.unwrap_flat.
    rewrite (PyDictFacts.get_perm "transcript" m m' P WF). exact NT.
Qed.

Lemma format_transcript_reference_witness :
  PyDict.wf Samples.order_example /\
  PyDict.get "transcript" Samples.order_example = None /\
  exists out,
    Utils.format_transcript (of_texts Samples.order_example) = Ok out /\
    Spec.is_rendering Samples.order_example out.
Proof.
  assert (WF : PyDict.wf Samples.order_example).
  { unfold PyDict.wf. simpl.
    repeat constructor; simpl; intuition discriminate. }
  split; [exact WF|]. split; [reflexivity|].
  destruct (format_transcript_reference Samples.order_example WF eq_refl)
    as [(out & F & R & _) _].
  exists out. split; assumption.
Defined.

(** C10, as stated, fails: in a flat transcript with a field named
    [transcript], that key matches neither role and the key [candidate]
    does not contain "interviewer", yet neither is rendered with the label
    "Candidate": [format_transcript] takes the text of the field for the
    transcript and raises. *)
Lemma key_of_flat_transcript_is_not_rendered :
  PyDict.get "transcript" Samples.field_named_transcript = Some "notes" /\
  Utils.has_interviewer "transcript" = false /\
  Utils.has_candidate "transcript" = false /\
  PyDict.get "candidate" Samples.field_named_transcript = Some "A." /\
  Utils.has_interviewer "candidate" = false /\
  Utils.format_transcript (of_texts Samples.field_named_transcript) =
    Raise (mk_exn AttributeError "'str' object has no attribute 'keys'").
Proof. repeat split. Qed.

(** C10 (amended): take the mapping [m] that [format_transcript] renders:
    its argument, when that has no field named [transcript], and else the
    mapping under that field. Every key of [m] that does not contain
    "interviewer" is rendered with the label "Candidate", also when it
    matches neither role, the key [transcript] of a wrapped mapping
    included. The lines come in non-decreasing role-rank, so after a key
    of rank 2, one that matches neither role, only such keys follow: they
    come after every candidate key, and still read "Candidate: ...". *)
Theorem other_keys_rendered_as_candidate (obj : pydict) (m : PyDict.t string) :
  Utils.unwrap obj = VDict (of_texts m) ->
  PyDict.wf m ->
  (exists entries,
      Permutation entries m /\
      StronglySorted (fun a b => Spec.rank (fst a) <= Spec.rank (fst b)) entries /\
      Utils.format_transcript obj =
        Ok (PyStr.join PyStr.blank_line
              (map (fun entry =>
                      (if Utils.has_interviewer (fst entry)
                       then "Interviewer" else "Candidate")
                        ++ ": " ++ snd entry)
                   entries)) /\
      (forall k text,
          In (k, text) m ->
          Utils.has_interviewer k = false ->
          In ("Candidate: " ++ text)
             (map (fun entry =>
                     (if Utils.has_interviewer (fst entry)
                      then "Interviewer" else "Candidate")
                       ++ ": " ++ snd entry)
                  entries)) /\
      (forall earlier other later,
          entries = (earlier ++ other :: later)%list ->
          Spec.rank (fst other) = 2 ->
          forall entry, In entry later -> Spec.rank (fst entry) = 2)) /\
  (forall k, Utils.has_interviewer k = false ->
             Utils.role k = "Candidate" /\
             Utils.sort_key k = (Spec.rank k, k) /\
             (Utils.has_candidate k = true -> Utils.sort_key k = (1, k)) /\
             (Utils.has_candidate k = false -> Utils.sort_key k = (2, k))) /\
  Utils.format_transcript (of_texts Samples.notes_example) =
    Ok (PyStr.join PyStr.blank_line
          ["Interviewer: q"; "Candidate: a"; "Candidate: n"]) /\
  Utils.format_transcript (wrapped Samples.field_named_transcript) =
    Ok (PyStr.join PyStr.blank_line
          ["Interviewer: Q?"; "Candidate: A."; "Candidate: notes"]).
Proof.
  intros U WF.
  split; [|split; [|split; reflexivity]].
  - destruct (FormatFacts.sorted_entries_spec m WF) as [P S].
    set (entries := map (fun k => (k, Spec.text_of m k))
                      (Utils.sorted (PyDict.keys m))) in *.
    assert (Sr : StronglySorted
                   (fun a b : string * string =>
                      Spec.rank (fst a) <= Spec.rank (fst b)) entries).
    { eapply StronglySorted_ind with
        (P := StronglySorted
                (fun a b : string * string => Spec.rank (fst a) <= Spec.rank (fst b)));
        [constructor| |exact S].
      intros a l _ IH F. constructor; [exact IH|].
      eapply Forall_impl; [|exact F].
      intros b [H|[H _]]; lia. }
    exists entries. split; [exact P|]. split; [exact Sr|]. split; [|split].
    + rewrite (FormatFacts.format_flat _ m U). do 2 f_equal.
      apply map_ext. intros [k v]. unfold Spec.line. simpl.
      rewrite <- FormatFacts.role_label. reflexivity.
    + intros k text Hin NoI.
      apply (Permutation_in _ (Permutation_sym P)) in Hin.
      apply (in_map (fun entry : string * string =>
                       (if Utils.has_interviewer (fst entry)
                        then "Interviewer" else "Candidate")
                         ++ ": " ++ snd entry)) in Hin.
      cbn [fst snd] in Hin. rewrite NoI in Hin. exact Hin.
    + intros earlier other later E R2 entry Hin.
      rewrite E in Sr. apply FormatFacts.StronglySorted_suffix in Sr.
      apply StronglySorted_inv in Sr. destruct Sr as [_ F].
      rewrite Forall_forall in F. specialize (F entry Hin).
      pose proof (SortFacts.rank_le_2 (fst entry)). lia.
  - intros k NoI. split; [|split; [|split]].
    + unfold Utils.role. rewrite NoI. reflexivity.
    + apply SortFacts.sort_key_rank.
    + intros C. unfold Utils.sort_key. rewrite NoI, C. reflexivity.
    + intros C. unfold Utils.sort_key. rewrite NoI, C. reflexivity.
Qed.

Lemma other_keys_rendered_as_candidate_witness :
  let obj := wrapped Samples.field_named_transcript in
  Utils.unwrap obj = VDict (of_texts Samples.field_named_transcript) /\
  PyDict.wf Samples.field_named_transcript /\
  exists entries,
    Permutation entries Samples.field_named_transcript /\
    Utils.format_transcript obj =
      Ok (PyStr.join PyStr.blank_line
            (map (fun entry =>
                    (if Utils.has_interviewer (fst entry)
                     then "Interviewer" else "Candidate")
                      ++ ": " ++ snd entry)
                 entries)) /\
    In "Candidate: notes"
       (map (fun entry =>
               (if Utils.has_interviewer (fst entry)
                then "Interviewer" else "Candidate")
                 ++ ": " ++ snd entry)
            entries).
Proof.
  intros obj.
  assert (U : Utils.unwrap obj = VDict (of_texts Samples.field_named_transcript))
    by reflexivity.
  assert (WF : PyDict.wf Samples.field_named_transcript).
  { unfold PyDict.wf. simpl.
    repeat constructor; simpl; intuition discriminate. }
  split; [exact U|]. split; [exact WF|].
  destruct (other_keys_rendered_as_candidate obj
              Samples.field_named_transcript U WF)
    as ((entries & P & _ & F & L & _) & _).
  exists entries. split; [exact P|]. split; [exact F|].
  apply (L "transcript" "notes"); [left; reflexivity|reflexivity].
Defined.

(** C8, as stated, fails: for a transcript with a field named
    [transcript], the wrapped form is rendered and accepted while the flat
    form raises in both functions. *)
Lemma wrapping_not_transparent :
  Utils.format_transcript (wrapped Samples.field_named_transcript) =
    Ok (PyStr.join PyStr.blank_line
          ["Interviewer: Q?"; "Candidate: A."; "Candidate: notes"]) /\
  Utils.format_transcript (of_texts Samples.field_named_transcript) =
    Raise (mk_exn AttributeError "'str' object has no attribute 'keys'") /\
  Utils.validate_transcript (wrapped Samples.field_named_transcript) =
    Ok (true, None) /\
  Utils.validate_transcript (of_texts Samples.field_named_transcript) =
    Raise (mk_exn AttributeError "'str' object has no attribute 'keys'").
Proof. repeat split; reflexivity. Qed.

(** C8 (amended): for every transcript mapping [m] with no field named
    exactly [transcript], an outer mapping that holds [m] under the key
    [transcript], whatever else it holds, is formatted and validated as
    [m] itself is. *)
Theorem wrapped_shape_transparent (outer : pydict) (m : PyDict.t string) :
  PyDict.get "transcript" outer = Some (VDict (of_texts m)) ->
  PyDict.get "transcript" m = None ->
  Utils.format_transcript outer = Utils.format_transcript (of_texts m) /\
  Utils.validate_transcript outer = Utils.validate_transcript (of_texts m).
Proof.
  intros O NT.
  pose proof (FormatFacts.unwrap_flat m NT) as U.
  unfold Utils.format_transcript, Utils.validate_transcript.
  rewrite U. unfold Utils.unwrap. rewrite O. split; reflexivity.
Qed.

Lemma wrapped_shape_transparent_witness :
  let outer := [("metadata", VDict [("candidate_id", VStr "C-1")]);
                ("transcript", VDict (of_texts Samples.valid_example))] in
  PyDict.get "transcript" outer = Some (VDict (of_texts Samples.valid_example)) /\
  PyDict.get "transcript" Samples.valid_example = None /\
  Utils.format_transcript outer =
    Utils.format_transcript (of_texts Samples.valid_example) /\
  Utils.validate_transcript outer =
    Utils.validate_transcript (of_texts Samples.valid_example).
Proof.
  intros outer. split; [reflexivity|]. split; [reflexivity|].
  apply (wrapped_shape_transparent outer Samples.valid_example); reflexivity.
Defined.


(** ** Results on the two validators *)



(** C7: [validate_report_quality] is a function of the report alone; its
    issues are the messages of the violated checks, one per violation and
    in the order of the checks (headline under 20 characters, impression
    under 50, no strength, no weakness, no priority topic, fewer than 2
    roadmap steps, no resource, then for each resource a blank link or a
    link that starts with neither http:// nor https://, named by the topic
    of the resource); it passes exactly when there is no issue, and a
    well-formed report, and only such a report, yields (true, []). *)
Theorem validate_report_quality_checks (report : FinalReport) :
  Utils.validate_report_quality report =
    (match Spec.violated report with [] => true | _ :: _ => false end,
     map Spec.issue_text (Spec.violated report)) /\
  (fst (Utils.validate_report_quality report) = true <->
   snd (Utils.validate_report_quality report) = []) /\
  (Spec.well_formed report <->
   Utils.validate_report_quality report = (true, [])) /\
  (strengths (insights report) = [] ->
   In "No strengths identified" (snd (Utils.validate_report_quality report))) /\
  (forall resource,
      In resource (recommended_resources (development_plan report)) ->
      PyStr.blank (link resource) = false ->
      Spec.absolute (link resource) = false ->
      In ("Resource '" ++ resource_topic resource ++ "' has invalid link format")
         (snd (Utils.validate_report_quality report))).
Proof.
  rewrite ValidateFacts.quality_issues. simpl fst. simpl snd.
  assert (Z : forall l : list Spec.check,
             (List.length l =? 0)%nat = match l with [] => true | _ :: _ => false end)
    by (intros [|? ?]; reflexivity).
  rewrite Z.
  split; [reflexivity|]. split.
  { destruct (Spec.violated report); simpl; split; congruence. }
  split.
  { rewrite <- ValidateFacts.violated_nil.
    destruct (Spec.violated report); simpl; split; congruence. }
  split.
  { intros E. apply (in_map Spec.issue_text _ Spec.NoStrengths).
    unfold Spec.violated. cbv zeta. rewrite E.
    apply in_or_app; right. apply in_or_app; right.
    apply in_or_app; left. left; reflexivity. }
  intros r Hr B A.
  apply (in_map Spec.issue_text _ (Spec.InvalidLink (resource_topic r))).
  unfold Spec.violated. cbv zeta.
  do 7 (apply in_or_app; right).
  apply in_flat_map. exists r. split; [exact Hr|].
  unfold Spec.link_check. rewrite B, A. left; reflexivity.
Qed.

Lemma validate_report_quality_checks_witness :
  strengths (insights SampleReports.poor_report) = [] /\
  In SampleReports.bad_resource
     (recommended_resources (development_plan SampleReports.poor_report)) /\
  Utils.validate_report_quality SampleReports.poor_report =
    (false, ["No strengths identified";
             "Resource 'ACID' has invalid link format"]) /\
  Utils.validate_report_quality SampleReports.good_report = (true, []).
Proof.
  split; [reflexivity|]. split; [right; left; reflexivity|].
  destruct (validate_report_quality_checks SampleReports.poor_report)
    as (E & _).
  destruct (validate_report_quality_checks SampleReports.good_report)
    as (E' & _).
  split; [exact E|exact E'].
Defined.


(** ** The stage runner *)

Section RunnerFacts.

Context {W T : Type}.
Variable chain : string -> W -> result T * W.
Variable input : string.

Lemma outcome_O w : Spec.outcome chain input w 0 = fst (chain input w).
Proof. reflexivity. Qed.

Lemma outcome_S w i :
  Spec.outcome chain input w (S i) =
    Spec.outcome chain input (snd (chain input w)) i.
Proof. reflexivity. Qed.

Lemma fails_shift w n :
  Spec.fails chain input w 0 ->
  (forall i, i < n -> Spec.fails chain input (snd (chain input w)) i) ->
  forall i, i < S n -> Spec.fails chain input w i.
Proof.
  intros F0 F [|i] Hi; [exact F0|].
  unfold Spec.fails. rewrite outcome_S. apply F. lia.
Qed.

Lemma invocations_app (l1 l2 : list event) :
  invocations (l1 ++ l2) = invocations l1 + invocations l2.
Proof. unfold invocations. rewrite filter_app, length_app. reflexivity. Qed.

Lemma invoked_app (l1 l2 : list event) :
  invoked (l1 ++ l2) = (invoked l1 ++ invoked l2)%list.
Proof. apply flat_map_app. Qed.

(** The number of calls is the length of the list of calls. *)
Lemma invocations_invoked (l : list event) :
  invocations l = List.length (invoked l).
Proof.
  induction l as [|[lvl msg|stage_name input'] l IH]; [reflexivity| |].
  - exact IH.
  - change (S (invocations l) = S (List.length (invoked l))).
    rewrite IH. reflexivity.
Qed.

Lemma invoked_none (l : list event) :
  invoked l = [] -> invocations l = 0.
Proof. intros E. rewrite invocations_invoked, E. reflexivity. Qed.

(** What a run of the retry loop does, [n] iterations being left and
    [attempt + n = max_retries + 1]: it stops at the first success, or it
    re-raises the error of the last attempt; the pipeline object is not
    touched and the trace only grows. *)
Lemma attempts_run (stage_name : string) (n : nat) :
  forall (attempt : Z) (st : pstate (W := W)),
    (attempt + Z.of_nat n = max_retries (self st) + 1)%Z ->
    exists evs,
      self (snd (attempts chain input stage_name n attempt st)) = self st /\
      trace (snd (attempts chain input stage_name n attempt st)) =
        (trace st ++ evs)%list /\
      ((n = 0 /\
        attempts chain input stage_name n attempt st = (Ok None, st) /\
        evs = [])
       \/
       (exists k res,
           k < n /\
           Spec.succeeds_at chain input (world st) k res /\
           fst (attempts chain input stage_name n attempt st) = Ok (Some res) /\
           world (snd (attempts chain input stage_name n attempt st)) =
             Spec.world_after chain input (world st) (S k) /\
           invoked evs = repeat (stage_name, input) (S k))
       \/
       (exists e,
           Spec.all_fail chain input (world st) n e /\
           fst (attempts chain input stage_name n attempt st) = Raise e /\
           world (snd (attempts chain input stage_name n attempt st)) =
             Spec.world_after chain input (world st) n /\
           invoked evs = repeat (stage_name, input) n /\
           In (Log ERROR (MsgAllFailed stage_name)) evs /\
           ~ In (Log INFO (MsgSuccess stage_name)) evs)).
Proof.
  induction n as [|n IH]; intros attempt st Inv.
  - exists []. cbn [attempts]. unfold ret. cbn [fst snd].
    rewrite app_nil_r. split; [reflexivity|]. split; [reflexivity|].
    left. auto.
  - cbn [attempts]. unfold bind, get_self, log, emit, extend, try_invoke. cbn [self world trace].
    destruct (chain input (world st)) as [r w'] eqn:C.
    destruct r as [res|e].
    + (* the attempt succeeds *)
      eexists. cbn [fst snd self world trace].
      split; [reflexivity|]. split.
      { rewrite <- !app_assoc. reflexivity. }
      right; left. exists 0, res.
      split; [lia|]. split.
      { split; [intros i Hi; lia|]. rewrite outcome_O, C. reflexivity. }
      split; [reflexivity|]. split.
      { cbn [Spec.world_after]. rewrite C. reflexivity. }
      reflexivity.
    + destruct (attempt =? max_retries (self st))%Z eqn:Last.
      * (* the last attempt fails *)
        apply Z.eqb_eq in Last.
        assert (n = 0) by lia. subst n.
        eexists. cbn [fst snd self world trace].
        split; [reflexivity|]. split.
        { rewrite <- !app_assoc. reflexivity. }
        right; right. exists e.
        assert (F0 : Spec.fails chain input (world st) 0).
        { exists e. rewrite outcome_O, C. reflexivity. }
        split.
        { split.
          - intros i Hi. assert (i = 0) by lia. subst i. exact F0.
          - exists 0. split; [reflexivity|]. rewrite outcome_O, C. reflexivity. }
        split; [reflexivity|]. split.
        { cbn [Spec.world_after]. rewrite C. reflexivity. }
        split; [reflexivity|]. split.
        { cbn. intuition. }
        cbn. intuition discriminate.
      * (* it fails and the loop goes on *)
        apply Z.eqb_neq in Last.
        cbn [fst snd].
        match goal with
        | |- context [attempts chain input stage_name n ?a ?s] =>
            destruct (IH a s) as (evs & Hself & Htrace & Hcases);
            [cbn [self]; lia|]; cbn [self world trace] in *
        end.
        eexists. split; [exact Hself|]. split.
        { rewrite Htrace, <- !app_assoc. reflexivity. }
        assert (F0 : Spec.fails chain input (world st) 0).
        { exists e. rewrite outcome_O, C. reflexivity. }
        assert (Shift : snd (chain input (world st)) = w')
          by (rewrite C; reflexivity).
        destruct Hcases as [(N0 & _)|[(k & res & Hk & (Fk & Ok_k) & Hr & Hw & Hinv)
                                     |(e' & (Fa & n' & En & Last') & Hr & Hw & Hinv & Hin & Hnot)]].
        -- exfalso. lia.
        -- right; left. exists (S k), res.
           split; [lia|]. split.
           { split.
             - apply fails_shift; [exact F0|]. rewrite Shift. exact Fk.
             - rewrite outcome_S, Shift. exact Ok_k. }
           split; [exact Hr|]. split.
           { rewrite Hw. cbn [Spec.world_after]. rewrite Shift. reflexivity. }
           rewrite !invoked_app, Hinv. reflexivity.
        -- right; right. exists e'.
           split.
           { split.
             - apply fails_shift; [exact F0|]. rewrite Shift. exact Fa.
             - exists (S n'). split; [lia|].
               rewrite outcome_S, Shift. exact Last'. }
           split; [exact Hr|]. split.
           { rewrite Hw. cbn [Spec.world_after]. rewrite Shift. reflexivity. }
           split.
           { rewrite !invoked_app, Hinv. reflexivity. }
           split.
           { repeat (apply in_or_app; right). exact Hin. }
           intros Hin'.
           repeat (apply in_app_or in Hin'; destruct Hin' as [Hin'|Hin']);
             try (cbn in Hin'; intuition discriminate).
Qed.

End RunnerFacts.

Section StageFacts.

Context {W T : Type}.
Variable chain : string -> W -> result T * W.
Variable input : string.

Lemma invoke_with_retry_unfold (stage_name : string) (st : pstate (W := W)) :
  _invoke_with_retry chain input stage_name st =
    attempts chain input stage_name (Z.to_nat (max_retries (self st))) 1 st.
Proof. reflexivity. Qed.

(** A stage run: no attempt at all when [max_retries < 1], otherwise the
    first success or the last error. *)
Lemma invoke_with_retry_run (stage_name : string) (st : pstate (W := W)) :
  exists evs,
    self (snd (_invoke_with_retry chain input stage_name st)) = self st /\
    trace (snd (_invoke_with_retry chain input stage_name st)) =
      (trace st ++ evs)%list /\
    (((max_retries (self st) < 1)%Z /\
      _invoke_with_retry chain input stage_name st = (Ok None, st) /\
      evs = [])
     \/
     (exists k res,
         k < Z.to_nat (max_retries (self st)) /\
         Spec.succeeds_at chain input (world st) k res /\
         fst (_invoke_with_retry chain input stage_name st) = Ok (Some res) /\
         world (snd (_invoke_with_retry chain input stage_name st)) =
           Spec.world_after chain input (world st) (S k) /\
         invoked evs = repeat (stage_name, input) (S k))
     \/
     (exists e,
         Spec.all_fail chain input (world st)
           (Z.to_nat (max_retries (self st))) e /\
         fst (_invoke_with_retry chain input stage_name st) = Raise e /\
         world (snd (_invoke_with_retry chain input stage_name st)) =
           Spec.world_after chain input (world st)
             (Z.to_nat (max_retries (self st))) /\
         invoked evs =
           repeat (stage_name, input) (Z.to_nat (max_retries (self st))) /\
         In (Log ERROR (MsgAllFailed stage_name)) evs /\
         ~ In (Log INFO (MsgSuccess stage_name)) evs)).
Proof.
  rewrite invoke_with_retry_unfold.
  destruct (Z_lt_ge_dec (max_retries (self st)) 1) as [Small|Big].
  - assert (E : Z.to_nat (max_retries (self st)) = 0) by lia.
    rewrite E. exists []. cbn [attempts]. unfold ret. cbn [fst snd].
    rewrite app_nil_r. split; [reflexivity|]. split; [reflexivity|].
    left. auto.
  - destruct (attempts_run chain input stage_name
                (Z.to_nat (max_retries (self st))) 1 st)
      as (evs & Hself & Htrace & Hcases); [lia|].
    exists evs. split; [exact Hself|]. split; [exact Htrace|].
    destruct Hcases as [(N0 & _)|[H|H]]; [lia|right; left; exact H|right; right; exact H].
Qed.

(** The first success is the only one that counts. *)
Lemma succeeds_at_unique w k1 r1 k2 r2 :
  Spec.succeeds_at chain input w k1 r1 ->
  Spec.succeeds_at chain input w k2 r2 ->
  k1 = k2 /\ r1 = r2.
Proof.
  intros [F1 O1] [F2 O2].
  destruct (Nat.lt_trichotomy k1 k2) as [L|[E|L]].
  - destruct (F2 k1 L) as [e He]. congruence.
  - subst. split; congruence.
  - destruct (F1 k2 L) as [e He]. congruence.
Qed.

Lemma succeeds_not_all_fail w n k r e :
  k < n ->
  Spec.succeeds_at chain input w k r ->
  Spec.all_fail chain input w n e -> False.
Proof.
  intros L [_ O] [F _]. destruct (F k L) as [e' He]. congruence.
Qed.

Lemma all_fail_unique w n e1 e2 :
  Spec.all_fail chain input w n e1 ->
  Spec.all_fail chain input w n e2 -> e1 = e2.
Proof.
  intros [_ (n1 & E1 & O1)] [_ (n2 & E2 & O2)].
  assert (n1 = n2) by lia. subst. congruence.
Qed.

End StageFacts.


(** ** The facade *)

Section FacadeFacts.

Context {W : Type}.
Variable analyst_chain : string -> W -> result AnalysisReport * W.
Variable synthesis_chain : string -> W -> result FinalReport * W.
Variable model_dump_json : AnalysisReport -> string.
Variable encode_error : string -> option exn.
Variable md5_hexdigest : string -> string.

Implicit Type st : pstate (W := W).

Lemma bind_log {B : Type} lvl msg (k : unit -> M B) st :
  bind (log lvl msg) k st = k tt (extend st [Log lvl msg]).
Proof. reflexivity. Qed.

Lemma bind_get_self {B : Type} (k : pipeline -> M B) st :
  bind get_self k st = k (self st) st.
Proof. reflexivity. Qed.

Lemma bind_ret {A B : Type} (a : A) (k : A -> M B) st :
  bind (ret a) k st = k a st.
Proof. reflexivity. Qed.

Lemma bind_lift {A B : Type} (r : result A) (k : A -> M B) st :
  bind (lift r) k st =
    match r with Ok a => k a st | Raise e => (Raise e, st) end.
Proof. destruct r; reflexivity. Qed.

Lemma bind_run {A B : Type} (m : M A) (k : A -> M B) st :
  bind m k st =
    match m st with
    | (Ok a, st') => k a st'
    | (Raise e, st') => (Raise e, st')
    end.
Proof. reflexivity. Qed.

Lemma extend_extend st a b :
  extend (extend st a) b = extend st (a ++ b)%list.
Proof. unfold extend. cbn. rewrite app_assoc. reflexivity. Qed.

Lemma invoked_logs_issues issues :
  invoked (map (fun issue => Log WARNING (MsgIssue issue)) issues) = [].
Proof. induction issues; [reflexivity|exact IHissues]. Qed.

Lemma log_issues_run issues : forall st,
  log_issues issues st =
    (Ok tt, extend st (map (fun issue => Log WARNING (MsgIssue issue)) issues)).
Proof.
  induction issues as [|issue rest IH]; intros st.
  - unfold log_issues, ret, extend. cbn. rewrite app_nil_r.
    destruct st; reflexivity.
  - cbn [log_issues]. rewrite bind_log, IH, extend_extend. reflexivity.
Qed.

(** The quality check of [analyze] only logs. *)
Lemma check_output_run (validate_output : bool) (final_report : FinalReport) st :
  exists evs,
    invoked evs = [] /\
    check_output validate_output final_report st = (Ok tt, extend st evs).
Proof.
  unfold check_output. destruct validate_output.
  - rewrite bind_log.
    destruct (Utils.validate_report_quality final_report) as [is_valid issues].
    destruct is_valid; cbn [negb].
    + eexists. split; [|unfold log, emit; rewrite extend_extend; reflexivity].
      reflexivity.
    + rewrite bind_log, log_issues_run, !extend_extend.
      eexists. split; [|reflexivity].
      rewrite !invoked_app, invoked_logs_issues. reflexivity.
  - exists []. split; [reflexivity|].
    unfold ret, extend. rewrite app_nil_r. destruct st; reflexivity.
Qed.

(** Once the first stage has returned a result, a stage run on the same
    pipeline object returns one or raises: the branch of [run_stages] for
    a second stage without a result is not reached. *)
Lemma later_stage_has_result {T1 T2 : Type}
      (chain1 : string -> W -> result T1 * W)
      (chain2 : string -> W -> result T2 * W)
      (input1 input2 stage1 stage2 : string) (a : T1) st st' :
  fst (_invoke_with_retry chain1 input1 stage1 st) = Ok (Some a) ->
  self st' = self st ->
  fst (_invoke_with_retry chain2 input2 stage2 st') <> Ok None.
Proof.
  intros First Same.
  assert (Big : (1 <= max_retries (self st))%Z).
  { destruct (invoke_with_retry_run chain1 input1 stage1 st)
      as (evs & _ & _ & [(Small & E & _)|[(k & r & Hk & _)|(e & _ & E & _)]]).
    - rewrite E in First. discriminate.
    - lia.
    - congruence. }
  destruct (invoke_with_retry_run chain2 input2 stage2 st')
    as (evs & _ & _ & [(Small & _)|[(k & r & _ & _ & E & _)|(e & _ & E & _)]]).
  - rewrite Same in Small. lia.
  - rewrite E. discriminate.
  - rewrite E. discriminate.
Qed.

(** The calls of a trace put together from those of its parts. *)
Ltac calls :=
  rewrite ?invoked_app;
  repeat match goal with
    | H : invoked _ = _ |- _ => rewrite H
    end;
  cbn [invoked flat_map app];
  unfold Spec.extraction_calls, Spec.synthesis_calls;
  rewrite ?app_nil_r; reflexivity.

(** The two stages, the quality check and the store. *)
Lemma run_stages_run (text : string) (validate_output use_cache : bool) st :
  let run := run_stages analyst_chain synthesis_chain model_dump_json
               encode_error md5_hexdigest text validate_output use_cache st in
  exists evs,
    trace (snd run) = (trace st ++ evs)%list /\
    (((max_retries (self st) < 1)%Z /\
      fst run = Raise (none_has_no_attribute "snippets") /\
      self (snd run) = self st /\ world (snd run) = world st /\
      invoked evs = [])
     \/
     (exists e,
         Spec.all_fail analyst_chain text (world st) (Spec.budget (self st)) e /\
         fst run = Raise e /\
         self (snd run) = self st /\
         world (snd run) =
           Spec.world_after analyst_chain text (world st) (Spec.budget (self st)) /\
         invoked evs = Spec.extraction_calls text (Spec.budget (self st)))
     \/
     (exists k a e,
         Spec.synthesis_exhausted analyst_chain synthesis_chain
           model_dump_json text (world st) (Spec.budget (self st)) k a e /\
         fst run = Raise e /\
         self (snd run) = self st /\
         world (snd run) =
           Spec.world_after synthesis_chain (model_dump_json a)
             (Spec.world_after analyst_chain text (world st) (S k)) (Spec.budget (self st)) /\
         invoked evs =
           (Spec.extraction_calls text (S k)
              ++ Spec.synthesis_calls model_dump_json a (Spec.budget (self st)))%list)
     \/
     (exists k a k2 report,
         Spec.stages_succeed analyst_chain synthesis_chain
           model_dump_json text (world st) (Spec.budget (self st)) k a k2 report /\
         world (snd run) =
           Spec.world_after synthesis_chain (model_dump_json a)
             (Spec.world_after analyst_chain text (world st) (S k)) (S k2) /\
         invoked evs =
           (Spec.extraction_calls text (S k)
              ++ Spec.synthesis_calls model_dump_json a (S k2))%list /\
         ((use_cache && enable_cache (self st) = true /\
           (exists e, encode_error text = Some e) /\
           self (snd run) = self st)
          \/
          (use_cache && enable_cache (self st) = true /\
           cache (self st) = None /\
           self (snd run) = self st)
          \/
          ((use_cache && enable_cache (self st) = false \/
            (encode_error text = None /\ exists c, cache (self st) = Some c)) /\
           fst run = Ok report /\
           self (snd run) =
             Spec.stored md5_hexdigest (self st) use_cache text report)))).
Proof.
  intros run. subst run. unfold run_stages, Spec.budget.
  rewrite bind_log, bind_run.
  destruct (invoke_with_retry_run analyst_chain text "Analyst"
              (extend st [Log INFO MsgStage1]))
    as (evs1 & Hself1 & Htrace1 & Hcases1).
  destruct (_invoke_with_retry analyst_chain text "Analyst"
              (extend st [Log INFO MsgStage1])) as [r1 s1] eqn:E1.
  cbn [fst snd self world trace extend] in *.
  destruct Hcases1 as [(Small & Enone & Eevs)
                      |[(k & a & Hk & Sk & Er & Ew & Einv)
                       |(e & Fa & Er & Ew & Einv & _)]].
  - (* no attempt *)
    inversion Enone; subst r1 s1 evs1.
    unfold raise. cbn [fst snd self world trace extend].
    eexists. split; [reflexivity|]. left. auto.
  - (* extraction succeeds *)
    subst r1. cbv iota beta.
    rewrite !bind_log, bind_run.
    destruct (invoke_with_retry_run synthesis_chain (model_dump_json a)
                "Synthesis"
                (extend (extend s1
                   [Log INFO (MsgAnalysisComplete (List.length (snippets a)))])
                   [Log INFO MsgStage2]))
      as (evs2 & Hself2 & Htrace2 & Hcases2).
    destruct (_invoke_with_retry synthesis_chain (model_dump_json a)
                "Synthesis"
                (extend (extend s1
                   [Log INFO (MsgAnalysisComplete (List.length (snippets a)))])
                   [Log INFO MsgStage2])) as [r2 s2] eqn:E2.
    cbn [fst snd self world trace extend] in *.
    rewrite Hself1 in *. rewrite Ew in *.
    destruct Hcases2 as [(Small & _)
                        |[(k2 & report & Hk2 & Sk2 & Er2 & Ew2 & Einv2)
                         |(e & Fa2 & Er2 & Ew2 & Einv2 & _)]].
    + exfalso. lia.
    + (* synthesis succeeds *)
      subst r2. cbv iota beta. rewrite bind_log, bind_run.
      destruct (check_output_run validate_output report
                  (extend s2 [Log INFO MsgSynthesisComplete]))
        as (evsq & Hq & Eq).
      rewrite Eq. cbv iota beta. rewrite bind_get_self, bind_run.
      cbn [self extend].
      rewrite Hself2.
      destruct (use_cache && enable_cache (self st)) eqn:UC.
      * rewrite bind_lift. unfold _get_cache_key.
        destruct (encode_error text) as [e|] eqn:Enc.
        -- (* the fingerprint raises *)
           cbn [fst snd self world trace extend].
           eexists. split.
           { rewrite Htrace2, Htrace1, <- !app_assoc. reflexivity. }
           do 3 right. exists k, a, k2, report.
           split; [unfold Spec.stages_succeed; auto|].
           split; [exact Ew2|]. split; [calls|].
           left. split; [reflexivity|]. split; [eauto|exact Hself2].
        -- unfold cache_setitem. rewrite bind_run, bind_get_self.
           cbn [self extend]. rewrite Hself2.
           destruct (cache (self st)) as [c|] eqn:C.
           ++ unfold set_cache, ret, log, emit, bind.
              cbn [fst snd self world trace extend].
              eexists. split.
              { rewrite Htrace2, Htrace1, <- !app_assoc. reflexivity. }
              do 3 right. exists k, a, k2, report.
              split; [unfold Spec.stages_succeed; auto|].
              split; [exact Ew2|]. split; [calls|].
              right; right. split; [right; eauto|]. split; [reflexivity|].
              unfold Spec.stored. rewrite UC, Hself2, C.
              reflexivity.
           ++ unfold raise. cbn [fst snd self world trace extend].
              eexists. split.
              { rewrite Htrace2, Htrace1, <- !app_assoc. reflexivity. }
              do 3 right. exists k, a, k2, report.
              split; [unfold Spec.stages_succeed; auto|].
              split; [exact Ew2|]. split; [calls|].
              right; left. auto.
      * unfold ret, log, emit, bind.
        cbn [fst snd self world trace extend].
        eexists. split.
        { rewrite Htrace2, Htrace1, <- !app_assoc. reflexivity. }
        do 3 right. exists k, a, k2, report.
        split; [unfold Spec.stages_succeed; auto|].
        split; [exact Ew2|]. split; [calls|].
        right; right. split; [left; reflexivity|]. split; [reflexivity|].
        unfold Spec.stored. rewrite UC. exact Hself2.
    + (* synthesis fails *)
      subst r2. cbv iota beta. cbn [fst snd].
      eexists. split.
      { rewrite Htrace2, Htrace1, <- !app_assoc. reflexivity. }
      right; right; left. exists k, a, e.
      split; [unfold Spec.synthesis_exhausted; auto|].
      split; [reflexivity|]. split; [exact Hself2|]. split; [exact Ew2|].
      calls.
  - (* extraction fails *)
    subst r1. cbv iota beta. cbn [fst snd].
    exists ([Log INFO MsgStage1] ++ evs1)%list. split.
    { rewrite Htrace1, <- app_assoc. reflexivity. }
    right; left. exists e.
    split; [exact Fa|]. split; [reflexivity|]. split; [exact Hself1|].
    split; [exact Ew|]. rewrite invoked_app, Einv. reflexivity.
Qed.

Local Abbreviation analyze_run :=
  (Spec.analyze_run analyst_chain synthesis_chain model_dump_json
     encode_error md5_hexdigest).

(** After a miss the run of the stages is one of the last four paths. *)
Lemma stages_refine t (validate_input validate_output use_cache : bool)
      (text : string) st :
  Spec.accepted validate_input t ->
  Utils.format_transcript t = Ok text ->
  Spec.miss encode_error md5_hexdigest (self st) use_cache text ->
  let run := run_stages analyst_chain synthesis_chain model_dump_json
               encode_error md5_hexdigest text validate_output use_cache st in
  exists evs,
    trace (snd run) = (trace st ++ evs)%list /\
    analyze_run (self st) (world st) t validate_input validate_output use_cache
      (fst run) (self (snd run)) (world (snd run)) (invoked evs).
Proof.
  intros A F Ms run.
  destruct (run_stages_run text validate_output use_cache st)
    as (evs & Htrace & Hcases).
  fold run in Htrace, Hcases.
  exists evs. split; [exact Htrace|].
  destruct Hcases as [(Small & Er & Es & Ew & Ei)
                     |[(e & Fa & Er & Es & Ew & Ei)
                      |[(k & a & e & Sx & Er & Es & Ew & Ei)
                       |(k & a & k2 & report & Sx & Ew & Ei & Hstore)]]].
  - rewrite Er, Es, Ew, Ei. apply Spec.run_no_attempt with text; assumption.
  - rewrite Er, Es, Ew, Ei. apply Spec.run_extraction_fails; assumption.
  - rewrite Er, Es, Ew, Ei. apply Spec.run_synthesis_fails; assumption.
  - destruct Hstore as [(UC & (e & Enc) & _)|[(UC & C & _)|(_ & Er & Es)]].
    + exfalso. destruct Ms as [Ms|(Hn & _)]; congruence.
    + exfalso. destruct Ms as [Ms|(_ & c & Hc & _)]; congruence.
    + rewrite Er, Es, Ew, Ei. apply Spec.run_done; assumption.
Qed.

(** The input check: it lets the call go on, or it ends it on one of
    the first two paths. *)
Lemma check_input_run t (validate_input validate_output use_cache : bool) st :
  exists logs,
    invoked logs = [] /\
    ((Spec.accepted validate_input t /\
      check_input t validate_input st = (Ok tt, extend st logs))
     \/
     (exists e,
         check_input t validate_input st = (Raise e, extend st logs) /\
         forall (this : pipeline) (w : W),
           analyze_run this w t validate_input validate_output use_cache
             (Raise e) this w [])).
Proof.
  unfold check_input. destruct validate_input.
  - rewrite bind_log, bind_lift.
    destruct (Utils.validate_transcript t) as [[is_valid error_msg]|e] eqn:V.
    + destruct is_valid; cbn [negb].
      * eexists. split; cycle 1.
        { left. split; [right; exists error_msg; exact V|].
          unfold log, emit. rewrite extend_extend. reflexivity. }
        reflexivity.
      * rewrite bind_log, extend_extend. unfold raise.
        eexists. split; cycle 1.
        { right. eexists. split; [reflexivity|].
          intros this w. apply Spec.run_rejected; [reflexivity|exact V]. }
        reflexivity.
    + exists [Log INFO MsgValidating]. split; [reflexivity|].
      right. exists e. split; [reflexivity|].
      intros this w. apply Spec.run_validator_raises; [reflexivity|exact V].
  - exists []. split; [reflexivity|]. left. split; [left; reflexivity|].
    unfold ret, extend. rewrite app_nil_r. destruct st; reflexivity.
Qed.

(** Every call of [analyze] follows one of the paths of the facade. *)
Lemma analyze_refines t (validate_input validate_output use_cache : bool) st :
  let run := analyze analyst_chain synthesis_chain model_dump_json
               encode_error md5_hexdigest t validate_input validate_output
               use_cache st in
  exists evs,
    trace (snd run) = (trace st ++ evs)%list /\
    analyze_run (self st) (world st) t validate_input validate_output use_cache
      (fst run) (self (snd run)) (world (snd run)) (invoked evs).
Proof.
  intros run. subst run. unfold analyze.
  rewrite !bind_log, !extend_extend, bind_run.
  destruct (check_input_run t validate_input validate_output use_cache
              (extend st ([Log INFO MsgRule] ++ [Log INFO MsgStarting]
                            ++ [Log INFO MsgRule])%list))
    as (logs & Hlogs & [(A & E)|(e & E & Hrun)]); rewrite E; cbv iota beta.
  2: { rewrite extend_extend. cbn [fst snd self world trace extend].
       eexists. split; [reflexivity|].
       rewrite !invoked_app, Hlogs. apply Hrun. }
  rewrite extend_extend, bind_lift.
  destruct (Utils.format_transcript t) as [text|e] eqn:F.
  2: { cbn [fst snd self world trace extend].
       eexists. split; [reflexivity|].
       rewrite !invoked_app, Hlogs. apply Spec.run_format_raises; assumption. }
  rewrite bind_log, extend_extend, bind_get_self.
  cbn [self extend].
  set (logged := ((([Log INFO MsgRule] ++ [Log INFO MsgStarting]
                      ++ [Log INFO MsgRule]) ++ logs)
                    ++ [Log INFO (MsgFormatted (String.length text))])%list).
  assert (Quiet : invoked logged = []).
  { unfold logged. rewrite !invoked_app, Hlogs. reflexivity. }
  destruct (use_cache && enable_cache (self st)) eqn:UC.
  - rewrite bind_lift. unfold _get_cache_key.
    destruct (encode_error text) as [e|] eqn:Enc.
    { (* the fingerprint raises *)
      cbn [fst snd self world trace extend].
      eexists. split; [reflexivity|]. rewrite Quiet.
      apply Spec.run_fingerprint_raises with text; assumption. }
    rewrite bind_run. unfold cache_contains. rewrite bind_get_self.
    cbn [self extend].
    destruct (cache (self st)) as [c|] eqn:C.
    + unfold ret. cbv iota beta. unfold PyDict.contains.
      destruct (PyDict.get (md5_hexdigest text) c) as [report|] eqn:G.
      * (* hit *)
        rewrite bind_log, extend_extend. unfold cache_getitem.
        rewrite bind_get_self. cbn [self extend]. rewrite C.
        unfold lift, getitem. rewrite G.
        cbn [fst snd self world trace extend].
        eexists. split; [reflexivity|].
        rewrite invoked_app, Quiet.
        apply Spec.run_hit with text c; assumption.
      * (* miss *)
        rewrite bind_log, extend_extend.
        destruct (stages_refine t validate_input validate_output use_cache text
                    (extend st (logged ++ [Log INFO MsgCacheMiss])%list))
          as (evs & Htrace & Hrun); [exact A|exact F| |].
        { right. split; [exact Enc|]. exists c. split; [exact C|exact G]. }
        cbn [self world trace extend] in Htrace, Hrun.
        exists ((logged ++ [Log INFO MsgCacheMiss]) ++ evs)%list. split.
        { rewrite Htrace. rewrite <- !app_assoc. reflexivity. }
        rewrite !invoked_app, Quiet. exact Hrun.
    + unfold raise. cbn [fst snd self world trace extend].
      eexists. split; [reflexivity|]. rewrite Quiet.
      apply Spec.run_cache_missing with text; assumption.
  - destruct (stages_refine t validate_input validate_output use_cache text
                (extend st logged))
      as (evs & Htrace & Hrun); [exact A|exact F| |].
    { left. exact UC. }
    cbn [self world trace extend] in Htrace, Hrun.
    exists (logged ++ evs)%list. split.
    { rewrite Htrace. rewrite <- !app_assoc. reflexivity. }
    rewrite !invoked_app, Quiet. exact Hrun.
Qed.

(** The constructor gives an enabled cache its dictionary, and [analyze]
    keeps it. *)
Lemma init_has_cache (enabled : bool) (retries : Z) :
  enable_cache (__init__ enabled retries) = true ->
  cache (__init__ enabled retries) <> None.
Proof. destruct enabled; cbn; [discriminate|congruence]. Qed.

Lemma analyze_keeps_cache t (validate_input validate_output use_cache : bool) st :
  let run := analyze analyst_chain synthesis_chain model_dump_json
               encode_error md5_hexdigest t validate_input validate_output
               use_cache st in
  (enable_cache (self st) = true -> cache (self st) <> None) ->
  enable_cache (self (snd run)) = true -> cache (self (snd run)) <> None.
Proof.
  intros run Built.
  destruct (analyze_refines t validate_input validate_output use_cache st)
    as (evs & _ & R).
  fold run in R.
  remember (fst run) as r eqn:Er.
  remember (self (snd run)) as this' eqn:Ethis.
  clear Er Ethis.
  inversion R; subst; try exact Built.
  unfold Spec.stored.
  destruct (use_cache && enable_cache (self st)) eqn:UC; [|exact Built].
  cbn [enable_cache cache]. intros On.
  destruct (cache (self st)) eqn:C; [discriminate|].
  exfalso. exact (Built On eq_refl).
Qed.

End FacadeFacts.

(** ** The paths exclude one another *)

Section Determinism.

Context {W : Type}.
Variable analyst_chain : string -> W -> result AnalysisReport * W.
Variable synthesis_chain : string -> W -> result FinalReport * W.
Variable model_dump_json : AnalysisReport -> string.
Variable encode_error : string -> option exn.
Variable md5_hexdigest : string -> string.

Local Abbreviation analyze_run :=
  (Spec.analyze_run analyst_chain synthesis_chain model_dump_json
     encode_error md5_hexdigest).

Lemma all_fail_budget {T : Type} (chain : string -> W -> result T * W)
      input w (this : pipeline) e :
  Spec.all_fail chain input w (Spec.budget this) e ->
  (1 <= max_retries this)%Z.
Proof. intros [_ (n' & E & _)]. unfold Spec.budget in E. lia. Qed.

Lemma lt_budget k (this : pipeline) :
  k < Spec.budget this -> (1 <= max_retries this)%Z.
Proof. unfold Spec.budget. lia. Qed.

Ltac clash :=
  match goal with
  | A : Spec.accepted _ _ |- _ => destruct A as [?|[? ?]]; congruence
  | M : Spec.miss _ _ _ _ _ |- _ =>
      destruct M as [?|(? & ? & ? & ?)]; congruence
  | H : Spec.all_fail _ _ _ (Spec.budget _) _ |- _ =>
      apply all_fail_budget in H; lia
  | H : Spec.synthesis_exhausted _ _ _ _ _ (Spec.budget _) _ _ _ |- _ =>
      destruct H as (H & _); apply lt_budget in H; lia
  | H : Spec.stages_succeed _ _ _ _ _ (Spec.budget _) _ _ _ _ |- _ =>
      destruct H as (H & _); apply lt_budget in H; lia
  end.

Ltac same_values :=
  repeat match goal with
    | H1 : ?x = Ok ?a, H2 : ?x = Ok ?b |- _ =>
        rewrite H1 in H2; inversion H2; subst; clear H2
    | H1 : ?x = Raise ?a, H2 : ?x = Raise ?b |- _ =>
        rewrite H1 in H2; inversion H2; subst; clear H2
    | H1 : ?x = Some ?a, H2 : ?x = Some ?b |- _ =>
        rewrite H1 in H2; inversion H2; subst; clear H2
    end.

Ltac stage_facts :=
  repeat match goal with
    | H : Spec.synthesis_exhausted _ _ _ _ _ _ _ _ _ |- _ =>
        destruct H as (? & ? & ?)
    | H : Spec.stages_succeed _ _ _ _ _ _ _ _ _ _ |- _ =>
        destruct H as (? & ? & ? & ?)
    end;
  repeat match goal with
    | S1 : Spec.succeeds_at ?c ?i ?w ?k1 ?r1,
      S2 : Spec.succeeds_at ?c ?i ?w ?k2 ?r2 |- _ =>
        destruct (succeeds_at_unique c i w k1 r1 k2 r2 S1 S2);
        subst; clear S2
    | S : Spec.succeeds_at ?c ?i ?w ?k ?r,
      F : Spec.all_fail ?c ?i ?w ?n ?e,
      L : ?k < ?n |- _ =>
        exfalso; exact (succeeds_not_all_fail c i w n k r e L S F)
    | F1 : Spec.all_fail ?c ?i ?w ?n ?e1,
      F2 : Spec.all_fail ?c ?i ?w ?n ?e2 |- _ =>
        pose proof (all_fail_unique c i w n e1 e2 F1 F2); subst; clear F2
    end.

(** The outcome of a call is determined by the pipeline object, the
    backend, the transcript and the switches [validate_input] and
    [use_cache]; [validate_output] has no part in it. *)
Lemma analyze_run_deterministic this w t vi vo vo' uc r1 this1 w1 c1 r2 this2 w2 c2 :
  analyze_run this w t vi vo uc r1 this1 w1 c1 ->
  analyze_run this w t vi vo' uc r2 this2 w2 c2 ->
  r1 = r2 /\ this1 = this2 /\ w1 = w2 /\ c1 = c2.
Proof.
  intros R1 R2.
  inversion R1; subst; inversion R2; subst;
    try solve [clash | congruence | auto];
    same_values; stage_facts; auto.
Qed.

End Determinism.


(** ** Results on the stage runner *)

(** C2, as stated, fails: when every attempt fails, what the stage runner
    raises is the backend's own last error; neither its class nor its
    message names the stage. *)
Lemma stage_failure_does_not_name_the_stage :
  fst (_invoke_with_retry SampleBackend.analyst_chain "text" "Analyst"
         (SampleBackend.start (__init__ true 3) SampleBackend.down)) =
    Raise SampleBackend.unavailable /\
  exn_class SampleBackend.unavailable = Exception /\
  PyStr.contains "Analyst" (exn_msg SampleBackend.unavailable) = false.
Proof. repeat split. Qed.

(** C2 (amended): for a stage run with [max_retries >= 1]: if the backend
    call fails on attempts 1 to k and succeeds on attempt k + 1 <=
    [max_retries], the runner returns the result of that attempt without
    raising; if all [max_retries] attempts fail, it re-raises the last
    underlying error itself, unchanged, and the stage is named in the
    error record it logs, not in what it raises. *)
Theorem invoke_with_retry_outcome {W T : Type}
        (chain : string -> W -> result T * W) (input stage_name : string)
        (st : pstate (W := W)) :
  (1 <= max_retries (self st))%Z ->
  let run := _invoke_with_retry chain input stage_name st in
  (forall k result,
      k < Z.to_nat (max_retries (self st)) ->
      Spec.succeeds_at chain input (world st) k result ->
      fst run = Ok (Some result)) /\
  (forall e,
      Spec.all_fail chain input (world st) (Z.to_nat (max_retries (self st))) e ->
      fst run = Raise e /\
      exists evs,
        trace (snd run) = (trace st ++ evs)%list /\
        In (Log ERROR (MsgAllFailed stage_name)) evs).
Proof.
  intros _ run. subst run.
  destruct (invoke_with_retry_run chain input stage_name st)
    as (evs & _ & Htrace & [(Small & Enone & _)
                           |[(k' & r' & Hk' & S' & Er & _)
                            |(e' & F' & Er & _ & _ & Hin & _)]]).
  - split.
    + intros k result Hk _. lia.
    + intros e [_ (n' & En & _)]. lia.
  - split.
    + intros k result Hk S.
      destruct (succeeds_at_unique chain input _ _ _ _ _ S S') as [_ ->].
      exact Er.
    + intros e F. exfalso.
      exact (succeeds_not_all_fail chain input _ _ _ _ _ Hk' S' F).
  - split.
    + intros k result Hk S. exfalso.
      exact (succeeds_not_all_fail chain input _ _ _ _ _ Hk S F').
    + intros e F.
      rewrite (all_fail_unique chain input _ _ _ _ F F').
      split; [exact Er|]. exists evs. split; assumption.
Qed.

Lemma invoke_with_retry_outcome_witness :
  let st := SampleBackend.start (__init__ true 3) SampleBackend.flaky in
  (1 <= max_retries (self st))%Z /\
  2 < Z.to_nat (max_retries (self st)) /\
  Spec.succeeds_at SampleBackend.analyst_chain "text" (world st) 2
    SampleReports.mock_analysis_report /\
  fst (_invoke_with_retry SampleBackend.analyst_chain "text" "Analyst" st) =
    Ok (Some SampleReports.mock_analysis_report).
Proof.
  intros st.
  assert (B : (1 <= max_retries (self st))%Z) by (cbn; lia).
  assert (L : 2 < Z.to_nat (max_retries (self st))) by (cbn; lia).
  assert (S : Spec.succeeds_at SampleBackend.analyst_chain "text" (world st) 2
                SampleReports.mock_analysis_report).
  { split; [|reflexivity].
    intros [|[|i]] Hi; [eexists; reflexivity|eexists; reflexivity|lia]. }
  split; [exact B|]. split; [exact L|]. split; [exact S|].
  exact (proj1 (invoke_with_retry_outcome SampleBackend.analyst_chain
                  "text" "Analyst" st B) 2 _ L S).
Defined.

(** ** Results on the facade *)

Section FacadeClaims.

Context {W : Type}.
Variable analyst_chain : string -> W -> result AnalysisReport * W.
Variable synthesis_chain : string -> W -> result FinalReport * W.
Variable model_dump_json : AnalysisReport -> string.
Variable encode_error : string -> option exn.
Variable md5_hexdigest : string -> string.

Local Abbreviation analyze' :=
  (analyze analyst_chain synthesis_chain model_dump_json encode_error
     md5_hexdigest).
Local Abbreviation analyze_run :=
  (Spec.analyze_run analyst_chain synthesis_chain model_dump_json
     encode_error md5_hexdigest).
Local Abbreviation refines :=
  (analyze_refines analyst_chain synthesis_chain model_dump_json
     encode_error md5_hexdigest).
Local Abbreviation stages_succeed :=
  (Spec.stages_succeed analyst_chain synthesis_chain model_dump_json).

(** C6: a call of [analyze] that raises leaves the pipeline object, and so
    the cache, as it was. The cache changes only on the path on which both
    stages have succeeded, and then by the one entry that maps the
    fingerprint of the normalised transcript to the report the call
    returns. A returned report is an entry of the cache or the result of
    the synthesis stage of a run in which both stages succeeded. *)
Theorem cache_written_only_on_success
        (t : pydict) (validate_input validate_output use_cache : bool)
        (st : pstate (W := W)) :
  let run := analyze' t validate_input validate_output use_cache st in
  (forall e, fst run = Raise e -> self (snd run) = self st) /\
  (cache (self (snd run)) <> cache (self st) ->
   exists text k a k2 report c,
     Utils.format_transcript t = Ok text /\
     stages_succeed text (world st) (Spec.budget (self st)) k a k2 report /\
     fst run = Ok report /\
     cache (self st) = Some c /\
     cache (self (snd run)) = Some (PyDict.set (md5_hexdigest text) report c)) /\
  (forall report,
      fst run = Ok report ->
      (exists text c,
          Utils.format_transcript t = Ok text /\
          cache (self st) = Some c /\
          PyDict.get (md5_hexdigest text) c = Some report /\
          self (snd run) = self st)
      \/
      (exists text k a k2,
          Utils.format_transcript t = Ok text /\
          stages_succeed text (world st) (Spec.budget (self st)) k a k2 report)).
Proof.
  intros run.
  destruct (refines t validate_input validate_output use_cache st)
    as (evs & _ & R).
  fold run in R.
  remember (fst run) as r eqn:Er.
  remember (self (snd run)) as this' eqn:Ethis.
  clear Er Ethis.
  split; [|split].
  - intros e E. subst r. inversion R; subst; reflexivity.
  - intros Changed.
    inversion R; subst; try congruence.
    match goal with
    | M : Spec.miss _ _ _ _ _ |- _ => destruct M as [Off|(Enc & c & C & G)]
    end.
    + exfalso. apply Changed. unfold Spec.stored. rewrite Off. reflexivity.
    + exists text, k, a, k2, report, c.
      split; [assumption|]. split; [assumption|]. split; [reflexivity|].
      split; [exact C|].
      unfold Spec.stored in *.
      destruct (use_cache && enable_cache (self st)) eqn:UC.
      * cbn [cache]. rewrite C. reflexivity.
      * exfalso. apply Changed. reflexivity.
  - intros report E. subst r. inversion R; subst.
    + left. exists text, c. auto.
    + right. exists text, k, a, k2. auto.
Qed.

Lemma first_call_caches t (validate_input validate_output : bool)
      (st : pstate (W := W)) report :
  let run := analyze' t validate_input validate_output true st in
  enable_cache (self st) = true ->
  fst run = Ok report ->
  exists text c,
    Spec.accepted validate_input t /\
    Utils.format_transcript t = Ok text /\
    encode_error text = None /\
    enable_cache (self (snd run)) = true /\
    cache (self (snd run)) = Some c /\
    PyDict.get (md5_hexdigest text) c = Some report.
Proof.
  intros run On E.
  destruct (refines t validate_input validate_output true st)
    as (evs & _ & R).
  fold run in R. rewrite E in R.
  remember (self (snd run)) as this' eqn:Ethis. clear Ethis.
  inversion R; subst.
  - exists text, c. auto 10.
  - match goal with
    | M : Spec.miss _ _ _ _ _ |- _ => destruct M as [Off|(Enc & c & C & G)]
    end.
    + rewrite On in Off. discriminate.
    + exists text, (PyDict.set (md5_hexdigest text) report c).
      unfold Spec.stored. rewrite On. cbn [andb enable_cache cache].
      rewrite C. cbn [option_map].
      repeat split; try assumption.
      apply PyDictFacts.get_set_same.
Qed.

(** C1: on a pipeline built with the cache enabled, if a call of [analyze]
    with [use_cache] returns a report, then a second call with the same
    transcript, made while the pipeline object is as the first call left
    it and whatever the backend has become, returns the same report,
    calls the backend not at all and leaves the pipeline object as it is:
    after the first call the cache maps the fingerprint of the normalised
    transcript to that report, and the second call returns this entry
    before it reaches either stage. *)
Theorem cached_second_call
        (t : pydict) (validate_input validate_output validate_output' : bool)
        (st : pstate (W := W)) (report : FinalReport) :
  enable_cache (self st) = true ->
  fst (analyze' t validate_input validate_output true st) = Ok report ->
  forall st2 : pstate (W := W),
    self st2 = self (snd (analyze' t validate_input validate_output true st)) ->
    let second := analyze' t validate_input validate_output' true st2 in
    fst second = Ok report /\
    self (snd second) = self st2 /\
    world (snd second) = world st2 /\
    invocations (trace (snd second)) = invocations (trace st2) /\
    exists text c,
      Utils.format_transcript t = Ok text /\
      cache (self st2) = Some c /\
      PyDict.get (md5_hexdigest text) c = Some report.
Proof.
  intros On E st2 Same second.
  destruct (first_call_caches t validate_input validate_output st report On E)
    as (text & c & A & F & Enc & On' & C & G).
  rewrite <- Same in On', C.
  destruct (refines t validate_input validate_output' true st2)
    as (evs & Htrace & R).
  fold second in Htrace, R.
  assert (Hit : analyze_run (self st2) (world st2) t validate_input
                  validate_output' true (Ok report) (self st2) (world st2) []).
  { apply Spec.run_hit with text c; assumption. }
  destruct (analyze_run_deterministic _ _ _ _ _ _ _ _ _ _ _ _ _ _ _ _ _ _ _ _ R Hit)
    as (Er & Es & Ew & Ec).
  split; [exact Er|]. split; [exact Es|]. split; [exact Ew|]. split.
  - rewrite Htrace, invocations_app, (invoked_none _ Ec). lia.
  - exists text, c. auto.
Qed.

(** C9 (amended): on a pipeline built with [enable_cache = false],
    [analyze] never returns a cached value and stores nothing: the
    pipeline object is left untouched, and a report it returns is the
    result of the synthesis stage of this very call, the calls of the
    backend being those of the extraction stage up to its first success
    followed by those of the synthesis stage up to its first success. A
    call that gets past validation and normalisation, with
    [max_retries >= 1], invokes the extraction stage on the rendering, and
    it invokes the synthesis stage exactly when the extraction stage has
    succeeded within its attempts, on the serialised analysis report. A
    call that validation or normalisation stops invokes no stage. And
    [get_cache_stats] is the one-entry dictionary [{"enabled": False}],
    without [size] and [keys]. *)
Theorem cache_disabled_runs_both_stages
        (t : pydict) (validate_input validate_output use_cache : bool)
        (st : pstate (W := W)) :
  enable_cache (self st) = false ->
  let run := analyze' t validate_input validate_output use_cache st in
  self (snd run) = self st /\
  (exists evs,
      trace (snd run) = (trace st ++ evs)%list /\
      (forall report,
          fst run = Ok report ->
          exists text k a k2,
            Utils.format_transcript t = Ok text /\
            stages_succeed text (world st) (Spec.budget (self st)) k a k2 report /\
            invoked evs =
              (repeat ("Analyst", text) (S k)
                 ++ repeat ("Synthesis", model_dump_json a) (S k2))%list /\
            invocations evs = S k + S k2) /\
      (forall text,
          Spec.accepted validate_input t ->
          Utils.format_transcript t = Ok text ->
          (1 <= max_retries (self st))%Z ->
          In ("Analyst", text) (invoked evs) /\
          forall input,
            In ("Synthesis", input) (invoked evs) <->
            exists k a,
              k < Spec.budget (self st) /\
              Spec.succeeds_at analyst_chain text (world st) k a /\
              input = model_dump_json a) /\
      (~ Spec.accepted validate_input t \/
       (exists e, Utils.format_transcript t = Raise e) ->
       invoked evs = [] /\ world (snd run) = world st /\
       exists e, fst run = Raise e)) /\
  get_cache_stats (self st) = Ok [("enabled", SBool false)] /\
  PyDict.contains "size" [("enabled", SBool false)] = false /\
  PyDict.contains "keys" [("enabled", SBool false)] = false /\
  (forall max_retries,
      enable_cache (__init__ false max_retries) = false /\
      cache (__init__ false max_retries) = None).
Proof.
  intros Off run.
  destruct (refines t validate_input validate_output use_cache st)
    as (evs & Htrace & R).
  fold run in Htrace, R.
  assert (NoCache : use_cache && enable_cache (self st) = false)
    by (rewrite Off; apply andb_false_r).
  remember (fst run) as r eqn:Er.
  remember (self (snd run)) as this' eqn:Ethis.
  remember (world (snd run)) as w' eqn:Ew.
  remember (invoked evs) as calls eqn:Ecalls.
  clear Er Ethis Ew.
  split; [|split; [|split; [|split; [|split]]]]; try reflexivity.
  - inversion R; subst; try reflexivity.
    unfold Spec.stored. rewrite NoCache. reflexivity.
  - exists evs. split; [exact Htrace|].
    rewrite (invocations_invoked evs), <- Ecalls. clear Ecalls.
    split; [|split].
    + intros report E. subst r. inversion R; subst; try congruence.
      exists text, k, a, k2.
      split; [assumption|]. split; [assumption|]. split; [reflexivity|].
      unfold Spec.extraction_calls, Spec.synthesis_calls.
      rewrite length_app, !repeat_length. reflexivity.
    + intros text A F Big.
      inversion R; subst; try congruence; try lia;
        try (destruct A as [?|[? ?]]; congruence);
        match goal with
        | F' : Utils.format_transcript t = Ok ?text' |- _ =>
            assert (text' = text) by congruence; subst text'
        end;
        unfold Spec.extraction_calls, Spec.synthesis_calls.
      * (* the extraction stage fails *)
        match goal with
        | H : Spec.all_fail _ _ _ (Spec.budget _) _ |- _ => rename H into Fa
        end.
        pose proof (all_fail_budget _ _ _ _ _ Fa) as B.
        destruct (Spec.budget (self st)) as [|n] eqn:Eb;
          [unfold Spec.budget in Eb; lia|].
        split; [left; reflexivity|].
        intros input. split.
        -- intros Hin. apply repeat_spec in Hin. discriminate.
        -- intros (k & a & Hk & Sk & _). exfalso.
           exact (succeeds_not_all_fail _ _ _ _ _ _ _ Hk Sk Fa).
      * (* the synthesis stage fails *)
        match goal with
        | H : Spec.synthesis_exhausted _ _ _ _ _ _ _ _ _ |- _ =>
            destruct H as (Hk & Sk & Fa)
        end.
        split; [left; reflexivity|].
        intros input. split.
        -- intros Hin. apply in_app_or in Hin. destruct Hin as [Hin|Hin].
           ++ apply repeat_spec in Hin. discriminate.
           ++ apply repeat_spec in Hin. inversion Hin. eauto.
        -- intros (k' & a' & Hk' & Sk' & ->).
           destruct (succeeds_at_unique _ _ _ _ _ _ _ Sk Sk') as [_ <-].
           apply in_or_app. right.
           destruct (Spec.budget (self st)); [lia|left; reflexivity].
      * (* both stages succeed *)
        match goal with
        | H : Spec.stages_succeed _ _ _ _ _ _ _ _ _ _ |- _ =>
            destruct H as (Hk & Sk & Hk2 & Sk2)
        end.
        split; [left; reflexivity|].
        intros input. split.
        -- intros Hin. apply in_app_or in Hin. destruct Hin as [Hin|Hin].
           ++ apply repeat_spec in Hin. discriminate.
           ++ apply repeat_spec in Hin. inversion Hin. eauto.
        -- intros (k' & a' & Hk' & Sk' & ->).
           destruct (succeeds_at_unique _ _ _ _ _ _ _ Sk Sk') as [_ <-].
           apply in_or_app. right. left. reflexivity.
    + intros Stopped.
      inversion R; subst;
        try solve [repeat split; eauto];
        exfalso;
        destruct Stopped as [NA|[e' F']]; solve [auto | congruence].
  - unfold get_cache_stats. rewrite Off. reflexivity.
  - intros mr. split; reflexivity.
Qed.

Lemma analyze_interview_unfold (request : AnalysisRequest) (st : pstate (W := W)) :
  fst (analyze_interview analyst_chain synthesis_chain model_dump_json
         encode_error md5_hexdigest request st) =
    match fst (analyze' (request_dict request) true true true st) with
    | Ok report => Report report
    | Raise e =>
        if is_ValueError (exn_class e)
        then HTTPException 400 (exn_msg e)
        else HTTPException 500 ("An unexpected error occurred: " ++ exn_msg e)
    end.
Proof.
  unfold analyze_interview.
  destruct (analyze' (request_dict request) true true true st) as [[report|e] st'];
    cbn [fst]; [reflexivity|].
  destruct (is_ValueError (exn_class e)); reflexivity.
Qed.

(** C3 (amended): take a pipeline whose cache is there when it is enabled,
    with [max_retries >= 1], and a transcript whose unwrapped form is a
    mapping of field names to text and whose rendering, when the cache is
    consulted, can be encoded for the fingerprint. Then [analyze] raises
    exactly when (a) [validate_input] is true and [validate_transcript]
    rejects the transcript, the error being a [ValueError] whose text is
    ["Invalid transcript: "] and the reason, or (b) validation lets the
    call go on, the cache gives no report, and a generation stage fails on
    all its [max_retries] attempts, the error being the last error of the
    backend, re-raised unchanged. [validate_output] changes neither the
    outcome nor the pipeline object nor the backend state, so quality
    issues never raise and never keep the report back. The request handler
    answers a [ValueError] with status 400 and any other error with 500:
    the error of (a) is a [ValueError], the error of (b) has the class the
    backend gave it. *)
Theorem analyze_raises_iff
        (t : pydict) (m : PyDict.t string)
        (validate_input validate_output use_cache : bool)
        (st : pstate (W := W)) (e : exn) :
  Utils.unwrap t = VDict (of_texts m) ->
  (enable_cache (self st) = true -> cache (self st) <> None) ->
  (1 <= max_retries (self st))%Z ->
  (forall text,
      Utils.format_transcript t = Ok text ->
      use_cache && enable_cache (self st) = true ->
      encode_error text = None) ->
  let run := analyze' t validate_input validate_output use_cache st in
  (fst run = Raise e <->
   (validate_input = true /\
    exists msg,
      Utils.validate_transcript t = Ok (false, Some msg) /\
      e = mk_exn ValueError ("Invalid transcript: " ++ msg))
   \/
   (Spec.accepted validate_input t /\
    exists text,
      Utils.format_transcript t = Ok text /\
      Spec.miss encode_error md5_hexdigest (self st) use_cache text /\
      Spec.stage_exhausted analyst_chain synthesis_chain model_dump_json
        text (world st) (Spec.budget (self st)) e)) /\
  (let other := analyze' t validate_input (negb validate_output) use_cache st in
   fst other = fst run /\
   self (snd other) = self (snd run) /\
   world (snd other) = world (snd run)) /\
  (forall (request : AnalysisRequest) (s : pstate (W := W)),
      fst (analyze_interview analyst_chain synthesis_chain model_dump_json
             encode_error md5_hexdigest request s) =
        match fst (analyze' (request_dict request) true true true s) with
        | Ok report => Report report
        | Raise e' =>
            if is_ValueError (exn_class e')
            then HTTPException 400 (exn_msg e')
            else HTTPException 500
                   ("An unexpected error occurred: " ++ exn_msg e')
        end).
Proof.
  intros Shape Built Big Encodable run.
  destruct (refines t validate_input validate_output use_cache st)
    as (evs & _ & R).
  fold run in R.
  split; [|split].
  - split.
    + intros E. rewrite E in R.
      remember (self (snd run)) as this' eqn:Ethis. clear Ethis.
      pose proof (ValidateFacts.validate_flat t m Shape) as V.
      pose proof (FormatFacts.format_flat t m Shape) as F.
      inversion R; subst; try congruence.
      * left. split; [reflexivity|].
        match goal with
        | H : Utils.validate_transcript t = Ok (false, ?o) |- _ =>
            rewrite V in H; inversion H as [Hc];
            destruct (ValidateFacts.validate_checks_message m o Hc) as [msg' ->]
        end.
        exists msg'. split; [rewrite V; f_equal; assumption|reflexivity].
      * exfalso.
        match goal with
        | Ft : Utils.format_transcript t = Ok ?text,
          UC : use_cache && enable_cache _ = true,
          Enc : encode_error ?text = Some _ |- _ =>
            rewrite (Encodable text Ft UC) in Enc; discriminate
        end.
      * exfalso. apply Built; [|assumption].
        match goal with
        | H : use_cache && enable_cache _ = true |- _ =>
            apply andb_true_iff in H; apply H
        end.
      * lia.
      * right. split; [assumption|]. exists text.
        split; [assumption|]. split; [assumption|]. left. assumption.
      * right. split; [assumption|]. exists text.
        split; [assumption|]. split; [assumption|]. right. eauto.
    + intros [(Vi & msg & V & He)|(A & text & F & Ms & [Fa|(k & a & Sx)])].
      * subst e.
        assert (R' : analyze_run (self st) (world st) t validate_input
                       validate_output use_cache
                       (Raise (mk_exn ValueError
                                 ("Invalid transcript: "
                                    ++ str_of_optional (Some msg))))
                       (self st) (world st) [])
          by (apply Spec.run_rejected; assumption).
        apply (analyze_run_deterministic _ _ _ _ _ _ _ _ _ _ _ _ _ _ _ _ _ _ _ _ R R').
      * pose proof (Spec.run_extraction_fails analyst_chain synthesis_chain
                      model_dump_json encode_error md5_hexdigest (self st)
                      (world st) t validate_input validate_output use_cache
                      text e A F Ms Fa)
          as R'.
        apply (analyze_run_deterministic _ _ _ _ _ _ _ _ _ _ _ _ _ _ _ _ _ _ _ _ R R').
      * pose proof (Spec.run_synthesis_fails analyst_chain synthesis_chain
                      model_dump_json encode_error md5_hexdigest (self st)
                      (world st) t validate_input validate_output use_cache
                      text k a e A F Ms Sx)
          as R'.
        apply (analyze_run_deterministic _ _ _ _ _ _ _ _ _ _ _ _ _ _ _ _ _ _ _ _ R R').
  - intros other.
    destruct (refines t validate_input (negb validate_output) use_cache st)
      as (evs' & _ & R').
    fold other in R'.
    destruct (analyze_run_deterministic _ _ _ _ _ _ _ _ _ _ _ _ _ _ _ _ _ _ _ _ R' R)
      as (Er & Es & Ew & _).
    auto.
  - intros request s. apply analyze_interview_unfold.
Qed.

End FacadeClaims.

(** ** The results on sample runs *)

Lemma cached_second_call_witness :
  let st := SampleBackend.start (__init__ true 3) SampleBackend.flaky in
  let t := wrapped Samples.valid_example in
  let first := SampleBackend.analyze t true true true st in
  let second := SampleBackend.analyze t true true true (snd first) in
  enable_cache (self st) = true /\
  fst first = Ok SampleReports.good_report /\
  fst second = Ok SampleReports.good_report /\
  invocations (trace (snd second)) = invocations (trace (snd first)).
Proof.
  intros st t first second.
  assert (On : enable_cache (self st) = true) by reflexivity.
  assert (E : fst first = Ok SampleReports.good_report) by reflexivity.
  split; [exact On|]. split; [exact E|].
  destruct (cached_second_call SampleBackend.analyst_chain
              SampleBackend.synthesis_chain SampleBackend.model_dump_json
              SampleBackend.encode_error SampleBackend.md5_hexdigest t true true true st
              SampleReports.good_report On E (snd first) eq_refl)
    as (R & _ & _ & I & _).
  split; [exact R|exact I].
Defined.

(** C3, as stated, fails in four ways. A transcript whose [transcript]
    field is a text makes [analyze] raise an [AttributeError] although
    [validate_input] is off and no stage is run. With [max_retries = 0] a
    valid transcript makes it raise an [AttributeError] although no attempt
    was made and so none failed. When the output of the backend never
    parses, the error of the exhausted stage is a [ValueError], which the
    request handler answers with status 400 as it answers a rejected
    transcript. And whenever the rendering of a valid transcript cannot
    be encoded, the call with the cache raises the error of the encoder
    before any stage is run. *)
Lemma analyze_raises_outside_the_two_cases :
  (let run := SampleBackend.analyze [("transcript", VStr "hello")]
                false true true
                (SampleBackend.start (__init__ true 3) SampleBackend.flaky) in
   fst run = Raise (mk_exn AttributeError "'str' object has no attribute 'keys'") /\
   invocations (trace (snd run)) = 0) /\
  (let run := SampleBackend.analyze (wrapped Samples.valid_example)
                true true true
                (SampleBackend.start (__init__ true 0) SampleBackend.flaky) in
   fst run =
     Raise (mk_exn AttributeError "'NoneType' object has no attribute 'snippets'") /\
   invocations (trace (snd run)) = 0) /\
  fst (SampleBackend.analyze_interview SampleBackend.request
         (SampleBackend.start (__init__ true 3) SampleBackend.garbled)) =
    HTTPException 400 "Failed to parse output" /\
  fst (SampleBackend.analyze_interview SampleBackend.short_request
         (SampleBackend.start (__init__ true 3) SampleBackend.garbled)) =
    HTTPException 400
      "Invalid transcript: Transcript must have at least 2 exchanges" /\
  (forall (encode_error : string -> option exn) (e : exn),
      encode_error
        (PyStr.join PyStr.blank_line ["Interviewer: Q1"; "Candidate: A1"]) =
        Some e ->
      let run := analyze SampleBackend.analyst_chain
                   SampleBackend.synthesis_chain SampleBackend.model_dump_json
                   encode_error SampleBackend.md5_hexdigest
                   (wrapped Samples.valid_example) true true true
                   (SampleBackend.start (__init__ true 3) SampleBackend.flaky) in
      Utils.validate_transcript (wrapped Samples.valid_example) =
        Ok (true, None) /\
      fst run = Raise e /\
      invocations (trace (snd run)) = 0).
Proof.
  split; [split; reflexivity|]. split; [split; reflexivity|].
  split; [reflexivity|]. split; [reflexivity|].
  intros encode_error e Enc run. subst run.
  unfold analyze, bind, lift, _get_cache_key.
  cbn. cbn in Enc. rewrite Enc.
  repeat split.
Qed.

Lemma analyze_raises_iff_witness :
  let st := SampleBackend.start (__init__ true 3) SampleBackend.down in
  let t := wrapped Samples.valid_example in
  Utils.unwrap t = VDict (of_texts Samples.valid_example) /\
  (enable_cache (self st) = true -> cache (self st) <> None) /\
  (1 <= max_retries (self st))%Z /\
  (forall text,
      Utils.format_transcript t = Ok text ->
      true && enable_cache (self st) = true ->
      SampleBackend.encode_error text = None) /\
  fst (SampleBackend.analyze t true true true st) = Raise SampleBackend.unavailable.
Proof.
  intros st t.
  assert (Shape : Utils.unwrap t = VDict (of_texts Samples.valid_example))
    by reflexivity.
  assert (Built : enable_cache (self st) = true -> cache (self st) <> None)
    by (intros _; discriminate).
  assert (Big : (1 <= max_retries (self st))%Z) by (cbn; lia).
  assert (Encodable : forall text,
             Utils.format_transcript t = Ok text ->
             true && enable_cache (self st) = true ->
             SampleBackend.encode_error text = None)
    by reflexivity.
  split; [exact Shape|]. split; [exact Built|]. split; [exact Big|].
  split; [exact Encodable|].
  apply (proj1 (analyze_raises_iff SampleBackend.analyst_chain
                  SampleBackend.synthesis_chain SampleBackend.model_dump_json
                  SampleBackend.encode_error SampleBackend.md5_hexdigest
                  t Samples.valid_example
                  true true true st SampleBackend.unavailable Shape Built Big
                  Encodable)).
  right. split.
  - right. exists None. reflexivity.
  - eexists. split; [reflexivity|]. split.
    + right. split; [reflexivity|]. exists []. split; reflexivity.
    + left. split.
      * intros [|[|[|i]]] Hi;
          try (exists SampleBackend.unavailable; reflexivity).
        cbn in Hi. lia.
      * exists 2. split; reflexivity.
Defined.

Lemma cache_written_only_on_success_witness :
  let st := SampleBackend.start (__init__ true 3) SampleBackend.down in
  let run := SampleBackend.analyze (wrapped Samples.valid_example)
               true true true st in
  fst run = Raise SampleBackend.unavailable /\
  self (snd run) = self st /\
  cache (self (snd run)) = Some [].
Proof.
  intros st run.
  assert (E : fst run = Raise SampleBackend.unavailable) by reflexivity.
  pose proof (proj1 (cache_written_only_on_success SampleBackend.analyst_chain
                       SampleBackend.synthesis_chain
                       SampleBackend.model_dump_json
                       SampleBackend.encode_error SampleBackend.md5_hexdigest
                       (wrapped Samples.valid_example) true true true st)
                SampleBackend.unavailable E) as Same.
  split; [exact E|]. split; [exact Same|reflexivity].
Defined.

(** C9, as stated, fails: with the cache disabled a call does not
    always invoke both stages. When the backend is down the extraction
    stage is invoked three times and the synthesis stage not at all; and
    a call whose transcript is rejected invokes no stage. *)
Lemma cache_off_call_without_synthesis :
  (let run := SampleBackend.analyze (wrapped Samples.valid_example)
                true true true
                (SampleBackend.start (__init__ false 3) SampleBackend.down) in
   fst run = Raise SampleBackend.unavailable /\
   invoked (trace (snd run)) =
     repeat ("Analyst",
             PyStr.join PyStr.blank_line ["Interviewer: Q1"; "Candidate: A1"])
       3) /\
  (let run := SampleBackend.analyze (wrapped [("interviewer", "Q?")])
                true true true
                (SampleBackend.start (__init__ false 3) SampleBackend.flaky) in
   fst run =
     Raise (mk_exn ValueError
              "Invalid transcript: Transcript must have at least 2 exchanges") /\
   invoked (trace (snd run)) = []).
Proof. repeat split. Qed.

Lemma cache_disabled_runs_both_stages_witness :
  let st := SampleBackend.start (__init__ false 3) SampleBackend.flaky in
  let run := SampleBackend.analyze (wrapped Samples.valid_example)
               true true true st in
  enable_cache (self st) = false /\
  fst run = Ok SampleReports.good_report /\
  self (snd run) = self st /\
  invocations (trace (snd run)) = 4 /\
  get_cache_stats (self st) = Ok [("enabled", SBool false)].
Proof.
  intros st run.
  assert (Off : enable_cache (self st) = false) by reflexivity.
  destruct (cache_disabled_runs_both_stages SampleBackend.analyst_chain
              SampleBackend.synthesis_chain SampleBackend.model_dump_json
              SampleBackend.encode_error SampleBackend.md5_hexdigest
              (wrapped Samples.valid_example)
              true true true st Off)
    as (Same & _ & Stats & _).
  split; [exact Off|]. split; [reflexivity|]. split; [exact Same|].
  split; [reflexivity|exact Stats].
Defined.


(* ================================================================== *)
(** * Part III: further properties of the code                         *)
(* ================================================================== *)

(** ** More on the transcript functions *)

Module MoreUtilsFacts.
Import Utils.



Lemma contains_refl s : PyStr.contains s s = true.
Proof.
    rewrite <- (PyStrFacts.contains_here s EmptyString).
    f_equal. induction s as [|c s IH]; [reflexivity|].
    cbn [append]. rewrite <- IH. reflexivity.
Qed.

  (** A part of a joined text occurs in it. *)
Lemma contains_join sep x l :
    In x l -> PyStr.contains x (PyStr.join sep l) = true.
Proof.
    unfold PyStr.join.
    induction l as [|y l IH]; intros H; [contradiction|].
    destruct l as [|z l].
    - destruct H as [->|[]]. apply contains_refl.
    - cbn [String.concat]. destruct H as [->|H].
      + apply PyStrFacts.contains_here.
      + apply PyStrFacts.contains_app_r, PyStrFacts.contains_app_r.
        apply IH. exact H.
Qed.



Lemma existsb_perm {A : Type} (f : A -> bool) l l' :
    Permutation l l' -> existsb f l = existsb f l'.
Proof.
    intros P. induction P; cbn [existsb]; try congruence.
    destruct (f x), (f y); reflexivity.
Qed.

Lemma first_blank_none_iff m :
    Spec.first_blank m = None <->
    Forall (fun entry => PyStr.blank (snd entry) = false) m.
Proof.
    split; [|apply ValidateFacts.first_blank_none].
    induction m as [|[k text] m IH]; cbn [Spec.first_blank]; [constructor|].
    destruct (PyStr.blank text) eqn:B; [discriminate|].
    intros H. constructor; [exact B|apply IH; exact H].
Qed.

  (** The verdict of the checks does not depend on the order of the
      fields. *)
Lemma verdict_perm m m' :
    Permutation m m' ->
    fst (Spec.validate_checks m) = fst (Spec.validate_checks m').
Proof.
    intros P. unfold Spec.validate_checks.
    rewrite (Permutation_length P).
    rewrite (existsb_perm (Spec.mentions "interviewer") _ _
               (Permutation_map fst P)).
    rewrite (existsb_perm (Spec.mentions "candidate") _ _
               (Permutation_map fst P)).
    destruct (List.length m' =? 0)%nat; [reflexivity|].
    destruct (List.length m' <? 2)%nat; [reflexivity|].
    destruct (existsb (Spec.mentions "interviewer") (map fst m')); [|reflexivity].
    destruct (existsb (Spec.mentions "candidate") (map fst m')); [|reflexivity].
    cbn [negb].
    destruct (Spec.first_blank m) eqn:B; destruct (Spec.first_blank m') eqn:B';
      try reflexivity; exfalso.
    - apply first_blank_none_iff in B'.
      apply (Permutation_Forall (Permutation_sym P)) in B'.
      apply first_blank_none_iff in B'. congruence.
    - apply first_blank_none_iff in B.
      apply (Permutation_Forall P) in B.
      apply first_blank_none_iff in B. congruence.
Qed.

Lemma accepted_message m o :
    Spec.validate_checks m = (true, o) -> o = None.
Proof.
    unfold Spec.validate_checks.
    repeat match goal with
      | |- context [if ?c then _ else _] => destruct c
      | |- context [match ?x with Some _ => _ | None => _ end] => destruct x
      end;
      intros E; inversion E; reflexivity.
Qed.

End MoreUtilsFacts.



(** X2: nothing is dropped from a rendering: for a transcript mapping
    without a field named [transcript], the line of every entry, its role
    label followed by its text, occurs in the text that
    [format_transcript] returns. *)
Theorem every_entry_is_rendered (m : PyDict.t string) (k text : string) :
  PyDict.wf m ->
  PyDict.get "transcript" m = None ->
  In (k, text) m ->
  exists out,
    Utils.format_transcript (of_texts m) = Ok out /\
    PyStr.contains (Utils.role k ++ ": " ++ text) out = true.
Proof.
  intros WF NT H.
  rewrite (FormatFacts.format_flat _ m (FormatFacts.unwrap_flat m NT)).
  eexists. split; [reflexivity|].
  apply MoreUtilsFacts.contains_join.
  rewrite FormatFacts.role_label.
  change (Spec.label (Spec.classify k) ++ ": " ++ text) with (Spec.line (k, text)).
  apply in_map.
  destruct (FormatFacts.sorted_entries_spec m WF) as [P _].
  eapply Permutation_in; [apply Permutation_sym; exact P|exact H].
Qed.

Lemma every_entry_is_rendered_witness :
  PyDict.wf Samples.notes_example /\
  PyDict.get "transcript" Samples.notes_example = None /\
  In ("notes", "n") Samples.notes_example /\
  exists out,
    Utils.format_transcript (of_texts Samples.notes_example) = Ok out /\
    PyStr.contains "Candidate: n" out = true.
Proof.
  assert (WF : PyDict.wf Samples.notes_example).
  { unfold PyDict.wf. simpl.
    repeat constructor; simpl; intuition discriminate. }
  assert (H : In ("notes", "n") Samples.notes_example) by (left; reflexivity).
  split; [exact WF|]. split; [reflexivity|]. split; [exact H|].
  exact (every_entry_is_rendered Samples.notes_example "notes" "n" WF eq_refl H).
Defined.

(** X3: the verdict of [validate_transcript] does not depend on the order
    of the fields of the mapping it checks, which is its argument when
    that has no field named [transcript] and else the mapping under that
    field: two arguments whose checked mappings have the same entries are
    both accepted, with no message, or both rejected; only the message of
    a rejection may differ, as it names the first blank entry in the order
    of the fields. *)
Theorem validate_verdict_ignores_field_order
        (obj obj' : pydict) (m m' : PyDict.t string) :
  Utils.unwrap obj = VDict (of_texts m) ->
  Utils.unwrap obj' = VDict (of_texts m') ->
  Permutation m m' ->
  exists verdict msg msg',
    Utils.validate_transcript obj = Ok (verdict, msg) /\
    Utils.validate_transcript obj' = Ok (verdict, msg') /\
    (verdict = true -> msg = None /\ msg' = None).
Proof.
  intros U U' P.
  rewrite (ValidateFacts.validate_flat _ m U).
  rewrite (ValidateFacts.validate_flat _ m' U').
  pose proof (MoreUtilsFacts.verdict_perm m m' P) as V.
  destruct (Spec.validate_checks m) as [v o] eqn:E.
  destruct (Spec.validate_checks m') as [v' o'] eqn:E'.
  cbn [fst] in V. subst v'.
  exists v, o, o'. split; [reflexivity|]. split; [reflexivity|].
  intros ->. split.
  - exact (MoreUtilsFacts.accepted_message m o E).
  - exact (MoreUtilsFacts.accepted_message m' o' E').
Qed.

Lemma validate_verdict_ignores_field_order_witness :
  let m := [("interviewer", "Q1"); ("candidate", " "); ("candidate_1", EmptyString)] in
  let m' := [("interviewer", "Q1"); ("candidate_1", EmptyString); ("candidate", " ")] in
  Utils.unwrap (of_texts m) = VDict (of_texts m) /\
  Utils.unwrap (wrapped m') = VDict (of_texts m') /\
  Permutation m m' /\
  Utils.validate_transcript (of_texts m) =
    Ok (false, Some "Entry 'candidate' is empty") /\
  Utils.validate_transcript (wrapped m') =
    Ok (false, Some "Entry 'candidate_1' is empty").
Proof.
  intros m m'.
  assert (U : Utils.unwrap (of_texts m) = VDict (of_texts m)) by reflexivity.
  assert (U' : Utils.unwrap (wrapped m') = VDict (of_texts m')) by reflexivity.
  assert (P : Permutation m m') by (apply perm_skip, perm_swap).
  split; [exact U|]. split; [exact U'|]. split; [exact P|].
  destruct (validate_verdict_ignores_field_order (of_texts m) (wrapped m')
              m m' U U' P)
    as (v & o & o' & E & E' & _).
  split; reflexivity.
Defined.



(** X5: the scheme of a link is tested on the link as it is, not on the
    stripped link: a resource whose link is not blank but begins with
    white space gets the issue "has invalid link format", whatever follows
    the white space, and the report does not pass. *)
Theorem link_with_leading_space_is_invalid
        (report : FinalReport) (resource : RecommendedResource)
        (c : ascii) (rest : string) :
  In resource (recommended_resources (development_plan report)) ->
  link resource = String c rest ->
  PyStr.isspace c = true ->
  PyStr.blank rest = false ->
  fst (Utils.validate_report_quality report) = false /\
  In ("Resource '" ++ resource_topic resource ++ "' has invalid link format")
     (snd (Utils.validate_report_quality report)).
Proof.
  intros Hin L Sp NB.
  assert (Chk : Spec.link_check resource = [Spec.InvalidLink (resource_topic resource)]).
  { unfold Spec.link_check, Spec.absolute. rewrite L.
    cbn [PyStr.blank]. rewrite Sp, NB. cbn [andb].
    assert (P : forall p, prefix (String "h" p) (String c rest) = false).
    { intros p. cbn [prefix].
      destruct (ascii_dec "h" c) as [E|N]; [|reflexivity].
      subst c. discriminate Sp. }
    rewrite (P "ttp://"), (P "ttps://"). reflexivity. }
  assert (V : In (Spec.InvalidLink (resource_topic resource)) (Spec.violated report)).
  { unfold Spec.violated. cbv zeta.
    do 7 (apply in_or_app; right).
    apply in_flat_map. exists resource. split; [exact Hin|].
    rewrite Chk. left; reflexivity. }
  rewrite ValidateFacts.quality_issues. cbn [fst snd]. split.
  - destruct (Spec.violated report); [contradiction|reflexivity].
  - apply (in_map Spec.issue_text _ _ V).
Qed.

Lemma link_with_leading_space_is_invalid_witness :
  let resource :=
    {| resource_topic := "SQL";
       link := " https://www.postgresql.org/docs/";
       reason := "Reference manual" |} in
  let report :=
    {| candidate_summary := candidate_summary SampleReports.good_report;
       insights := insights SampleReports.good_report;
       development_plan :=
         {| priority_topics := ["Transactions"];
            roadmap_2_weeks := roadmap_2_weeks
                                 (development_plan SampleReports.good_report);
            recommended_resources := [resource] |} |} in
  In resource (recommended_resources (development_plan report)) /\
  PyStr.isspace " " = true /\
  Utils.validate_report_quality report =
    (false, ["Resource 'SQL' has invalid link format"]).
Proof.
  intros resource report.
  assert (Hin : In resource (recommended_resources (development_plan report)))
    by (left; reflexivity).
  split; [exact Hin|]. split; [reflexivity|].
  destruct (link_with_leading_space_is_invalid report resource " "
              "https://www.postgresql.org/docs/" Hin eq_refl eq_refl eq_refl)
    as [_ _].
  reflexivity.
Defined.

Module KeyOrderFacts.




End KeyOrderFacts.




(** ** More on the stage runner and the facade *)

Lemma set_new_key {V : Type} (k : string) (v : V) (d : PyDict.t V) :
  PyDict.get k d = None -> PyDict.set k v d = (d ++ [(k, v)])%list.
Proof.
  induction d as [|[k' v'] d IH]; cbn [PyDict.get PyDict.set app]; intros H.
  - reflexivity.
  - destruct (String.eqb k k'); [discriminate|]. rewrite (IH H). reflexivity.
Qed.

Lemma get_app_l {V : Type} (k : string) (v : V) (d d' : PyDict.t V) :
  PyDict.get k d = Some v -> PyDict.get k (d ++ d')%list = Some v.
Proof.
  induction d as [|[k' v'] d IH]; cbn [PyDict.get app]; intros H.
  - discriminate.
  - destruct (String.eqb k k'); [exact H|exact (IH H)].
Qed.

(** X6: a stage run calls the backend at most [max_retries] times and
    stops at the first success: a returned result is the one of the first
    attempt that succeeded, after exactly that many calls; an error is
    raised only after exactly [max_retries] calls that all failed; [None]
    is returned only when [max_retries < 1], without any call. The
    pipeline object is not touched. *)
Theorem invoke_with_retry_calls {W T : Type}
        (chain : string -> W -> result T * W) (input stage_name : string)
        (st : pstate (W := W)) :
  let run := _invoke_with_retry chain input stage_name st in
  self (snd run) = self st /\
  exists evs,
    trace (snd run) = (trace st ++ evs)%list /\
    invocations evs <= Z.to_nat (max_retries (self st)) /\
    world (snd run) = Spec.world_after chain input (world st) (invocations evs) /\
    (forall result,
        fst run = Ok (Some result) ->
        exists k, invocations evs = S k /\
                  Spec.succeeds_at chain input (world st) k result) /\
    (forall e,
        fst run = Raise e ->
        invocations evs = Z.to_nat (max_retries (self st)) /\
        Spec.all_fail chain input (world st) (Z.to_nat (max_retries (self st))) e) /\
    (fst run = Ok None ->
     (max_retries (self st) < 1)%Z /\ invocations evs = 0).
Proof.
  intros run. subst run.
  destruct (invoke_with_retry_run chain input stage_name st)
    as (evs & Hself & Htrace & [(Small & Enone & Eevs)
                               |[(k & r & Hk & S & Er & Ew & Einv)
                                |(e & F & Er & Ew & Einv & _)]]).
  - split; [exact Hself|]. exists evs. subst evs. rewrite Enone in *.
    cbn [fst snd] in *. split; [exact Htrace|]. split; [cbn; lia|].
    split; [reflexivity|]. split; [discriminate|]. split; [discriminate|].
    intros _. split; [exact Small|reflexivity].
  - assert (Ei : invocations evs = Datatypes.S k)
      by (rewrite invocations_invoked, Einv; apply repeat_length).
    split; [exact Hself|]. exists evs. rewrite Er, Ei.
    split; [exact Htrace|]. split; [lia|]. split; [exact Ew|].
    split; [|split; discriminate].
    intros result E. inversion E; subst. exists k. auto.
  - assert (Ei : invocations evs = Z.to_nat (max_retries (self st)))
      by (rewrite invocations_invoked, Einv; apply repeat_length).
    split; [exact Hself|]. exists evs. rewrite Er, Ei.
    split; [exact Htrace|]. split; [lia|]. split; [exact Ew|].
    split; [discriminate|]. split; [|discriminate].
    intros e' E. inversion E; subst. auto.
Qed.

Lemma invoke_with_retry_calls_witness :
  let st := SampleBackend.start (__init__ true 3) SampleBackend.flaky in
  let run := _invoke_with_retry SampleBackend.analyst_chain "text" "Analyst" st in
  fst run = Ok (Some SampleReports.mock_analysis_report) /\
  invocations (trace (snd run)) = 3 /\
  exists k, Spec.succeeds_at SampleBackend.analyst_chain "text" (world st) k
              SampleReports.mock_analysis_report.
Proof.
  intros st run.
  assert (E : fst run = Ok (Some SampleReports.mock_analysis_report))
    by reflexivity.
  split; [exact E|]. split; [reflexivity|].
  destruct (invoke_with_retry_calls SampleBackend.analyst_chain "text"
              "Analyst" st) as (_ & evs & _ & _ & _ & Hok & _).
  destruct (Hok _ E) as (k & _ & S). exists k. exact S.
Defined.

Section MoreFacadeFacts.

Context {W : Type}.
Variable analyst_chain : string -> W -> result AnalysisReport * W.
Variable synthesis_chain : string -> W -> result FinalReport * W.
Variable model_dump_json : AnalysisReport -> string.
Variable encode_error : string -> option exn.
Variable md5_hexdigest : string -> string.

Local Abbreviation analyze' :=
  (analyze analyst_chain synthesis_chain model_dump_json encode_error
     md5_hexdigest).
Local Abbreviation analyze_run :=
  (Spec.analyze_run analyst_chain synthesis_chain model_dump_json
     encode_error md5_hexdigest).
Local Abbreviation stages_succeed :=
  (Spec.stages_succeed analyst_chain synthesis_chain model_dump_json).
Local Abbreviation refines :=
  (analyze_refines analyst_chain synthesis_chain model_dump_json
     encode_error md5_hexdigest).

(** A call whose transcript is let through and rendered as a text the cache
    has an entry for returns that entry, at once. *)
Lemma served_from_cache (t : pydict) (validate_input validate_output : bool)
      (st : pstate (W := W)) (text : string) (c : PyDict.t FinalReport)
      (report : FinalReport) :
  Spec.accepted validate_input t ->
  Utils.format_transcript t = Ok text ->
  encode_error text = None ->
  enable_cache (self st) = true ->
  cache (self st) = Some c ->
  PyDict.get (md5_hexdigest text) c = Some report ->
  let run := analyze' t validate_input validate_output true st in
  fst run = Ok report /\
  self (snd run) = self st /\
  world (snd run) = world st /\
  invocations (trace (snd run)) = invocations (trace st).
Proof.
  intros A F Enc On C G run.
  destruct (refines t validate_input validate_output true st)
    as (evs & Htrace & R).
  fold run in Htrace, R.
  assert (Hit : analyze_run (self st) (world st) t validate_input
                  validate_output true (Ok report) (self st) (world st) []).
  { apply Spec.run_hit with text c; assumption. }
  destruct (analyze_run_deterministic _ _ _ _ _ _ _ _ _ _ _ _ _ _ _ _ _ _ _ _ R Hit)
    as (Er & Es & Ew & Ec).
  split; [exact Er|]. split; [exact Es|]. split; [exact Ew|].
  rewrite Htrace, invocations_app, (invoked_none _ Ec). lia.
Qed.

(** [analyze] reads its transcript through the unwrapping step only. *)
Lemma analyze_unwrap (t t' : pydict)
      (validate_input validate_output use_cache : bool) (st : pstate (W := W)) :
  Utils.unwrap t = Utils.unwrap t' ->
  analyze' t validate_input validate_output use_cache st =
    analyze' t' validate_input validate_output use_cache st.
Proof.
  intros U.
  assert (V : Utils.validate_transcript t = Utils.validate_transcript t')
    by (unfold Utils.validate_transcript; rewrite U; reflexivity).
  assert (F : Utils.format_transcript t = Utils.format_transcript t')
    by (unfold Utils.format_transcript; rewrite U; reflexivity).
  unfold analyze, check_input. rewrite V, F. reflexivity.
Qed.

(** X7: with [max_retries < 1] no attempt is ever made: [analyze] never
    calls the backend and leaves the pipeline object as it is; the only
    report it can return is an entry of the cache, and a call that gets
    past validation, normalisation and the cache raises the
    [AttributeError] of [None.snippets]. *)
Theorem no_attempt_without_budget
        (t : pydict) (validate_input validate_output use_cache : bool)
        (st : pstate (W := W)) :
  (max_retries (self st) < 1)%Z ->
  let run := analyze' t validate_input validate_output use_cache st in
  self (snd run) = self st /\
  world (snd run) = world st /\
  invocations (trace (snd run)) = invocations (trace st) /\
  (forall report,
      fst run = Ok report ->
      exists text c,
        Utils.format_transcript t = Ok text /\
        cache (self st) = Some c /\
        PyDict.get (md5_hexdigest text) c = Some report) /\
  (forall text,
      Spec.accepted validate_input t ->
      Utils.format_transcript t = Ok text ->
      Spec.miss encode_error md5_hexdigest (self st) use_cache text ->
      fst run =
        Raise (mk_exn AttributeError
                 "'NoneType' object has no attribute 'snippets'")).
Proof.
  intros Small run.
  destruct (refines t validate_input validate_output use_cache st)
    as (evs & Htrace & R).
  fold run in Htrace, R.
  assert (Core : self (snd run) = self st /\ world (snd run) = world st /\
                 invoked evs = [] /\
                 forall report,
                   fst run = Ok report ->
                   exists text c,
                     Utils.format_transcript t = Ok text /\
                     cache (self st) = Some c /\
                     PyDict.get (md5_hexdigest text) c = Some report).
  { remember (fst run) as r eqn:Er.
    remember (self (snd run)) as this' eqn:Ethis.
    remember (world (snd run)) as w' eqn:Ew.
    remember (invoked evs) as calls eqn:Ecalls.
    clear Er Ethis Ew Ecalls.
    inversion R; subst;
      try (match goal with
           | H : Spec.all_fail _ _ _ (Spec.budget _) _ |- _ =>
               apply all_fail_budget in H; lia
           | H : Spec.synthesis_exhausted _ _ _ _ _ (Spec.budget _) _ _ _ |- _ =>
               destruct H as (H & _); apply lt_budget in H; lia
           | H : Spec.stages_succeed _ _ _ _ _ (Spec.budget _) _ _ _ _ |- _ =>
               destruct H as (H & _); apply lt_budget in H; lia
           end);
      repeat split; try discriminate.
    intros report' E. inversion E; subst. exists text, c. auto. }
  destruct Core as (Es & Ew & Ec & Hret).
  split; [exact Es|]. split; [exact Ew|]. split.
  { rewrite Htrace, invocations_app, (invoked_none _ Ec). lia. }
  split; [exact Hret|].
  intros text A F Ms.
  pose proof (Spec.run_no_attempt analyst_chain synthesis_chain model_dump_json
                encode_error md5_hexdigest (self st) (world st) t validate_input
                validate_output use_cache text A F Ms Small) as R'.
  apply (analyze_run_deterministic _ _ _ _ _ _ _ _ _ _ _ _ _ _ _ _ _ _ _ _ R R').
Qed.

(** X8: one call of [analyze] calls the backend at most twice
    [max_retries] times, and not at all when [validate_input] is on and
    [validate_transcript] rejects the transcript: the backend and the
    pipeline object are then as they were. *)
Theorem analyze_calls_bounded
        (t : pydict) (validate_input validate_output use_cache : bool)
        (st : pstate (W := W)) :
  let run := analyze' t validate_input validate_output use_cache st in
  exists evs,
    trace (snd run) = (trace st ++ evs)%list /\
    invocations evs <= 2 * Z.to_nat (max_retries (self st)) /\
    (validate_input = true ->
     forall msg,
       Utils.validate_transcript t = Ok (false, msg) ->
       invocations evs = 0 /\
       world (snd run) = world st /\
       self (snd run) = self st).
Proof.
  intros run.
  destruct (refines t validate_input validate_output use_cache st)
    as (evs & Htrace & R).
  fold run in Htrace, R.
  exists evs. split; [exact Htrace|].
  rewrite (invocations_invoked evs). split.
  - remember (fst run) as r eqn:Er.
    remember (self (snd run)) as this' eqn:Ethis.
    remember (world (snd run)) as w' eqn:Ew.
    remember (invoked evs) as calls eqn:Ecalls.
    clear Er Ethis Ew Ecalls.
    inversion R; subst;
      repeat match goal with
        | H : Spec.synthesis_exhausted _ _ _ _ _ _ _ _ _ |- _ =>
            destruct H as (? & _ & _)
        | H : Spec.stages_succeed _ _ _ _ _ _ _ _ _ _ |- _ =>
            destruct H as (? & _ & ? & _)
        end;
      unfold Spec.extraction_calls, Spec.synthesis_calls;
      rewrite ?length_app, ?repeat_length; cbn [List.length];
      unfold Spec.budget in *; lia.
  - intros Vi msg V.
    pose proof (Spec.run_rejected analyst_chain synthesis_chain model_dump_json
                  encode_error md5_hexdigest (self st) (world st) t
                  validate_input validate_output use_cache msg Vi V) as R'.
    destruct (analyze_run_deterministic _ _ _ _ _ _ _ _ _ _ _ _ _ _ _ _ _ _ _ _ R R')
      as (_ & Es & Ew & Ec).
    rewrite Ec. auto.
Qed.

(** X9: a call with [use_cache = false] neither reads nor writes the
    cache, also on a pipeline whose cache is enabled and has an entry for
    the transcript: the pipeline object is left as it is, and a returned
    report is the result of the synthesis stage of this call, both stages
    having been run. *)
Theorem use_cache_off_bypasses_cache
        (t : pydict) (validate_input validate_output : bool)
        (st : pstate (W := W)) :
  let run := analyze' t validate_input validate_output false st in
  self (snd run) = self st /\
  exists evs,
    trace (snd run) = (trace st ++ evs)%list /\
    forall report,
      fst run = Ok report ->
      exists text k a k2,
        Utils.format_transcript t = Ok text /\
        stages_succeed text (world st) (Spec.budget (self st)) k a k2 report /\
        invocations evs = S k + S k2.
Proof.
  intros run.
  destruct (refines t validate_input validate_output false st)
    as (evs & Htrace & R).
  fold run in Htrace, R.
  remember (fst run) as r eqn:Er.
  remember (self (snd run)) as this' eqn:Ethis.
  remember (invoked evs) as calls eqn:Ecalls.
  clear Er Ethis.
  split.
  - inversion R; subst; reflexivity.
  - exists evs. split; [exact Htrace|].
    rewrite (invocations_invoked evs), <- Ecalls.
    intros report E. subst r. inversion R; subst; try discriminate.
    exists text, k, a, k2.
    split; [assumption|]. split; [assumption|].
    unfold Spec.extraction_calls, Spec.synthesis_calls.
    rewrite length_app, !repeat_length. reflexivity.
Qed.

(** X10: [analyze] only ever adds to the cache: on a pipeline with a
    cache, the cache after a call is the cache before it, or the cache
    before it with one entry appended, for a fingerprint that had none,
    holding the report the call returns. So no entry is removed or
    changed. *)
Theorem cache_only_grows
        (t : pydict) (validate_input validate_output use_cache : bool)
        (st : pstate (W := W)) (c : PyDict.t FinalReport) :
  cache (self st) = Some c ->
  let run := analyze' t validate_input validate_output use_cache st in
  exists c',
    cache (self (snd run)) = Some c' /\
    (c' = c \/
     exists text report,
       fst run = Ok report /\
       Utils.format_transcript t = Ok text /\
       PyDict.get (md5_hexdigest text) c = None /\
       c' = (c ++ [(md5_hexdigest text, report)])%list) /\
    (forall key report,
        PyDict.get key c = Some report -> PyDict.get key c' = Some report).
Proof.
  intros C run.
  destruct (refines t validate_input validate_output use_cache st)
    as (evs & _ & R).
  fold run in R.
  remember (fst run) as r eqn:Er.
  remember (self (snd run)) as this' eqn:Ethis.
  clear Er Ethis.
  inversion R; subst; try solve [exists c; repeat split; auto].
  unfold Spec.stored.
  destruct (use_cache && enable_cache (self st)) eqn:UC;
    [|solve [exists c; repeat split; auto]].
  match goal with
  | M : Spec.miss _ _ _ _ _ |- _ => destruct M as [Off|(Enc & c0 & C0 & G)]
  end; [congruence|].
  rewrite C in C0. inversion C0; subst c0.
  cbn [cache]. rewrite C. cbn [option_map].
  rewrite (set_new_key _ report c G).
  eexists. split; [reflexivity|]. split.
  - right. exists text, report. auto.
  - intros key report' Hk. apply get_app_l. exact Hk.
Qed.


(** X12: the order of the fields does not matter to the cache. Take two
    arguments whose transcript mappings, each the argument itself when it
    has no field named [transcript] and else the mapping under that field,
    have the same entries in any order. After a call with the cache has
    returned a report for the first, a call with the same [validate_input]
    for the second returns that report without calling the backend. *)
Theorem reordered_fields_hit_cache
        (t t' : pydict) (m m' : PyDict.t string)
        (validate_input validate_output validate_output' : bool)
        (st st2 : pstate (W := W)) (report : FinalReport) :
  Utils.unwrap t = VDict (of_texts m) ->
  Utils.unwrap t' = VDict (of_texts m') ->
  PyDict.wf m ->
  Permutation m m' ->
  enable_cache (self st) = true ->
  fst (analyze' t validate_input validate_output true st) = Ok report ->
  self st2 = self (snd (analyze' t validate_input validate_output true st)) ->
  let second := analyze' t' validate_input validate_output' true st2 in
  fst second = Ok report /\
  self (snd second) = self st2 /\
  world (snd second) = world st2 /\
  invocations (trace (snd second)) = invocations (trace st2).
Proof.
  intros U U' WF P On E Same second.
  destruct (first_call_caches analyst_chain synthesis_chain model_dump_json
              encode_error md5_hexdigest t validate_input validate_output st
              report On E)
    as (text & c & A & Ft & Enc & On' & C & G).
  rewrite <- Same in On', C.
  apply served_from_cache with text c; try assumption.
  - destruct A as [Off|[msg V]]; [left; exact Off|right].
    rewrite (ValidateFacts.validate_flat t m U) in V.
    rewrite (ValidateFacts.validate_flat t' m' U').
    pose proof (MoreUtilsFacts.verdict_perm m m' P) as Vp.
    destruct (Spec.validate_checks m') as [v' o'].
    inversion V as [Hv]. rewrite Hv in Vp. cbn [fst] in Vp. subst v'.
    exists o'. reflexivity.
  - rewrite (FormatFacts.format_perm t t' m m' U U' WF P). exact Ft.
Qed.

(** X13: [clear_cache] never raises; it leaves the switches, the backend
    and a missing cache as they are and makes a cache that is there empty.
    After it nothing is served from the cache: a report that a following
    call of [analyze] returns is the result of both stages of that call. *)
Theorem clear_cache_empties (st : pstate (W := W)) :
  let after := snd (clear_cache st) in
  fst (clear_cache st) = Ok tt /\
  enable_cache (self after) = enable_cache (self st) /\
  max_retries (self after) = max_retries (self st) /\
  world after = world st /\
  invocations (trace after) = invocations (trace st) /\
  (cache (self st) = None -> cache (self after) = None) /\
  (forall c, cache (self st) = Some c -> cache (self after) = Some []) /\
  (forall t validate_input validate_output use_cache report,
      fst (analyze' t validate_input validate_output use_cache after) = Ok report ->
      exists text k a k2,
        Utils.format_transcript t = Ok text /\
        stages_succeed text (world st) (Spec.budget (self st)) k a k2 report).
Proof.
  intros after.
  assert (Core :
    fst (clear_cache st) = Ok tt /\
    enable_cache (self after) = enable_cache (self st) /\
    max_retries (self after) = max_retries (self st) /\
    world after = world st /\
    invocations (trace after) = invocations (trace st) /\
    (cache (self st) = None -> cache (self after) = None) /\
    (forall c, cache (self st) = Some c -> cache (self after) = Some [])).
  { subst after. unfold clear_cache. rewrite bind_get_self.
    destruct (cache (self st)) as [[|entry c]|] eqn:C.
    - unfold ret. cbn [fst snd]. rewrite C.
      repeat split; try reflexivity; try discriminate.
    - unfold set_cache, log, emit, extend, bind. cbn [fst snd self world trace cache
        enable_cache max_retries].
      repeat split; try reflexivity; try discriminate.
      rewrite invocations_app. cbn. lia.
    - unfold ret. cbn [fst snd]. rewrite C.
      repeat split; try reflexivity; try discriminate. }
  destruct Core as (E & Ec & Em & Ew & Ei & Hnone & Hsome).
  repeat (split; [assumption|]).
  intros t validate_input validate_output use_cache report Eok.
  destruct (refines t validate_input validate_output use_cache after)
    as (evs & _ & R).
  rewrite Eok in R.
  remember (self (snd (analyze' t validate_input validate_output use_cache after)))
    as this' eqn:Ethis.
  clear Ethis.
  assert (B : Spec.budget (self after) = Spec.budget (self st))
    by (unfold Spec.budget; rewrite Em; reflexivity).
  inversion R; subst.
  - exfalso.
    destruct (cache (self st)) as [c0|] eqn:C.
    + rewrite (Hsome c0 eq_refl) in *.
      match goal with
      | H : Some [] = Some c |- _ => inversion H; subst c
      end.
      discriminate.
    + rewrite (Hnone eq_refl) in *. discriminate.
  - exists text, k, a, k2. split; [assumption|].
    rewrite <- Ew, <- B. assumption.
Qed.

(** X14: the cache is there whenever it is enabled, on every pipeline
    object the constructor builds and after every call of [analyze] and
    [clear_cache] on such an object; so on these objects
    [get_cache_stats] never raises, and with the cache enabled it gives
    the number of entries as [size] and their fingerprints, in the order
    of their insertion, as [keys]. *)
Theorem cache_present_when_enabled :
  (forall enabled retries,
      enable_cache (__init__ enabled retries) = true ->
      cache (__init__ enabled retries) <> None) /\
  (forall t validate_input validate_output use_cache (st : pstate (W := W)),
      (enable_cache (self st) = true -> cache (self st) <> None) ->
      let after := snd (analyze' t validate_input validate_output use_cache st) in
      enable_cache (self after) = true -> cache (self after) <> None) /\
  (forall st : pstate (W := W),
      (enable_cache (self st) = true -> cache (self st) <> None) ->
      let after := snd (clear_cache st) in
      enable_cache (self after) = true -> cache (self after) <> None) /\
  (forall this : pipeline,
      (enable_cache this = true -> cache this <> None) ->
      (enable_cache this = false /\
       get_cache_stats this = Ok [("enabled", SBool false)])
      \/
      (exists c,
          enable_cache this = true /\ cache this = Some c /\
          get_cache_stats this =
            Ok [("enabled", SBool true);
                ("size", SInt (List.length c));
                ("keys", SKeys (map fst c))])).
Proof.
  split; [exact init_has_cache|]. split.
  { intros t vi vo uc st Built after.
    exact (analyze_keeps_cache analyst_chain synthesis_chain model_dump_json
             encode_error md5_hexdigest t vi vo uc st Built). }
  split.
  { intros st Built after On.
    subst after. revert On. unfold clear_cache. rewrite bind_get_self.
    destruct (cache (self st)) as [[|entry c]|] eqn:C.
    - unfold ret. cbn [snd]. rewrite C. discriminate.
    - unfold set_cache, log, emit, extend, bind.
      cbn [fst snd self world trace cache enable_cache]. discriminate.
    - unfold ret. cbn [snd]. rewrite C. exact Built. }
  intros this Built. unfold get_cache_stats.
  destruct (enable_cache this) eqn:On; cbn [negb].
  - right. destruct (cache this) as [c|] eqn:C.
    + exists c. auto.
    + exfalso. exact (Built eq_refl eq_refl).
  - left. auto.
Qed.

(** X15: the request handler never reads the metadata of a request: two
    requests with the same transcript get the same answer and leave the
    same state, whatever their metadata. *)
Theorem metadata_is_ignored
        (metadata1 metadata2 : pydict) (fields : PyDict.t string)
        (st : pstate (W := W)) :
  analyze_interview analyst_chain synthesis_chain model_dump_json
    encode_error md5_hexdigest
    {| metadata := metadata1; transcript := fields |} st =
  analyze_interview analyst_chain synthesis_chain model_dump_json
    encode_error md5_hexdigest
    {| metadata := metadata2; transcript := fields |} st.
Proof.
  unfold analyze_interview.
  rewrite (analyze_unwrap
             (request_dict {| metadata := metadata1; transcript := fields |})
             (request_dict {| metadata := metadata2; transcript := fields |})
             true true true st eq_refl).
  reflexivity.
Qed.

(** X16: behind the request handler validation never raises. A request
    whose transcript the checks reject is answered with status 400 and the
    detail ["Invalid transcript: "] followed by the reason, without any
    call of the backend and with the pipeline object unchanged; and a
    report is only ever answered for a transcript that the checks
    accept. *)
Theorem rejected_request_gets_400
        (request : AnalysisRequest) (st : pstate (W := W)) :
  let out := analyze_interview analyst_chain synthesis_chain model_dump_json
               encode_error md5_hexdigest request st in
  Utils.validate_transcript (request_dict request) =
    Ok (Spec.validate_checks (transcript request)) /\
  (forall reason,
      Spec.validate_checks (transcript request) = (false, Some reason) ->
      fst out = HTTPException 400 ("Invalid transcript: " ++ reason) /\
      self (snd out) = self st /\
      world (snd out) = world st /\
      invocations (trace (snd out)) = invocations (trace st)) /\
  (forall report,
      fst out = Report report ->
      Spec.validate_checks (transcript request) = (true, None)).
Proof.
  intros out.
  assert (V : Utils.validate_transcript (request_dict request) =
              Ok (Spec.validate_checks (transcript request)))
    by (apply ValidateFacts.validate_flat; reflexivity).
  destruct (refines (request_dict request) true true true st)
    as (evs & Htrace & R).
  assert (Out : out =
    match analyze' (request_dict request) true true true st with
    | (Ok report, st') => (Report report, st')
    | (Raise e, st') =>
        if is_ValueError (exn_class e)
        then (HTTPException 400 (exn_msg e), st')
        else (HTTPException 500
                ("An unexpected error occurred: " ++ exn_msg e), st')
    end) by reflexivity.
  split; [exact V|]. split.
  - intros reason Rej. rewrite Rej in V.
    pose proof (Spec.run_rejected analyst_chain synthesis_chain model_dump_json
                  encode_error md5_hexdigest (self st) (world st)
                  (request_dict request)
                  true true true (Some reason) eq_refl V) as R'.
    destruct (analyze_run_deterministic _ _ _ _ _ _ _ _ _ _ _ _ _ _ _ _ _ _ _ _ R R')
      as (Er & Es & Ew & Ec).
    rewrite Out.
    destruct (analyze' (request_dict request) true true true st) as [r st'].
    cbn [fst snd] in *. subst r. cbn [exn_class is_ValueError exn_msg
                                         str_of_optional fst snd].
    split; [reflexivity|]. split; [exact Es|]. split; [exact Ew|].
    rewrite Htrace, invocations_app, (invoked_none _ Ec). lia.
  - intros report Rep. rewrite Out in Rep.
    destruct (analyze' (request_dict request) true true true st) as [r st'].
    cbn [fst snd] in *.
    destruct r as [report'|e].
    + remember (self st') as this' eqn:Ethis. clear Ethis.
      assert (A : Spec.accepted true (request_dict request))
        by (inversion R; subst; assumption).
      destruct A as [Off|[msg Vt]]; [discriminate|].
      rewrite V in Vt. inversion Vt as [Hc]. rewrite Hc.
      rewrite (MoreUtilsFacts.accepted_message _ _ Hc). reflexivity.
    + destruct (is_ValueError (exn_class e)); discriminate.
Qed.

End MoreFacadeFacts.

(** ** These properties on sample runs *)

Lemma no_attempt_without_budget_witness :
  let st := SampleBackend.start (__init__ true 0) SampleBackend.flaky in
  let run := SampleBackend.analyze (wrapped Samples.valid_example)
               true true true st in
  (max_retries (self st) < 1)%Z /\
  invocations (trace (snd run)) = invocations (trace st) /\
  fst run =
    Raise (mk_exn AttributeError "'NoneType' object has no attribute 'snippets'").
Proof.
  intros st run.
  assert (Small : (max_retries (self st) < 1)%Z) by (cbn; lia).
  destruct (no_attempt_without_budget SampleBackend.analyst_chain
              SampleBackend.synthesis_chain SampleBackend.model_dump_json
              SampleBackend.encode_error SampleBackend.md5_hexdigest
              (wrapped Samples.valid_example) true true true st Small)
    as (_ & _ & I & _ & Hraise).
  split; [exact Small|]. split; [exact I|].
  eapply Hraise.
  - right. exists None. reflexivity.
  - reflexivity.
  - right. split; [reflexivity|]. exists []. split; reflexivity.
Defined.

Lemma analyze_calls_bounded_witness :
  let st := SampleBackend.start (__init__ true 3) SampleBackend.flaky in
  let t := wrapped [("interviewer", "Q?")] in
  let run := SampleBackend.analyze t true true true st in
  Utils.validate_transcript t =
    Ok (false, Some "Transcript must have at least 2 exchanges") /\
  world (snd run) = world st /\
  self (snd run) = self st.
Proof.
  intros st t run.
  assert (V : Utils.validate_transcript t =
              Ok (false, Some "Transcript must have at least 2 exchanges"))
    by reflexivity.
  destruct (analyze_calls_bounded SampleBackend.analyst_chain
              SampleBackend.synthesis_chain SampleBackend.model_dump_json
              SampleBackend.encode_error SampleBackend.md5_hexdigest t true true true st)
    as (evs & _ & _ & Hrej).
  destruct (Hrej eq_refl _ V) as (_ & Ew & Es).
  split; [exact V|]. split; [exact Ew|exact Es].
Defined.

Lemma use_cache_off_bypasses_cache_witness :
  let st := SampleBackend.start (__init__ true 3) SampleBackend.flaky in
  let run := SampleBackend.analyze (wrapped Samples.valid_example)
               true true false st in
  fst run = Ok SampleReports.good_report /\
  self (snd run) = self st /\
  cache (self (snd run)) = Some [].
Proof.
  intros st run.
  destruct (use_cache_off_bypasses_cache SampleBackend.analyst_chain
              SampleBackend.synthesis_chain SampleBackend.model_dump_json
              SampleBackend.encode_error SampleBackend.md5_hexdigest (wrapped Samples.valid_example)
              true true st)
    as (Same & _).
  split; [reflexivity|]. split; [exact Same|reflexivity].
Defined.

Lemma cache_only_grows_witness :
  let st := SampleBackend.start (__init__ true 3) SampleBackend.flaky in
  let run := SampleBackend.analyze (wrapped Samples.valid_example)
               true true true st in
  cache (self st) = Some [] /\
  exists c',
    cache (self (snd run)) = Some c' /\
    (c' = [] \/
     exists text report,
       fst run = Ok report /\
       Utils.format_transcript (wrapped Samples.valid_example) = Ok text /\
       PyDict.get (SampleBackend.md5_hexdigest text)
         (@nil (string * FinalReport)) = None /\
       c' = ([] ++ [(SampleBackend.md5_hexdigest text, report)])%list).
Proof.
  intros st run.
  assert (C : cache (self st) = Some []) by reflexivity.
  split; [exact C|].
  destruct (cache_only_grows SampleBackend.analyst_chain
              SampleBackend.synthesis_chain SampleBackend.model_dump_json
              SampleBackend.encode_error SampleBackend.md5_hexdigest
              (wrapped Samples.valid_example) true true true st [] C)
    as (c' & E & H & _).
  exists c'. split; [exact E|exact H].
Defined.


Lemma reordered_fields_hit_cache_witness :
  let st := SampleBackend.start (__init__ true 3) SampleBackend.flaky in
  let m := Samples.valid_example in
  let m' := [("candidate", "A1"); ("interviewer", "Q1")] in
  let first := SampleBackend.analyze (wrapped m) true true true st in
  let second := SampleBackend.analyze (of_texts m') true true true (snd first) in
  PyDict.wf m /\
  Permutation m m' /\
  enable_cache (self st) = true /\
  fst first = Ok SampleReports.good_report /\
  fst second = Ok SampleReports.good_report /\
  invocations (trace (snd second)) = invocations (trace (snd first)).
Proof.
  intros st m m' first second.
  assert (WF : PyDict.wf m).
  { unfold PyDict.wf. simpl.
    repeat constructor; simpl; intuition discriminate. }
  assert (P : Permutation m m') by apply perm_swap.
  assert (On : enable_cache (self st) = true) by reflexivity.
  assert (E : fst first = Ok SampleReports.good_report) by reflexivity.
  destruct (reordered_fields_hit_cache SampleBackend.analyst_chain
              SampleBackend.synthesis_chain SampleBackend.model_dump_json
              SampleBackend.encode_error SampleBackend.md5_hexdigest (wrapped m) (of_texts m') m m'
              true true true st (snd first) SampleReports.good_report
              eq_refl eq_refl WF P On E eq_refl)
    as (R & _ & _ & I).
  repeat (split; [assumption|]). exact I.
Defined.

Lemma clear_cache_empties_witness :
  let st := snd (SampleBackend.analyze (wrapped Samples.valid_example)
                   true true true
                   (SampleBackend.start (__init__ true 3) SampleBackend.flaky)) in
  let after := snd (clear_cache st) in
  (exists entry, cache (self st) = Some [entry]) /\
  cache (self after) = Some [] /\
  get_cache_stats (self after) =
    Ok [("enabled", SBool true); ("size", SInt 0); ("keys", SKeys [])].
Proof.
  intros st after.
  assert (C : exists entry, cache (self st) = Some [entry])
    by (eexists; reflexivity).
  split; [exact C|]. destruct C as [entry C].
  destruct (clear_cache_empties SampleBackend.analyst_chain
              SampleBackend.synthesis_chain SampleBackend.model_dump_json
              SampleBackend.encode_error SampleBackend.md5_hexdigest st)
    as (_ & _ & _ & _ & _ & _ & Hsome & _).
  split; [exact (Hsome _ C)|reflexivity].
Defined.

Lemma cache_present_when_enabled_witness :
  enable_cache (__init__ true 3) = true /\
  cache (__init__ true 3) <> None /\
  get_cache_stats (__init__ true 3) =
    Ok [("enabled", SBool true); ("size", SInt 0); ("keys", SKeys [])].
Proof.
  destruct (cache_present_when_enabled (W := SampleBackend.script)
              SampleBackend.analyst_chain SampleBackend.synthesis_chain
              SampleBackend.model_dump_json SampleBackend.encode_error
              SampleBackend.md5_hexdigest)
    as (Init & _ & _ & _).
  split; [reflexivity|]. split; [exact (Init true 3%Z eq_refl)|reflexivity].
Defined.

Lemma rejected_request_gets_400_witness :
  let st := SampleBackend.start (__init__ true 3) SampleBackend.flaky in
  let out := SampleBackend.analyze_interview SampleBackend.short_request st in
  Spec.validate_checks (transcript SampleBackend.short_request) =
    (false, Some "Transcript must have at least 2 exchanges") /\
  fst out =
    HTTPException 400
      "Invalid transcript: Transcript must have at least 2 exchanges" /\
  world (snd out) = world st.
Proof.
  intros st out.
  assert (V : Spec.validate_checks (transcript SampleBackend.short_request) =
              (false, Some "Transcript must have at least 2 exchanges"))
    by reflexivity.
  destruct (rejected_request_gets_400 SampleBackend.analyst_chain
              SampleBackend.synthesis_chain SampleBackend.model_dump_json
              SampleBackend.encode_error SampleBackend.md5_hexdigest SampleBackend.short_request st)
    as (_ & Hrej & _).
  destruct (Hrej _ V) as (E & _ & Ew & _).
  split; [exact V|]. split; [exact E|exact Ew].
Defined.
